(** * ChainGuard risk-scoring engine: a shallow embedding and its properties

    The development follows the Python sources [backend.py], [api_server.py]
    and [app.py].  Part I embeds the code, module by module; Part II states
    and proves the properties of the specification; Part III proves further
    properties of the code: ranges, invariants of the monitoring loop, the
    reports and the agreement of the thresholds across the modules.

    Numeric conventions.
    - Python [int] is [Z].
    - A fraud probability is a Python [float]: an IEEE-754 binary64 number,
      here Rocq's primitive [float], whose operations are the machine's.
      General facts about them go through the specification functions of
      [Stdlib.Floats] ([Prim2SF], [SF64mul], [SFltb], ...).
    - The point scores of the CSV analyzer, the aggregates of the
      node-analysis table (SQLite [REAL] columns) and the rates of the
      reports and metrics are modelled as exact rationals [Q]: the
      properties proved about them are identities and bounds of the
      formulas, not statements about rounding.
    - A Python [str] is a [string] (its UTF-8 bytes); [dict]s keyed by strings
      are [gmap string _], the processed-hash [set] is a [gset string]. *)

From Stdlib Require Import ZArith QArith Qround Qabs Qminmax Lqa Floats Ascii String List
  Sorted Lia.
From stdpp Require Import gmap strings list pretty.

Local Open Scope string_scope.
Local Open Scope Z_scope.

(** Decimal literals such as [0.95] denote the nearest binary64 value, as
    they do in Python. *)
Set Warnings "-inexact-float".

(** * Part I: the embedding *)

(** ** Python built-ins on floats *)

Module PyFloat.

(** [min(a, b)]: the first argument unless the second is smaller. *)
Definition py_min (a b : float) : float := if (b <? a)%float then b else a.

(** [max(a, b)]: the first argument unless the second is greater. *)
Definition py_max (a b : float) : float := if (a <? b)%float then b else a.

(** Truncation of a binary64 value toward zero; [None] on NaN and the
    infinities. *)
Definition SFtrunc (x : spec_float) : option Z :=
  match x with
  | S754_zero _ => Some 0
  | S754_finite s m e => Some (cond_Zopp s (Z.shiftl (Z.pos m) e))
  | S754_infinity _ | S754_nan => None
  end.

(** The greatest integer below a binary64 value; [None] on NaN and the
    infinities. *)
Definition SFfloor (x : spec_float) : option Z :=
  match x with
  | S754_zero _ => Some 0
  | S754_finite s m e => Some (Z.shiftl (cond_Zopp s (Z.pos m)) e)
  | S754_infinity _ | S754_nan => None
  end.

(** [int(x)]: raises [ValueError] / [OverflowError] ([None]) on NaN / inf. *)
Definition py_int (x : float) : option Z := SFtrunc (Prim2SF x).

(** [math.floor(x)]. *)
Definition py_floor (x : float) : option Z := SFfloor (Prim2SF x).

(** [float(z)] for an integer within the binary64 range. *)
Definition of_Z (z : Z) : float := SF2Prim (binary_normalize prec emax z 0 false).

End PyFloat.

(** ** [api_server.py]: the centralized risk classifier *)

Inductive RiskLevel := BLOCKED | SUSPICIOUS | APPROVED.
Inductive RiskAction := Block | Alert | Approve.
Inductive ThreatLevel := HIGH | MEDIUM | LOW.

#[global] Instance RiskLevel_eq_dec : EqDecision RiskLevel.
Proof. solve_decision. Defined.

Record RiskInfo := {
  level : RiskLevel;
  action : RiskAction;
  threat_level : ThreatLevel;
  description : string;
  triggers_alert : bool
}.

(** The classifier is called with [int] scores (ensemble path) and with
    [float] scores (CSV analyzer); the only thing it does with a score is to
    compare it with an integer literal. *)
Class PyScore (A : Type) := score_ge : A -> Z -> bool.

#[global] Instance PyScore_Z : PyScore Z := fun s k => k <=? s.
#[global] Instance PyScore_Q : PyScore Q := fun s k => Qle_bool (inject_Z k) s.

Definition get_risk_level_and_action {A} `{PyScore A} (risk_score : A) : RiskInfo :=
  if score_ge risk_score 80 then
    {| level := BLOCKED; action := Block; threat_level := HIGH;
       description := "  CRITICAL - Block Transaction Immediately";
       triggers_alert := false |}
  else if score_ge risk_score 65 then
    {| level := SUSPICIOUS; action := Alert; threat_level := MEDIUM;
       description := "⚠️ HIGH RISK - Flag for Investigation";
       triggers_alert := true |}
  else
    {| level := APPROVED; action := Approve; threat_level := LOW;
       description := "✅ LOW RISK - Allow Transaction";
       triggers_alert := false |}.

(** ** Python built-ins on strings (ASCII range) *)

Module PyStr.

Definition lower_ascii (c : ascii) : ascii :=
  let n := nat_of_ascii c in
  if ((65 <=? n) && (n <=? 90))%nat then ascii_of_nat (n + 32) else c.

(** [s.lower()] *)
Fixpoint lower (s : string) : string :=
  match s with
  | EmptyString => EmptyString
  | String c s' => String (lower_ascii c) (lower s')
  end.

(** [sub in s] *)
Fixpoint contains (sub s : string) : bool :=
  String.prefix sub s ||
  match s with
  | EmptyString => false
  | String _ s' => contains sub s'
  end.

(** [s.endswith(suf)] *)
Definition endswith (s suf : string) : bool :=
  let n := String.length s in
  let k := String.length suf in
  ((k <=? n)%nat && String.eqb (String.substring (n - k) k s) suf)%bool.

(** [s.count(c)] for a one-character pattern *)
Fixpoint count (c : ascii) (s : string) : Z :=
  match s with
  | EmptyString => 0
  | String d s' => (if Ascii.eqb c d then 1 else 0) + count c s'
  end.

(** [s[:n]] *)
Fixpoint take (n : nat) (s : string) : string :=
  match n, s with
  | S n', String c s' => String c (take n' s')
  | _, _ => EmptyString
  end.

Definition is_space (c : ascii) : bool :=
  let n := nat_of_ascii c in
  ((n =? 32) || ((9 <=? n) && (n <=? 13)))%nat.

Fixpoint lstrip (s : string) : string :=
  match s with
  | String c s' => if is_space c then lstrip s' else s
  | EmptyString => EmptyString
  end.

Definition rev (s : string) : string :=
  string_of_list_ascii (List.rev (list_ascii_of_string s)).

(** [s.strip()] *)
Definition strip (s : string) : string := rev (lstrip (rev (lstrip s))).

(** [s.replace(',', '')] *)
Fixpoint remove_commas (s : string) : string :=
  match s with
  | String c s' =>
      if Ascii.eqb c "," then remove_commas s' else String c (remove_commas s')
  | EmptyString => EmptyString
  end.

End PyStr.

(** ** [hashlib.sha256]: SHA-256 (FIPS 180-4) on byte strings, words as
    integers below [2^32] *)

Module Sha256.

Definition w32 (x : Z) : Z := Z.land x 0xffffffff.
Definition add32 (x y : Z) : Z := w32 (x + y).
Definition rotr (n x : Z) : Z := Z.lor (Z.shiftr x n) (w32 (Z.shiftl x (32 - n))).
Definition not32 (x : Z) : Z := Z.lxor x 0xffffffff.

Definition Ch (x y z : Z) : Z := Z.lxor (Z.land x y) (Z.land (not32 x) z).
Definition Maj (x y z : Z) : Z :=
  Z.lxor (Z.lxor (Z.land x y) (Z.land x z)) (Z.land y z).
Definition Sigma0 (x : Z) : Z := Z.lxor (Z.lxor (rotr 2 x) (rotr 13 x)) (rotr 22 x).
Definition Sigma1 (x : Z) : Z := Z.lxor (Z.lxor (rotr 6 x) (rotr 11 x)) (rotr 25 x).
Definition sigma0 (x : Z) : Z := Z.lxor (Z.lxor (rotr 7 x) (rotr 18 x)) (Z.shiftr x 3).
Definition sigma1 (x : Z) : Z := Z.lxor (Z.lxor (rotr 17 x) (rotr 19 x)) (Z.shiftr x 10).

(** The round constants and the initial hash value are the first 32 bits of
    the fractional parts of the cube roots of the first 64 primes and of the
    square roots of the first 8. *)
Definition is_prime (n : Z) : bool :=
  forallb (fun d => negb (n mod d =? 0)) (seqZ 2 (n - 2)).

Definition primes (count : nat) : list Z :=
  firstn count (List.filter is_prime (seqZ 2 400)).

(** The integer [k]-th root of [x], by bisection between [lo] and [hi]. *)
Fixpoint root_between (fuel : nat) (k x lo hi : Z) : Z :=
  match fuel with
  | O => lo
  | S fuel' =>
      if hi - lo <=? 1 then lo
      else
        let mid := (lo + hi) / 2 in
        if mid ^ k <=? x then root_between fuel' k x mid hi
        else root_between fuel' k x lo mid
  end.

Definition fractional_bits (k p : Z) : Z :=
  w32 (root_between 200 k (p * 2 ^ (32 * k)) 0 (2 ^ 40)).

Definition K : list Z := map (fractional_bits 3) (primes 64).

Definition H0 : list Z := map (fractional_bits 2) (primes 8).

(** Padding: a 1 bit, zeros up to 56 mod 64, the bit length on 8 bytes. *)
Definition be_bytes (n : nat) (x : Z) : list Z :=
  map (fun i => Z.land (Z.shiftr x (8 * Z.of_nat i)) 0xff) (rev (seq 0 n)).

Definition pad (msg : list Z) : list Z :=
  let len := Z.of_nat (length msg) in
  let zeros := Z.to_nat ((55 - len) mod 64) in
  msg ++ [0x80] ++ repeat 0 zeros ++ be_bytes 8 (8 * len).

Fixpoint words (fuel : nat) (bs : list Z) : list Z :=
  match fuel, bs with
  | S f, b0 :: b1 :: b2 :: b3 :: rest =>
      (Z.shiftl b0 24 + Z.shiftl b1 16 + Z.shiftl b2 8 + b3) :: words f rest
  | _, _ => []
  end.

(** The message schedule, newest word first. *)
Fixpoint schedule (n : nat) (w : list Z) : list Z :=
  match n with
  | O => w
  | S n' =>
      let x := add32 (add32 (sigma1 (nth 1 w 0)) (nth 6 w 0))
                     (add32 (sigma0 (nth 14 w 0)) (nth 15 w 0)) in
      schedule n' (x :: w)
  end.

Definition round (st : list Z) (kw : Z * Z) : list Z :=
  match st with
  | [a; b; c; d; e; f; g; h] =>
      let t1 := add32 (add32 (add32 h (Sigma1 e)) (add32 (Ch e f g) (fst kw))) (snd kw) in
      let t2 := add32 (Sigma0 a) (Maj a b c) in
      [add32 t1 t2; a; b; c; add32 d t1; e; f; g]
  | _ => st
  end.

Definition compress (h : list Z) (block : list Z) : list Z :=
  let w := rev (schedule 48 (rev block)) in
  let st := fold_left round (combine K w) h in
  map (fun p => add32 (fst p) (snd p)) (combine h st).

Fixpoint blocks (fuel : nat) (ws : list Z) (h : list Z) : list Z :=
  match fuel, ws with
  | _, [] => h
  | O, _ => h
  | S f, _ => blocks f (skipn 16 ws) (compress h (firstn 16 ws))
  end.

Definition hex_digit (d : Z) : ascii :=
  if d <? 10 then ascii_of_N (Z.to_N (48 + d)) else ascii_of_N (Z.to_N (87 + d)).

Definition hex_word (w : Z) : string :=
  string_of_list_ascii
    (map (fun i => hex_digit (Z.land (Z.shiftr w (4 * Z.of_nat i)) 0xf)) (rev (seq 0 8))).

Definition bytes_of_string (s : string) : list Z :=
  map (fun c => Z.of_N (N_of_ascii c)) (list_ascii_of_string s).

(** [hashlib.sha256(s.encode()).hexdigest()] *)
Definition hexdigest (s : string) : string :=
  let bs := pad (bytes_of_string s) in
  let ws := words (length bs) bs in
  String.concat "" (map hex_word (blocks (length ws) ws H0)).

End Sha256.

(** ** pandas frames *)

(** A cell is what the code can observe of it: null ([NaN] or [None]), a
    number (an int64 or float64, read through [float()]) with its [str()]
    rendering, or a string. *)
Inductive Cell :=
| NaN
| Num (value : float) (text : string)
| Str (s : string).

(** A frame: the ordered column names and, in index order, one
    name-to-cell map per row. *)
Record DataFrame := {
  columns : list string;
  rows : list (gmap string Cell)
}.

(** [str(x)] on a cell *)
Definition py_str (c : Cell) : string :=
  match c with
  | NaN => "nan"
  | Num _ text => text
  | Str s => s
  end.

(** [pd.notna(x)] *)
Definition notna (c : Cell) : bool :=
  match c with NaN => false | _ => true end.

(** ** [backend.py]: the pattern-based scorer *)

Module Backend.
Import PyFloat.

(** One row of the raw frame, as [predict_with_risk] reads it:
    [str(row['TxHash'])], [str(row['From'])], [str(row['To'])], the numeric
    [row['Value']] with [str(row['Value'])], and [row['TimeStamp']] when
    the column is present. *)
Record Row := {
  TxHash : string;
  From : string;
  To : string;
  Value : float;
  Value_text : string;
  TimeStamp : option Z
}.

Inductive Label := Fraudulent | Suspicious | Normal.

(** The five action strings of [get_action], by their wording. *)
Inductive Action :=
| CRITICAL_Block_Transaction_Immediately
| HIGH_RISK_Flag_for_Investigation
| SUSPICIOUS_Requires_Manual_Review
| MEDIUM_RISK_Monitor_Closely
| LOW_RISK_Normal_Activity.

Record Scored := {
  row : Row;
  p_fraud : float;
  risk_score : Z;
  label : Label;
  action : Action
}.

(** [round(x)] on a float: nearest integer, ties to even; raises
    ([None]) on NaN and the infinities. *)
Definition SFround (x : spec_float) : option Z :=
  match x with
  | S754_zero _ => Some 0
  | S754_finite s m (Z.neg k) =>
      let d := Z.pow 2 (Z.pos k) in
      let q := Z.pos m / d in
      let r := Z.pos m mod d in
      let up := match 2 * r ?= d with
                | Lt => false
                | Gt => true
                | Eq => Z.odd q
                end in
      Some (cond_Zopp s (if up then q + 1 else q))
  | S754_finite s m e => Some (cond_Zopp s (Z.shiftl (Z.pos m) e))
  | S754_infinity _ | S754_nan => None
  end.

Definition py_round (x : float) : option Z := SFround (Prim2SF x).

(** [max(0.0, min(0.95, x))] *)
Definition clamp (x : float) : float := py_max 0 (py_min 0.95 x).

(** [arr.astype(int)] on one element: the C cast, truncation toward zero;
    undefined ([None]) on NaN, the infinities and outside int64. *)
Definition astype_int (x : float) : option Z :=
  t ← py_int x;
  if ((- 2 ^ 63 <=? t) && (t <? 2 ^ 63))%bool then Some t else None.

Definition get_fraud_label (risk_score : Z) : Label :=
  if 80 <=? risk_score then Fraudulent
  else if 50 <=? risk_score then Suspicious
  else Normal.

Definition get_action (risk_score : Z) : Action :=
  if 80 <=? risk_score then CRITICAL_Block_Transaction_Immediately
  else if 65 <=? risk_score then HIGH_RISK_Flag_for_Investigation
  else if 50 <=? risk_score then SUSPICIOUS_Requires_Manual_Review
  else if 30 <=? risk_score then MEDIUM_RISK_Monitor_Closely
  else LOW_RISK_Normal_Activity.

Section Scorer.

(** The interpreter's salted [hash] on strings and the hour of
    [datetime.fromtimestamp] in the machine's local time zone. *)
Variable py_hash : string -> Z.
Variable local_hour : Z -> Z.

Definition has_repeat (addr : string) : bool :=
  PyStr.contains "0000" addr || PyStr.contains "1111" addr ||
  PyStr.contains "ffff" addr.

(** The body of the [for _, row in df_raw.iterrows()] loop up to the
    first clamp: the accumulated [risk_score]. *)
Definition accumulate (r : Row) : option float :=
  let risk_score := 0%float in
  let value_eth := (Value r / 1e18)%float in
  let risk_score :=
    if (100 <? value_eth)%float then (risk_score + 0.4)%float
    else if (50 <? value_eth)%float then (risk_score + 0.25)%float
    else if (10 <? value_eth)%float then (risk_score + 0.1)%float
    else risk_score in
  rounded ← py_round value_eth;
  let risk_score :=
    if (abs (value_eth - of_Z rounded) <? 0.001)%float
    then (risk_score + 0.3)%float else risk_score in
  let risk_score :=
    if (value_eth <? 0.001)%float
    then (risk_score + 0.2)%float else risk_score in
  let risk_score :=
    if String.eqb (PyStr.lower (From r)) (PyStr.lower (To r))
    then (risk_score + 0.5)%float else risk_score in
  let from_addr := PyStr.lower (From r) in
  let to_addr := PyStr.lower (To r) in
  let risk_score :=
    if has_repeat from_addr then (risk_score + 0.15)%float else risk_score in
  let risk_score :=
    if has_repeat to_addr then (risk_score + 0.15)%float else risk_score in
  let risk_score :=
    if PyStr.endswith from_addr "0000" || PyStr.endswith to_addr "0000"
    then (risk_score + 0.1)%float else risk_score in
  let base_randomness :=
    (of_Z (py_hash (from_addr ++ to_addr ++ Value_text r) mod 100)
       / 1000)%float in
  let risk_score := (risk_score + base_randomness)%float in
  let risk_score :=
    match TimeStamp r with
    | Some ts =>
        let hour := local_hour ts in
        if (hour <? 6) || (22 <? hour)
        then (risk_score + 0.05)%float else risk_score
    | None => risk_score
    end in
  Some risk_score.

(** One element of [predictions]. *)
Definition predict_row (r : Row) : option float :=
  risk_score ← accumulate r;
  let risk_score := clamp risk_score in
  let final_variance :=
    (of_Z (py_hash (TxHash r) mod 20 - 10) / 100)%float in
  Some (clamp (risk_score + final_variance)%float).

Definition score_row (r : Row) : option Scored :=
  p ← predict_row r;
  rs ← astype_int (p * 100)%float;
  Some {| row := r; p_fraud := p; risk_score := rs;
          label := get_fraud_label rs; action := get_action rs |}.

(** [predict_with_risk]: an exception in any row aborts the call. *)
Definition predict_with_risk (df_raw : list Row) : option (list Scored) :=
  mapM score_row df_raw.

End Scorer.

(** A row of a frame as [predict_with_risk] reads it; [None] when a read
    raises ([KeyError], or [TypeError] on a string in a numeric column). *)
Definition row_of_series (series : gmap string Cell) : option Row :=
  tx_hash ← series !! "TxHash";
  from ← series !! "From";
  to ← series !! "To";
  value ← series !! "Value";
  v ← match value with
       | Num v _ => Some v
       | NaN => Some nan
       | Str _ => None
       end;
  ts ← match series !! "TimeStamp" with
        | Some (Num t _) => Some <$> py_floor t
        | Some _ => None
        | None => Some None
        end;
  Some {| TxHash := py_str tx_hash;
          From := py_str from;
          To := py_str to;
          Value := v;
          Value_text := py_str value;
          TimeStamp := ts |}.

(** [predict_with_risk] on a frame *)
Definition predict_frame (py_hash : string -> Z) (local_hour : Z -> Z)
    (df_raw : DataFrame) : option (list Scored) :=
  mapM row_of_series (rows df_raw) ≫= predict_with_risk py_hash local_hour.

(** [hash_identifier(x, salt="chainguard_salt")] *)
Definition hash_identifier (x : string) : string :=
  PyStr.take 16 (Sha256.hexdigest (x ++ "chainguard_salt")).

(** One turn of the loop of [apply_privacy_hashing]:
    [df_private[col] = df_private[col].apply(lambda x: hash_identifier(str(x)))]
    when [col in df_private.columns]. *)
Definition hash_column (df_private : DataFrame) (col : string) : DataFrame :=
  if bool_decide (col ∈ columns df_private) then
    {| columns := columns df_private;
       rows := map (alter (fun x => Str (hash_identifier (py_str x))) col)
                   (rows df_private) |}
  else df_private.

Definition apply_privacy_hashing (df : DataFrame) (columns_to_hash : list string)
  : DataFrame :=
  fold_left hash_column columns_to_hash df.

End Backend.

(** ** Python arithmetic on exact rationals *)

Module PyQ.
Local Open Scope Q_scope.

Definition ltb (a b : Q) : bool := negb (Qle_bool b a).

(** [min(a, b)]: the first argument unless the second is smaller. *)
Definition py_min (a b : Q) : Q := if ltb b a then b else a.

(** [int(x)]: truncation toward zero *)
Definition py_int (x : Q) : Z := Z.quot (Qnum x) (Z.pos (Qden x)).

(** Nearest integer, ties to even *)
Definition round_half_even (x : Q) : Z :=
  let f := Qfloor x in
  match Qcompare (x - inject_Z f) (1 # 2) with
  | Lt => f
  | Gt => (f + 1)%Z
  | Eq => if Z.even f then f else (f + 1)%Z
  end.

(** [round(x, 2)] *)
Definition py_round2 (x : Q) : Q := inject_Z (round_half_even (x * 100)) / 100.

(** [round(x, 0)] *)
Definition py_round0 (x : Q) : Q := inject_Z (round_half_even x).

(** The exact value of a finite binary64 number.  The infinities have
    none: code that would compute with one is modelled as raising. *)
Definition of_float (x : float) : option Q :=
  match Prim2SF x with
  | S754_zero _ => Some 0
  | S754_finite s m e => Some (inject_Z (cond_Zopp s (Z.pos m)) * Qpower 2 e)
  | S754_infinity _ | S754_nan => None
  end.

End PyQ.

(** ** [api_server.py]: ensemble scoring and the CSV analyzer *)

Module ApiServer.
Import PyFloat.

(** One entry of the result list of either analyzer (the keys the engine
    itself reads back; display-only keys are left out). *)
Record Result := {
  transaction_id : Cell;
  res_From : Cell;
  res_To : Cell;
  res_Value : option Q;
  is_error : Z;
  risk_score : Z;
  fraud_probability : option float;
  label : RiskLevel;
  res_action : RiskAction;
  res_threat_level : ThreatLevel;
  flags : list string;
  is_fraud : option bool;
  model_type : option string
}.

(** *** The ensemble system *)

(** A sub-model, with feature engineering and scaling folded in: the
    positive-class probability it gives to each row of a frame. *)
Record EnsembleSystem := {
  is_loaded : bool;
  models : list (string * (DataFrame -> list float));
  weights : gmap string float;
  threshold : float
}.

(** The columns [advanced_feature_engineering_for_ensemble] indexes with
    [df[...]]; a missing one raises [KeyError]. *)
Definition ensemble_columns : list string :=
  ["Value"; "BlockHeight"; "isError"; "From"; "To"; "TimeStamp"].

(** [ensemble_proba += proba * weights[name]] *)
Definition add_weighted (acc proba : list float) (w : float) : option (list float) :=
  if decide (length proba = length acc)
  then Some (zip_with (fun a p => (a + p * w)%float) acc proba)
  else None.

Fixpoint ensemble_sum (sys : EnsembleSystem) (df : DataFrame)
    (ms : list (string * (DataFrame -> list float))) (acc : list float)
  : option (list float) :=
  match ms with
  | [] => Some acc
  | (name, model) :: ms' =>
      let proba := model df in
      w ← weights sys !! name;
      acc' ← add_weighted acc proba w;
      ensemble_sum sys df ms' acc'
  end.

(** [predict_with_ensemble]: [None] when the system is not loaded or when
    anything inside the [try] raises. *)
Definition predict_with_ensemble (sys : EnsembleSystem) (df : DataFrame)
  : option (list bool * list float) :=
  if negb (is_loaded sys) then None
  else if negb (forallb (fun c => bool_decide (c ∈ columns df)) ensemble_columns)
  then None
  else
    ensemble_proba ← ensemble_sum sys df (models sys)
                       (repeat 0%float (length (rows df)));
    let ensemble_pred := map (fun p => (threshold sys <=? p)%float) ensemble_proba in
    Some (ensemble_pred, ensemble_proba).

(** Hour and day of week (Monday is 0) of [pd.to_datetime(ts, unit='s')]. *)
Definition utc_hour (ts : Z) : Z := (ts / 3600) mod 24.
Definition utc_dayofweek (ts : Z) : Z := (ts / 86400 + 3) mod 7.

(** [a == b] on two cells fetched with [row.get]: two nulls differ. *)
Definition cell_eqb (a b : option Cell) : bool :=
  match a, b with
  | None, None => true
  | Some (Str x), Some (Str y) => String.eqb x y
  | Some (Num x _), Some (Num y _) => (x =? y)%float
  | _, _ => false
  end.

(** [flags.append(flag)] *)
Definition append (flags : list string) (flag : string) : list string :=
  (flags ++ [flag])%list.

Definition append_if (b : bool) (flag : string) (flags : list string) : list string :=
  if b then append flags flag else flags.

(** The body of the row loop of [analyze_with_ensemble_system]; [None]
    when it raises. *)
Definition ensemble_row (row : gmap string Cell) (pred : bool) (proba : float)
  : option Result :=
  value ← row !! "Value";
  raw_value ← match value with
               | Num v _ => q ← PyQ.of_float v; Some (Some q)
               | NaN => Some None
               | Str _ => None
               end;
  let value_eth :=
    (q ← raw_value;
     Some (if PyQ.ltb 1000 q then q / inject_Z (10 ^ 18) else q))%Q in
  let is_fraud := pred in
  let fraud_probability := proba in
  risk_score ← py_int (fraud_probability * 100)%float;
  let risk_info := get_risk_level_and_action risk_score in
  let flags := [] in
  let flags :=
    append_if (match row !! "isError" with
               | Some (Num v _) => (v =? 1)%float
               | _ => false
               end) "Transaction Error" flags in
  let flags :=
    match value_eth with
    | Some v =>
        if PyQ.ltb 100 v then append flags "Large Amount"
        else if PyQ.ltb v (1 # 1000) then append flags "Dust Transaction"
        else flags
    | None => flags
    end in
  let flags :=
    append_if (match value_eth with
               | Some v => Qeq_bool v (PyQ.py_round0 v) && Qle_bool 1 v
               | None => false
               end) "Round Amount" flags in
  let flags :=
    match row !! "TimeStamp" with
    | Some (Num ts _) =>
        match py_floor ts with
        | Some secs =>
            let flags :=
              append_if (bool_decide (utc_hour secs ∈ [2; 3; 4; 5]))
                        "Suspicious Hour" flags in
            append_if (5 <=? utc_dayofweek secs) "Weekend Transaction" flags
        | None => flags
        end
    | _ => flags
    end in
  let flags :=
    append_if (cell_eqb (row !! "From") (row !! "To")) "Self Transaction" flags in
  let flags := append_if is_fraud "Ensemble High Risk" flags in
  let flags :=
    append_if (0.8 <? fraud_probability)%float "High Confidence Fraud" flags in
  tx_hash ← row !! "TxHash";
  from ← row !! "From";
  to ← row !! "To";
  _ ← row !! "BlockHeight";
  _ ← row !! "TimeStamp";
  Some {| transaction_id := tx_hash;
          res_From := from;
          res_To := to;
          res_Value := value_eth;
          is_error := match row !! "isError" with
                      | Some (Num v _) => if (v =? 0)%float then 0 else 1
                      | Some NaN => 1
                      | Some (Str s) => if String.eqb s "" then 0 else 1
                      | None => 0
                      end;
          risk_score := risk_score;
          fraud_probability := Some fraud_probability;
          label := level risk_info;
          res_action := action risk_info;
          res_threat_level := threat_level risk_info;
          flags := flags;
          is_fraud := Some is_fraud;
          model_type := Some "Advanced Ensemble" |}.

Fixpoint ensemble_rows (rs : list (gmap string Cell)) (pred : list bool)
    (proba : list float) : option (list Result) :=
  match rs with
  | [] => Some []
  | row :: rs' =>
      match pred, proba with
      | b :: pred', p :: proba' =>
          r ← ensemble_row row b p;
          rest ← ensemble_rows rs' pred' proba';
          Some (r :: rest)
      | _, _ => None
      end
  end.

(** *** [CSVFraudAnalyzer]: the rule-based analyzer *)

(** What the fitted models and the random generator give for one row:
    [iso_predictions[idx]], [anomaly_scores[idx]],
    [catboost_predictions[idx]] ([None] when CatBoost is unavailable or its
    training failed) and the two random addresses drawn as defaults. *)
Record RowEnv := {
  iso_prediction : Z;
  anomaly_score : Q;
  catboost_class : option Z;
  random_from : string;
  random_to : string
}.

Section CsvAnalyzer.
Local Open Scope Q_scope.

(** [float(s)] on a string; [None] is [ValueError]. *)
Variable float_of_str : string -> option float.

(** [k in row and pd.notna(row[k])] *)
Definition present (row : gmap string Cell) (k : string) : option Cell :=
  c ← row !! k; if notna c then Some c else None.

(** [float(x)] on a non-null cell *)
Definition to_float (c : Cell) : option Q :=
  match c with
  | Num v _ => PyQ.of_float v
  | Str s => float_of_str s ≫= PyQ.of_float
  | NaN => None
  end.

(** [float(str(x).replace(',', ''))] on a non-null cell *)
Definition to_float_nocomma (c : Cell) : option Q :=
  match c with
  | Num v _ => PyQ.of_float v
  | Str s => float_of_str (PyStr.remove_commas s) ≫= PyQ.of_float
  | NaN => None
  end.

(** The amount: the first non-null of [Value], [value], [amount];
    [None] when [float] raises. *)
Definition get_amount (row : gmap string Cell) : option Q :=
  match present row "Value" with
  | Some c => to_float c
  | None =>
      match present row "value" with
      | Some c => to_float c
      | None =>
          match present row "amount" with
          | Some c => to_float c
          | None => Some 0
          end
      end
  end.

Definition get_is_error (row : gmap string Cell) : Z :=
  match present row "isError" with
  | Some c =>
      let error_val := PyStr.strip (PyStr.lower (py_str c)) in
      if bool_decide (error_val ∈ ["1"; "true"; "yes"; "error"]) then 1%Z
      else if bool_decide (error_val ∈ ["0"; "false"; "no"; "success"]) then 0%Z
      else match to_float c with
           | Some q => PyQ.py_int q
           | None => 0%Z
           end
  | None => 0%Z
  end.

(** [BlockHeight] and [TimeStamp] alike: 0 when absent, null or
    unparsable. *)
Definition get_int_field (row : gmap string Cell) (k : string) : Z :=
  match present row k with
  | Some c => match to_float_nocomma c with
              | Some q => PyQ.py_int q
              | None => 0%Z
              end
  | None => 0%Z
  end.

(** [str(row.get(k, default))] *)
Definition get_str (row : gmap string Cell) (k : string) (default : string) : string :=
  match row !! k with
  | Some c => py_str c
  | None => default
  end.

(** The second row loop of [analyze_transactions]. *)
Definition analyze_row (idx : nat) (row : gmap string Cell) (env : RowEnv)
  : option Result :=
  let risk_score := 0 in
  let flags := [] in
  amount ← get_amount row;
  let is_error := get_is_error row in
  let block_height := get_int_field row "BlockHeight" in
  let timestamp := get_int_field row "TimeStamp" in
  (* Rule-based scoring *)
  let '(risk_score, flags) :=
    if PyQ.ltb 10 amount then (risk_score + 30, append flags "Large Amount")
    else if PyQ.ltb 1 amount then (risk_score + 15, append flags "Medium Amount")
    else (risk_score, flags) in
  let '(risk_score, flags) :=
    if PyQ.ltb amount (1 # 1000)
    then (risk_score + 20, append flags "Dust Transaction")
    else (risk_score, flags) in
  let '(risk_score, flags) :=
    if (is_error =? 1)%Z
    then (risk_score + 40, append flags "Transaction Error")
    else (risk_score, flags) in
  let current_block_approx := 19000000%Z in
  let '(risk_score, flags) :=
    if (0 <? block_height)%Z then
      let block_age := (current_block_approx - block_height)%Z in
      if (block_age <? 100)%Z then (risk_score + 10, append flags "Recent Block")
      else if (10000000 <? block_age)%Z
           then (risk_score + 5, append flags "Old Block")
           else (risk_score, flags)
    else (risk_score, flags) in
  let '(risk_score, flags) :=
    if PyQ.ltb 0 amount &&
       PyQ.ltb (Qabs (amount - PyQ.py_round2 amount)) (1 # 10000)
    then (risk_score + 15, append flags "Round Amount")
    else (risk_score, flags) in
  (* ML-based scoring *)
  let ml_boost := 0%Z in
  let '(risk_score, flags, ml_boost) :=
    if (iso_prediction env =? -1)%Z then
      let ml_risk := PyQ.py_min 25 (Qabs (anomaly_score env) * 15) in
      (risk_score + ml_risk, append flags "Isolation Anomaly", (ml_boost + 10)%Z)
    else (risk_score, flags, ml_boost) in
  let '(risk_score, flags, ml_boost) :=
    match catboost_class env with
    | Some catboost_class =>
        if (2 <=? catboost_class)%Z
        then (risk_score + 20, append flags "CatBoost High Risk", (ml_boost + 15)%Z)
        else if (catboost_class =? 1)%Z
        then (risk_score + 10, append flags "CatBoost Medium Risk", (ml_boost + 5)%Z)
        else (risk_score, flags, ml_boost)
    | None => (risk_score, flags, ml_boost)
    end in
  let risk_score :=
    if (0 <? ml_boost)%Z
    then risk_score + inject_Z (Z.min 15 ml_boost) else risk_score in
  (* Determine status using centralized risk logic *)
  let risk_info := get_risk_level_and_action risk_score in
  let status := level risk_info in
  let tx_id := get_str row "TxHash" ("tx_" ++ pretty idx) in
  let from_addr := get_str row "From" (random_from env) in
  let to_addr := get_str row "To" (random_to env) in
  (* Additional address-based risk factors *)
  let '(risk_score, flags) :=
    if String.eqb from_addr to_addr
    then (risk_score + 25, append flags "Self Transfer")
    else (risk_score, flags) in
  let '(risk_score, flags) :=
    if (20 <? PyStr.count "0" from_addr)%Z
    then (risk_score + 10, append flags "Contract-like From")
    else (risk_score, flags) in
  let '(risk_score, flags) :=
    if (20 <? PyStr.count "0" to_addr)%Z
    then (risk_score + 10, append flags "Contract-like To")
    else (risk_score, flags) in
  Some {| transaction_id := Str tx_id;
          res_From := Str from_addr;
          res_To := Str to_addr;
          res_Value := Some amount;
          is_error := is_error;
          risk_score := Z.min 100 (PyQ.py_int risk_score);
          fraud_probability := None;
          label := status;
          res_action := action risk_info;
          res_threat_level := threat_level risk_info;
          flags := flags;
          is_fraud := None;
          model_type := None |}.

Fixpoint analyze_rows (idx : nat) (rs : list (gmap string Cell))
    (env : nat -> RowEnv) : option (list Result) :=
  match rs with
  | [] => Some []
  | row :: rs' =>
      r ← analyze_row idx row (env idx);
      rest ← analyze_rows (S idx) rs' env;
      Some (r :: rest)
  end.

(** [CSVFraudAnalyzer.analyze_transactions]; [None] when a row raises. *)
Definition analyze_transactions (df : DataFrame) (env : nat -> RowEnv)
  : option (list Result) :=
  analyze_rows 0 (rows df) env.

(** [analyze_with_ensemble_system]: any failure of the ensemble falls
    back to the rule-based analyzer. *)
Definition analyze_with_ensemble_system (sys : EnsembleSystem) (df : DataFrame)
    (env : nat -> RowEnv) : option (list Result) :=
  match predict_with_ensemble sys df with
  | None => analyze_transactions df env
  | Some (ensemble_pred, ensemble_proba) =>
      match ensemble_rows (rows df) ensemble_pred ensemble_proba with
      | Some results => Some results
      | None => analyze_transactions df env
      end
  end.

End CsvAnalyzer.

(** *** Bounded buffers *)

(** [buf.insert(0, x); if len(buf) > cap: buf.pop()] *)
Definition insert_front {A} (cap : nat) (x : A) (buf : list A) : list A :=
  let buf := x :: buf in
  if (cap <? length buf)%nat then removelast buf else buf.

(** [buf.append(x); if len(buf) > cap: buf.pop(0)] *)
Definition append_back {A} (cap : nat) (x : A) (buf : list A) : list A :=
  let buf := (buf ++ [x])%list in
  if (cap <? length buf)%nat then tail buf else buf.

(** *** The streaming path *)

(** [tx_data] as [monitoring_loop] builds it. *)
Record TxData := {
  TxHash : string;
  BlockHeight : Z;
  TimeStamp : Z;
  From : string;
  To : string;
  Value : float;
  Value_Wei : Z
}.

(** The result of [process_transaction_data]: [tx_data] and the scores. *)
Record Scored := {
  tx_data : TxData;
  st_fraud_probability : float;
  st_risk_score : Z;
  st_label : Backend.Label;
  st_action : Backend.Action
}.

(** An entry of the high-risk buffer comes from the stream or from an
    uploaded CSV. *)
Inductive Entry :=
| Streamed (tx : Scored)
| Uploaded (tx : Result).

Record Alert := {
  alert_tx : Entry;
  alert_type : string;
  alert_reason : string;
  alert_source : option string
}.

(** A row of the [node_analysis] table. *)
Record Node := {
  total_transactions : Z;
  fraud_transactions : Z;
  fraud_percentage : Q;
  total_value : Q;
  fraud_value : Q;
  node_risk_score : Q;
  first_seen : Z;
  last_seen : Z
}.

Record Database := {
  transactions : gmap string Scored;
  node_analysis : gmap string Node
}.

Definition null_address : string := "0x0000000000000000000000000000000000000000".

Section NodeAnalysis.
Local Open Scope Q_scope.

(** The risk score of an existing record after the update. *)
Definition updated_risk_score (fraud_percentage : Q)
    (new_fraud_tx new_total_tx : Z) (new_total_val : Q) : Q :=
  PyQ.py_min 100 (
    fraud_percentage * (4 # 10) +
    PyQ.py_min 100 ((inject_Z new_fraud_tx / 10) * 100) * (3 # 10) +
    PyQ.py_min 100 ((new_total_val / 1000) * 100) * (2 # 10) +
    PyQ.py_min 100 ((inject_Z new_total_tx / 100) * 100) * (1 # 10)
  ) / 100.

(** One turn of [for address in addresses]; [None] is
    [ZeroDivisionError]. *)
Definition update_address (now : Z) (is_fraud : bool) (tx_value : Q)
    (nodes : gmap string Node) (address : string) : option (gmap string Node) :=
  if String.eqb address "" || String.eqb address null_address then Some nodes
  else
    match nodes !! address with
    | Some result =>
        let new_total_tx := (total_transactions result + 1)%Z in
        let new_fraud_tx :=
          (fraud_transactions result + (if is_fraud then 1 else 0))%Z in
        let new_total_val := total_value result + tx_value in
        let new_fraud_val :=
          fraud_value result + (if is_fraud then tx_value else 0) in
        if (new_total_tx =? 0)%Z then None
        else
          let fraud_percentage :=
            (inject_Z new_fraud_tx / inject_Z new_total_tx) * 100 in
          let risk_score :=
            updated_risk_score fraud_percentage new_fraud_tx new_total_tx
                               new_total_val in
          Some (<[address := {| total_transactions := new_total_tx;
                                fraud_transactions := new_fraud_tx;
                                fraud_percentage := fraud_percentage;
                                total_value := new_total_val;
                                fraud_value := new_fraud_val;
                                node_risk_score := risk_score;
                                first_seen := first_seen result;
                                last_seen := now |}]> nodes)
    | None =>
        let fraud_percentage := if is_fraud then 100 else 0 in
        let risk_score := if is_fraud then 5 # 10 else 1 # 10 in
        Some (<[address := {| total_transactions := 1;
                              fraud_transactions := if is_fraud then 1 else 0;
                              fraud_percentage := fraud_percentage;
                              total_value := tx_value;
                              fraud_value := if is_fraud then tx_value else 0;
                              node_risk_score := risk_score;
                              first_seen := now;
                              last_seen := now |}]> nodes)
    end.

(** [update_node_analysis]: both addresses in one database transaction;
    an exception leaves the table as it was. *)
Definition update_node_analysis (now : Z) (tx : Scored)
    (nodes : gmap string Node) : gmap string Node :=
  let is_fraud :=
    match st_label tx with Backend.Fraudulent => true | _ => false end in
  match PyQ.of_float (Value (tx_data tx)) with
  | Some value =>
      let tx_value := value / inject_Z (10 ^ 18) in
      match
        nodes1 ← update_address now is_fraud tx_value nodes (From (tx_data tx));
        update_address now is_fraud tx_value nodes1 (To (tx_data tx))
      with
      | Some nodes2 => nodes2
      | None => nodes
      end
  | None => nodes
  end.

(** [save_transaction_to_db]: [INSERT OR REPLACE] keyed by the hash, then
    the node update. *)
Definition save_transaction_to_db (now : Z) (tx : Scored) (db : Database)
  : Database :=
  {| transactions := <[TxHash (tx_data tx) := tx]> (transactions db);
     node_analysis := update_node_analysis now tx (node_analysis db) |}.

End NodeAnalysis.

(** The module-level state of the server. *)
Record State := {
  total_processed : Z;
  total_fraud : Z;
  current_block : Z;
  last_processed_block : Z;
  live_transactions : list Scored;
  fraud_history : list float;
  high_risk_transactions : list Entry;
  suspicious_alerts : list Alert;
  transaction_queue : list Scored;
  processed_tx_hashes : gset string;
  database : Database
}.

(** A transaction and a block as the chain client returns them. *)
Record ChainTx := {
  chain_hash : string;
  chain_value : Z;
  chain_from : string;
  chain_to : option string
}.

Record Block := {
  block_timestamp : Z;
  block_transactions : list ChainTx
}.

Section Monitoring.
Variable py_hash : string -> Z.
Variable local_hour : Z -> Z.

(** [str(x)] on a float *)
Variable str_of_value : float -> string.

(** The wall clock, read when a record is written. *)
Variable now : Z.

(** [process_transaction_data]: the one-row frame through
    [backend.predict_with_risk]; [None] when it raises. *)
Definition process_transaction_data (tx : TxData) : option Scored :=
  match
    Backend.predict_with_risk py_hash local_hour
      [ {| Backend.TxHash := TxHash tx;
           Backend.From := From tx;
           Backend.To := To tx;
           Backend.Value := Value tx;
           Backend.Value_text := str_of_value (Value tx);
           Backend.TimeStamp := Some (TimeStamp tx) |} ]
  with
  | Some [df_result] =>
      Some {| tx_data := tx;
              st_fraud_probability := Backend.p_fraud df_result;
              st_risk_score := Backend.risk_score df_result;
              st_label := Backend.label df_result;
              st_action := Backend.action df_result |}
  | _ => None
  end.

Definition make_tx_data (block_num : Z) (block : Block) (tx : ChainTx) : TxData :=
  let tx_hash := chain_hash tx in
  let tx_hash :=
    if String.prefix "0x" tx_hash then tx_hash else "0x" ++ tx_hash in
  let value_wei := chain_value tx in
  let value_eth := (of_Z value_wei / 1e18)%float in
  {| TxHash := tx_hash;
     BlockHeight := block_num;
     TimeStamp := block_timestamp block;
     From := chain_from tx;
     To := default null_address (chain_to tx);
     Value := value_eth;
     Value_Wei := value_wei |}.

Definition set_pipeline (st : State) (queue : list Scored)
    (hashes : gset string) (db : Database) : State :=
  {| total_processed := total_processed st;
     total_fraud := total_fraud st;
     current_block := current_block st;
     last_processed_block := last_processed_block st;
     live_transactions := live_transactions st;
     fraud_history := fraud_history st;
     high_risk_transactions := high_risk_transactions st;
     suspicious_alerts := suspicious_alerts st;
     transaction_queue := queue;
     processed_tx_hashes := hashes;
     database := db |}.

(** The body of [for tx in block['transactions'][:sample_size]], from the
    duplicate check on. *)
Definition process_tx (st : State) (tx : TxData) : State :=
  let tx_hash := TxHash tx in
  if bool_decide (tx_hash ∈ processed_tx_hashes st) then st
  else
    match process_transaction_data tx with
    | Some result =>
        set_pipeline st
          (transaction_queue st ++ [result])%list
          ({[tx_hash]} ∪ processed_tx_hashes st)
          (save_transaction_to_db now result (database st))
    | None => st
    end.

Definition process_block (st : State) (block_num : Z) (block : Block) : State :=
  let sample_size := Nat.min 5 (length (block_transactions block)) in
  fold_left process_tx
    (map (make_tx_data block_num block)
         (firstn sample_size (block_transactions block)))
    st.

(** [alert_tx] of the streaming path ([alert_time], the wall clock, is
    left out). *)
Definition suspicious_alert (tx : Scored) : Alert :=
  {| alert_tx := Streamed tx;
     alert_type := "SUSPICIOUS";
     alert_reason := "Risk score " ++ pretty (st_risk_score tx)
                       ++ "% in suspicious range (65-80%)";
     alert_source := None |}.

(** One queued transaction of [while not transaction_queue.empty()]. *)
Definition record_tx (st : State) (tx : Scored) : State :=
  let is_fraudulent :=
    match st_label tx with Backend.Fraudulent => true | _ => false end in
  {| total_processed := total_processed st + 1;
     total_fraud := if is_fraudulent then total_fraud st + 1 else total_fraud st;
     current_block := current_block st;
     last_processed_block := last_processed_block st;
     live_transactions := insert_front 1000 tx (live_transactions st);
     fraud_history := append_back 1000 (st_fraud_probability tx) (fraud_history st);
     high_risk_transactions :=
       if 80 <=? st_risk_score tx
       then insert_front 100 (Streamed tx) (high_risk_transactions st)
       else high_risk_transactions st;
     suspicious_alerts :=
       if 80 <=? st_risk_score tx then suspicious_alerts st
       else if 65 <=? st_risk_score tx then
         insert_front 200 (suspicious_alert tx) (suspicious_alerts st)
       else suspicious_alerts st;
     transaction_queue := transaction_queue st;
     processed_tx_hashes := processed_tx_hashes st;
     database := database st |}.

Definition drain_queue (st : State) : State :=
  fold_left record_tx (transaction_queue st)
    (set_pipeline st [] (processed_tx_hashes st) (database st)).

(** Cleanup of the processed hashes once they exceed 5000. *)
Definition cleanup (st : State) : State :=
  if (5000 <? size (processed_tx_hashes st))%nat then
    set_pipeline st (transaction_queue st)
      (list_to_set (map (fun tx => TxHash (tx_data tx))
                        (firstn 2500 (live_transactions st))))
      (database st)
  else st.

Definition set_blocks (st : State) (current last : Z) : State :=
  {| total_processed := total_processed st;
     total_fraud := total_fraud st;
     current_block := current;
     last_processed_block := last;
     live_transactions := live_transactions st;
     fraud_history := fraud_history st;
     high_risk_transactions := high_risk_transactions st;
     suspicious_alerts := suspicious_alerts st;
     transaction_queue := transaction_queue st;
     processed_tx_hashes := processed_tx_hashes st;
     database := database st |}.

(** One turn of [while monitoring_state['active']] with the chain
    connected and no stop request in between: [chain_head] is
    [w3.eth.block_number] and [get_block] is [w3.eth.get_block] ([None]
    when it raises). *)
Definition monitoring_step (chain_head : Z) (get_block : Z -> option Block)
    (st : State) : State :=
  let st := set_blocks st chain_head (last_processed_block st) in
  let st :=
    if last_processed_block st <? chain_head then
      let start_block := Z.max (last_processed_block st + 1) (chain_head - 2) in
      let st :=
        fold_left
          (fun st block_num =>
             match get_block block_num with
             | Some block => process_block st block_num block
             | None => st
             end)
          (seqZ start_block (chain_head + 1 - start_block)) st in
      set_blocks st chain_head chain_head
    else st in
  cleanup (drain_queue st).

End Monitoring.

(** *** The batch endpoint [/api/csv/analyze] *)


(** The tallies of [generate_report]. *)
Record Report := {
  total_transactions_analyzed : nat;
  blocked : nat;
  flagged : nat;
  approved : nat
}.


Definition generate_report (results : list Result) : Report :=
  {| total_transactions_analyzed := length results;
     blocked := length (filter (fun r => 80 <= risk_score r) results);
     flagged := length (filter (fun r => 65 <= risk_score r < 80) results);
     approved := length (filter (fun r => risk_score r < 65) results) |}.

(** The alert loop over the results of a CSV analysis. *)
Definition record_result
    (bufs : list Entry * list Alert) (tx : Result) : list Entry * list Alert :=
  let '(high_risk_transactions, suspicious_alerts) := bufs in
  if 80 <=? risk_score tx then
    (insert_front 100 (Uploaded tx) high_risk_transactions, suspicious_alerts)
  else if 65 <=? risk_score tx then
    (high_risk_transactions,
     insert_front 200
       {| alert_tx := Uploaded tx;
          alert_type := "SUSPICIOUS_CSV";
          alert_reason := "CSV Analysis: Risk score " ++ pretty (risk_score tx)
                            ++ "% in suspicious range (65-80%)";
          alert_source := Some "CSV_ANALYSIS" |}
       suspicious_alerts)
  else bufs.

Section AnalyzeCsv.
Variable float_of_str : string -> option float.
Variable ensemble_system : EnsembleSystem.

(** What the models fitted on the uploaded frame give for each row. *)
Variable env : nat -> RowEnv.

(** The [try] around the analysis: the ensemble when it is loaded, the
    rule-based analyzer otherwise (also behind [enhanced_csv_analyzer],
    an instance of the same class), and the rule-based analyzer again
    when the first attempt raises. *)
Definition run_analysis (df : DataFrame) : option (list Result) :=
  let first :=
    if is_loaded ensemble_system
    then analyze_with_ensemble_system float_of_str ensemble_system df env
    else analyze_transactions float_of_str df env in
  match first with
  | Some results => Some results
  | None => analyze_transactions float_of_str df env
  end.


End AnalyzeCsv.

End ApiServer.

(** ** [app.py]: the dashboard's batch page *)

Module App.

Inductive Outcome :=
| MissingColumns (missing_cols : list string)
| Processed (df_scored : list Backend.Scored).

Definition required_cols : list string :=
  ["TxHash"; "BlockHeight"; "TimeStamp"; "From"; "To"; "Value"].

(** [df_raw.iloc[i:i+batch_size]] for [i] in [range(0, len(df_raw), batch_size)] *)
Fixpoint batches {A} (fuel : nat) (batch_size : nat) (l : list A) : list (list A) :=
  match fuel, l with
  | _, [] => []
  | O, _ => []
  | S fuel', _ => firstn batch_size l :: batches fuel' batch_size (skipn batch_size l)
  end.

Section Scoring.
Variable py_hash : string -> Z.
Variable local_hour : Z -> Z.

(** [show_csv_scoring] once a file is uploaded and, when the columns are
    all there, "Process Transactions" is pressed: a batch that raises is
    reported and skipped. *)
Definition show_csv_scoring (df_raw : DataFrame) (batch_size : nat) : Outcome :=
  let missing_cols :=
    filter (fun col => col ∉ columns df_raw) required_cols in
  if bool_decide (missing_cols = []) then
    let all_results :=
      omap (fun batch_df =>
              Backend.predict_frame py_hash local_hour
                {| columns := columns df_raw; rows := batch_df |})
           (batches (length (rows df_raw)) batch_size (rows df_raw)) in
    Processed (concat all_results)
  else MissingColumns missing_cols.

End Scoring.

End App.

(** ** [api_server.py]: further report fields, stored analyses, training
    labels and read endpoints *)

Module Reports.
Import ApiServer.

(** The [risk_distribution] of [generate_report]. *)
Record RiskDistribution := {
  low : nat;
  medium : nat;
  high : nat
}.

Definition risk_distribution (results : list Result) : RiskDistribution :=
  {| low := length (filter (fun r => risk_score r < 30) results);
     medium := length (filter (fun r => 30 <= risk_score r < 70) results);
     high := length (filter (fun r => 70 <= risk_score r) results) |}.

(** [round((count / total_transactions) * 100, 2) if total_transactions > 0
    else 0], on exact rationals. *)
Definition rate (count total_transactions : nat) : Q :=
  if (0 <? total_transactions)%nat
  then PyQ.py_round2
         (inject_Z (Z.of_nat count) / inject_Z (Z.of_nat total_transactions) * 100)%Q
  else 0%Q.

Definition block_rate (results : list Result) : Q :=
  rate (blocked (generate_report results)) (length results).

Definition flag_rate (results : list Result) : Q :=
  let report := generate_report results in
  rate (blocked report + flagged report) (length results).

(** [common_flags] of [generate_report]:
    [flag_counts[flag] = flag_counts.get(flag, 0) + 1] over all flags. *)
Definition flag_counts (results : list Result) : gmap string nat :=
  let all_flags := concat (map flags results) in
  fold_left
    (fun flag_counts flag =>
       <[flag := (default 0 (flag_counts !! flag) + 1)%nat]> flag_counts)
    all_flags ∅.

(** [len([r for r in results if flag in r.get('flags', [])])] *)
Definition count_flag (flag : string) (results : list Result) : nat :=
  length (filter (fun r => flag ∈ flags r) results).

(** The [common_patterns] of [generate_detailed_report]. *)
Record CommonPatterns := {
  dust_transactions : nat;
  round_amounts : nat;
  error_transactions : nat;
  ml_anomalies : nat
}.

Definition common_patterns (results : list Result) : CommonPatterns :=
  {| dust_transactions := count_flag "Dust Transaction" results;
     round_amounts := count_flag "Round Amount" results;
     error_transactions := count_flag "Transaction Error" results;
     ml_anomalies := count_flag "Pattern Anomaly" results |}.

(** [sorted(results, key=lambda x: x['risk_score'], reverse=True)]: Python's
    sort is stable, also with [reverse=True], which fixes its result; it is
    computed here by insertion. *)
Fixpoint insert_desc (x : Result) (sorted : list Result) : list Result :=
  match sorted with
  | [] => [x]
  | y :: rest =>
      if risk_score y <=? risk_score x then x :: sorted
      else y :: insert_desc x rest
  end.

Definition sorted_desc (results : list Result) : list Result :=
  foldr insert_desc [] results.

(** [top_fraudulent] of [analyze_csv] *)
Definition top_fraudulent (results : list Result) : list Result :=
  take 10 (sorted_desc results).

End Reports.

Module Training.

(** The label that [CSVFraudAnalyzer._create_synthetic_labels] gives to the
    risk score of one basic result. *)
Definition synthetic_label (risk_score : Z) : Z :=
  if 80 <=? risk_score then 3
  else if 65 <=? risk_score then 2
  else if 30 <=? risk_score then 1
  else 0.

(** The label that [EnhancedCSVFraudAnalyzer.create_synthetic_labels] gives
    to it. *)
Definition enhanced_synthetic_label (risk_score : Z) : Z :=
  if 80 <=? risk_score then 3
  else if 65 <=? risk_score then 2
  else 0.

End Training.

Module Endpoints.
Import ApiServer.


(** The numbers of [/api/monitoring/metrics]; the rate on exact
    rationals. *)
Record Metrics := {
  totalProcessed : Z;
  totalFraud : Z;
  fraudRate : Q;
  highRiskCount : nat;
  suspiciousAlertsCount : nat;
  currentBlock : Z
}.

Definition get_metrics (st : State) : Metrics :=
  let fraud_rate :=
    (inject_Z (total_fraud st) / inject_Z (Z.max (total_processed st) 1) * 100)%Q in
  let high_risk_count :=
    length (filter (fun tx => 80 <= st_risk_score tx) (live_transactions st)) in
  let suspicious_alerts_count := length (suspicious_alerts st) in
  {| totalProcessed := total_processed st;
     totalFraud := total_fraud st;
     fraudRate := PyQ.py_round2 fraud_rate;
     highRiskCount := high_risk_count;
     suspiciousAlertsCount := suspicious_alerts_count;
     currentBlock := current_block st |}.


End Endpoints.

(** ** [app.py]: the progress of the batch page *)

Module AppProgress.

(** [total_batches = (len(df_raw) + batch_size - 1) // batch_size] *)
Definition total_batches (len batch_size : nat) : nat :=
  ((len + batch_size - 1) / batch_size)%nat.

End AppProgress.

(** * Part II: properties *)

(** ** The risk classifier *)

(** C1. On every integer score in [0,100] the classifier returns BLOCKED from
    80 up, SUSPICIOUS from 65 to 79 and APPROVED below 65; in particular
    64 is APPROVED, 65 and 79 are SUSPICIOUS and 80 is BLOCKED. *)
Theorem classifier_thresholds (s : Z) (Hlo : 0 <= s) (Hhi : s <= 100) :
  (80 <= s -> level (get_risk_level_and_action s) = BLOCKED) /\
  (65 <= s < 80 -> level (get_risk_level_and_action s) = SUSPICIOUS) /\
  (s < 65 -> level (get_risk_level_and_action s) = APPROVED) /\
  level (get_risk_level_and_action 64) = APPROVED /\
  level (get_risk_level_and_action 65) = SUSPICIOUS /\
  level (get_risk_level_and_action 79) = SUSPICIOUS /\
  level (get_risk_level_and_action 80) = BLOCKED.
Proof.
  unfold get_risk_level_and_action, score_ge, PyScore_Z.
  repeat split; try reflexivity; intros Hs.
  - destruct (Z.leb_spec 80 s); [reflexivity | lia].
  - destruct (Z.leb_spec 80 s); [lia |].
    destruct (Z.leb_spec 65 s); [reflexivity | lia].
  - destruct (Z.leb_spec 80 s); [lia |].
    destruct (Z.leb_spec 65 s); [lia | reflexivity].
Qed.

Lemma classifier_thresholds_witness :
  level (get_risk_level_and_action 72) = SUSPICIOUS.
Proof.
  apply (classifier_thresholds 72); lia.
Defined.

(** ** Binary64 rounding: the magnitude of a rounded product *)

Section Rounding.

Lemma digits2_pos_size (p : positive) : digits2_pos p = Pos.size p.
Proof. induction p as [p IH|p IH|]; simpl; congruence. Qed.

Lemma Zdigits2_log2 (m : Z) : 0 < m -> Zdigits2 m = Z.log2 m + 1.
Proof.
  destruct m as [|p|p]; try lia. intros _. simpl.
  rewrite digits2_pos_size. destruct p; simpl; lia.
Qed.

Lemma Zdigits2_nonneg (m : Z) : 0 <= m -> 0 <= Zdigits2 m.
Proof. destruct m; simpl; lia. Qed.

Lemma Zdigits2_le (a b : Z) : 0 <= a <= b -> Zdigits2 a <= Zdigits2 b.
Proof.
  intros [Ha Hab]. destruct (Z.eq_dec a 0) as [->|Hne].
  - apply Zdigits2_nonneg. lia.
  - rewrite !Zdigits2_log2 by lia. pose proof (Z.log2_le_mono a b Hab). lia.
Qed.

Lemma Zdigits2_succ (a : Z) : 0 <= a -> Zdigits2 (a + 1) <= Zdigits2 a + 1.
Proof.
  intros Ha. destruct (Z.eq_dec a 0) as [->|Hne]; [simpl; lia|].
  rewrite !Zdigits2_log2 by lia. pose proof (Z.log2_succ_le a).
  unfold Z.succ in *. lia.
Qed.

Lemma Zdigits2_mul (a b : positive) :
  Zdigits2 (Z.pos (a * b)) <= Zdigits2 (Z.pos a) + Zdigits2 (Z.pos b).
Proof.
  rewrite !Zdigits2_log2 by lia. rewrite Pos2Z.inj_mul.
  pose proof (Z.log2_mul_above (Z.pos a) (Z.pos b)). lia.
Qed.

Lemma Zdigits2_shiftr (m k : Z) :
  0 <= m -> 0 <= k ->
  Z.shiftr m k = 0 \/ Zdigits2 (Z.shiftr m k) = Zdigits2 m - k.
Proof.
  intros Hm Hk. destruct (Z.eq_dec (Z.shiftr m k) 0) as [|Hne]; [now left | right].
  assert (H0 : 0 <= Z.shiftr m k) by (apply Z.shiftr_nonneg; lia).
  assert (Hpos : 0 < m).
  { destruct (Z.eq_dec m 0) as [->|]; [| lia]. rewrite Z.shiftr_0_l in Hne. lia. }
  rewrite !Zdigits2_log2 by lia. rewrite Z.log2_shiftr by lia.
  destruct (Z.le_gt_cases k (Z.log2 m)); [lia |].
  exfalso. apply Hne. apply Z.shiftr_eq_0; lia.
Qed.

Lemma Zdigits2_bound (m : Z) : 0 <= m -> m < 2 ^ Zdigits2 m.
Proof.
  intros Hm. destruct (Z.eq_dec m 0) as [->|]; [simpl; lia |].
  rewrite Zdigits2_log2 by lia. apply Z.log2_spec. lia.
Qed.

Lemma shr_1_shiftr (mrs : shr_record) :
  0 <= shr_m mrs -> shr_m (shr_1 mrs) = Z.shiftr (shr_m mrs) 1.
Proof.
  destruct mrs as [m r s]. simpl. rewrite <- Z.div2_spec.
  destruct m as [|[p|p|]|p]; simpl; try reflexivity; lia.
Qed.

Lemma iter_shr_1_shiftr (p : positive) (mrs : shr_record) :
  0 <= shr_m mrs ->
  shr_m (SpecFloat.iter_pos shr_1 p mrs) = Z.shiftr (shr_m mrs) (Z.pos p).
Proof.
  revert mrs. induction p as [p IH|p IH|]; intros mrs Hm; simpl.
  - assert (H1 : 0 <= shr_m (shr_1 mrs)).
    { rewrite shr_1_shiftr by lia. apply Z.shiftr_nonneg. lia. }
    assert (H2 : 0 <= shr_m (SpecFloat.iter_pos shr_1 p (shr_1 mrs))).
    { rewrite IH by lia. apply Z.shiftr_nonneg. lia. }
    rewrite IH, IH, shr_1_shiftr by lia.
    rewrite !Z.shiftr_shiftr by lia. f_equal. lia.
  - assert (H2 : 0 <= shr_m (SpecFloat.iter_pos shr_1 p mrs)).
    { rewrite IH by lia. apply Z.shiftr_nonneg. lia. }
    rewrite IH, IH by lia. rewrite Z.shiftr_shiftr by lia. f_equal. lia.
  - apply shr_1_shiftr. lia.
Qed.

(** [shr_fexp] keeps the mantissa non-negative and the position of its
    leading bit. *)
Lemma shr_fexp_spec (m e : Z) (l : location) :
  0 <= m ->
  let m' := shr_m (fst (shr_fexp prec emax m e l)) in
  let e' := snd (shr_fexp prec emax m e l) in
  0 <= m' /\
  e' = Z.max e (fexp prec emax (Zdigits2 m + e)) /\
  (m' = 0 \/ Zdigits2 m' + e' = Zdigits2 m + e).
Proof.
  intros Hm. unfold shr_fexp, shr.
  assert (H0 : shr_m (shr_record_of_loc m l) = m).
  { destruct l as [|[]]; reflexivity. }
  destruct (fexp prec emax (Zdigits2 m + e) - e) as [|p|p] eqn:E; simpl.
  - rewrite H0. repeat split; [lia | lia | right; lia].
  - rewrite iter_shr_1_shiftr by lia. rewrite H0.
    split; [apply Z.shiftr_nonneg; lia |]. split; [lia |].
    destruct (Zdigits2_shiftr m (Z.pos p)) as [Hz|Hd]; [lia | lia | now left |].
    right. lia.
  - rewrite H0. repeat split; [lia | lia | right; lia].
Qed.

Lemma round_nearest_even_bounds (m : Z) (l : location) :
  m <= round_nearest_even m l <= m + 1.
Proof. destruct l as [|[]]; simpl; try lia. destruct (Z.even m); lia. Qed.

(** Rounding a non-negative mantissa whose leading bit lies below [2^8]
    gives a zero or a finite number of the same sign, with its leading bit
    below [2^9]. *)
Lemma binary_round_aux_magnitude (s : bool) (m e : Z) (l : location) :
  0 <= m -> Zdigits2 m + e <= 8 ->
  binary_round_aux prec emax s m e l = S754_zero s \/
  exists m' e',
    binary_round_aux prec emax s m e l = S754_finite s m' e' /\
    Zdigits2 (Z.pos m') + e' <= 9.
Proof.
  intros Hm Hd. unfold binary_round_aux.
  pose proof (shr_fexp_spec m e l Hm) as (Hm1 & He1 & Hd1).
  destruct (shr_fexp prec emax m e l) as [mrs1 e1]. simpl in Hm1, He1, Hd1.
  set (m1 := round_nearest_even (shr_m mrs1) (loc_of_shr_record mrs1)).
  pose proof (round_nearest_even_bounds (shr_m mrs1) (loc_of_shr_record mrs1)) as Hr.
  fold m1 in Hr.
  assert (Hm1' : 0 <= m1) by lia.
  pose proof (shr_fexp_spec m1 e1 loc_Exact Hm1') as (Hm2 & He2 & Hd2).
  destruct (shr_fexp prec emax m1 e1 loc_Exact) as [mrs2 e2]. simpl in Hm2, He2, Hd2.
  pose proof (Zdigits2_nonneg m Hm) as Hdm.
  assert (Hdm1 : Zdigits2 m1 + e1 <= 9).
  { pose proof (Zdigits2_le m1 (shr_m mrs1 + 1) ltac:(lia)).
    pose proof (Zdigits2_succ (shr_m mrs1) Hm1).
    destruct Hd1 as [Hz|Heq]; [| lia].
    rewrite Hz in *. simpl in *. unfold fexp, SpecFloat.emin, emax, prec in *. lia. }
  destruct (shr_m mrs2) as [|p|p] eqn:E; [left; reflexivity | right | lia].
  destruct Hd2 as [Hz|Heq]; [lia |].
  pose proof (Zdigits2_nonneg m1 Hm1').
  assert (He2' : e2 <= emax - prec).
  { subst e2 e1. unfold fexp, SpecFloat.emin, emax, prec in *. lia. }
  apply Z.leb_le in He2'. rewrite He2'. eexists _, _. split; [reflexivity | lia].
Qed.

Lemma shiftl_bound (m e : Z) :
  0 <= m -> Zdigits2 m + e <= 9 -> 0 <= Z.shiftl m e < 2 ^ 9.
Proof.
  intros Hm Hd. split; [apply Z.shiftl_nonneg; lia |].
  pose proof (Zdigits2_nonneg m Hm) as Hd0.
  pose proof (Zdigits2_bound m Hm) as Hb.
  destruct (Z.le_gt_cases 0 e) as [He|He].
  - rewrite Z.shiftl_mul_pow2 by lia.
    apply Z.lt_le_trans with (2 ^ (Zdigits2 m + e)).
    + rewrite Z.pow_add_r by lia. apply Z.mul_lt_mono_pos_r; lia.
    + apply Z.pow_le_mono_r; lia.
  - rewrite <- Z.shiftr_opp_r.
    destruct (Zdigits2_shiftr m (- e)) as [Hz|Heq]; [lia | lia | rewrite Hz; lia |].
    assert (H0 : 0 <= Z.shiftr m (- e)) by (apply Z.shiftr_nonneg; lia).
    pose proof (Zdigits2_bound _ H0) as Hb'.
    apply Z.lt_le_trans with (2 ^ Zdigits2 (Z.shiftr m (- e))); [exact Hb' |].
    apply Z.pow_le_mono_r; lia.
Qed.

(** A probability between 0 and a bound of at most 1, times 100, converts
    to an integer, and truncation and floor agree on it. *)
Lemma scaled_probability (p u : float) (mu : positive) (eu : Z) :
  Prim2SF u = S754_finite false mu eu -> eu <= -52 ->
  (0 <=? p)%float = true -> (p <=? u)%float = true ->
  exists k, (0 <= k < 2 ^ 9) /\
            PyFloat.py_int (p * 100)%float = Some k /\
            PyFloat.py_floor (p * 100)%float = Some k.
Proof.
  intros Hu Heu H0 H1. unfold PyFloat.py_int, PyFloat.py_floor.
  rewrite FloatAxioms.leb_spec in H0, H1. rewrite Hu in H1.
  rewrite mul_spec.
  change (Prim2SF 0) with (S754_zero false) in H0.
  change (Prim2SF 100) with (S754_finite false 7036874417766400 (-46)).
  pose proof (Prim2SF_valid p) as Hv.
  destruct (Prim2SF p) as [s|s| |s m e]; simpl in *.
  - exists 0. split; [lia | split; reflexivity].
  - destruct s; discriminate.
  - discriminate.
  - destruct s; [discriminate |].
    assert (He : e <= eu).
    { unfold SFleb, SFcompare in H1.
      change (IntDef.Z.compare e eu) with (Z.compare e eu) in H1.
      destruct (Z.compare_spec e eu); [lia | lia | discriminate]. }
    assert (Hdm : Zdigits2 (Z.pos m) <= 53).
    { unfold bounded, canonical_mantissa in Hv.
      apply andb_prop in Hv as [Hc _]. apply Z.eqb_eq in Hc.
      unfold fexp, SpecFloat.emin, emax, prec in Hc. simpl. lia. }
    pose proof (Zdigits2_mul m 7036874417766400) as Hmul.
    change (Zdigits2 (Z.pos 7036874417766400)) with 53 in Hmul.
    destruct (binary_round_aux_magnitude false
                (Z.pos (m * 7036874417766400)) (e + -46) loc_Exact)
      as [Hz|(m' & e' & Hf & Hd)]; [lia | lia | |].
    + exists 0. change (xorb false false) with false.
      rewrite Hz. split; [lia | split; reflexivity].
    + exists (Z.shiftl (Z.pos m') e'). change (xorb false false) with false.
      rewrite Hf. split; [apply shiftl_bound; lia | split; reflexivity].
Qed.

End Rounding.

(** ** Facts about binary64 comparison and the clamp *)

Section FloatFacts.
Import PyFloat.

Lemma float_ltb_leb (x y : float) :
  (x <? y)%float = true -> (x <=? y)%float = true.
Proof.
  rewrite FloatAxioms.ltb_spec, FloatAxioms.leb_spec. unfold SFltb, SFleb.
  destruct (SFcompare _ _) as [[]|]; congruence.
Qed.

Lemma SFcompare_refl (x : spec_float) :
  x <> S754_nan -> SFcompare x x = Some Eq.
Proof.
  destruct x as [s|s| |s m e]; simpl; intros Hx; try congruence.
  - destruct s; reflexivity.
  - change (IntDef.Z.compare e e) with (Z.compare e e).
    rewrite (Z.compare_refl e).
    change (PosDef.Pos.compare_cont Eq m m) with (Pos.compare m m).
    rewrite Pos.compare_refl. destruct s; reflexivity.
Qed.

Lemma float_leb_not_nan (x y : float) :
  (x <=? y)%float = true -> is_nan y = false.
Proof.
  rewrite FloatAxioms.leb_spec. unfold is_nan. rewrite FloatAxioms.eqb_spec. unfold SFleb, SFeqb.
  intros H.
  assert (Hy : Prim2SF y <> S754_nan).
  { intros E. rewrite E in H. destruct (Prim2SF x); discriminate. }
  rewrite (SFcompare_refl _ Hy). reflexivity.
Qed.

Lemma py_min_upper (a x : float) :
  (a <=? a)%float = true -> (py_min a x <=? a)%float = true.
Proof.
  intros Ha. unfold py_min.
  destruct (x <? a)%float eqn:E; [now apply float_ltb_leb | exact Ha].
Qed.

Lemma py_max_lower (a x : float) :
  (a <=? a)%float = true -> (a <=? py_max a x)%float = true.
Proof.
  intros Ha. unfold py_max.
  destruct (a <? x)%float eqn:E; [now apply float_ltb_leb | exact Ha].
Qed.

(** The clamp lands in [0, 0.95] whatever its argument, NaN and the
    infinities included. *)
Lemma clamp_range (x : float) :
  (0 <=? Backend.clamp x)%float = true /\
  (Backend.clamp x <=? 0.95)%float = true /\
  is_nan (Backend.clamp x) = false.
Proof.
  assert (H0 : (0 <=? Backend.clamp x)%float = true).
  { apply py_max_lower. reflexivity. }
  split; [exact H0 | split; [| exact (float_leb_not_nan _ _ H0)]].
  unfold Backend.clamp, py_max.
  destruct (0 <? py_min 0.95 x)%float; [now apply py_min_upper | reflexivity].
Qed.

End FloatFacts.

(** ** The pattern-based scorer of [backend.py] *)

Section BackendFacts.
Import PyFloat.
Variable py_hash : string -> Z.
Variable local_hour : Z -> Z.

Lemma predict_row_range (r : Backend.Row) (p : float) :
  Backend.predict_row py_hash local_hour r = Some p ->
  (0 <=? p)%float = true /\ (p <=? 0.95)%float = true /\ is_nan p = false.
Proof.
  unfold Backend.predict_row. intros H.
  destruct (Backend.accumulate py_hash local_hour r) as [a|]; simpl in H;
    [| discriminate].
  injection H as <-. apply clamp_range.
Qed.


Lemma score_row_defined (r : Backend.Row) (p : float) :
  Backend.predict_row py_hash local_hour r = Some p ->
  exists sc,
    Backend.score_row py_hash local_hour r = Some sc /\
    Backend.p_fraud sc = p /\
    0 <= Backend.risk_score sc < 2 ^ 9 /\
    py_floor (p * 100)%float = Some (Backend.risk_score sc).
Proof.
  intros Hp. destruct (predict_row_range r p Hp) as (H0 & H1 & _).
  destruct (scaled_probability p 0.95%float 8556839292003942 (-53)
              ltac:(reflexivity) ltac:(lia) H0 H1) as (k & Hk & Hi & Hf).
  unfold Backend.score_row. rewrite Hp. simpl.
  unfold Backend.astype_int. rewrite Hi. simpl.
  assert (Hr : ((- 2 ^ 63 <=? k) && (k <? 2 ^ 63))%bool = true).
  { apply andb_true_intro. split; [apply Z.leb_le | apply Z.ltb_lt]; lia. }
  rewrite Hr. eexists. split; [reflexivity |]. simpl. auto.
Qed.

End BackendFacts.

(** ** Risk score and probability *)

Section ScoreOfProbability.
Import PyFloat.

(** The product is the machine's: [0.35] is a binary64 number slightly
    below 35/100, yet [0.35 * 100] rounds to exactly [35.0]. *)
Example score_of_035 : py_int (0.35 * 100)%float = Some 35.
Proof. vm_compute. reflexivity. Qed.

Example score_of_029 : py_int (0.29 * 100)%float = Some 28.
Proof. vm_compute. reflexivity. Qed.

Lemma ensemble_row_score (row : gmap string Cell) (pred : bool) (proba : float)
    (res : ApiServer.Result) :
  ApiServer.ensemble_row row pred proba = Some res ->
  ApiServer.fraud_probability res = Some proba /\
  py_int (proba * 100)%float = Some (ApiServer.risk_score res).
Proof.
  unfold ApiServer.ensemble_row. intros H.
  repeat match type of H with
         | context [mbind _ ?x] => destruct x; simpl in H; try discriminate
         | (match ?x with _ => _ end) = Some _ =>
             destruct x; simpl in H; try discriminate
         end.
  all: injection H as <-; simpl; auto.
Qed.

(** C3. The integer risk score is the floor of the fraud probability times
    100 (the binary64 product): on the fallback path for every row that
    [predict_with_risk] scores, and it scores every row whose
    [round(value_eth)] does not raise; on the ensemble path for every
    result row whose probability lies in [0,1]. *)
Theorem risk_score_is_floor_of_probability :
  (forall py_hash local_hour (r : Backend.Row) (p : float),
      Backend.predict_row py_hash local_hour r = Some p ->
      exists sc,
        Backend.score_row py_hash local_hour r = Some sc /\
        Backend.p_fraud sc = p /\
        py_floor (Backend.p_fraud sc * 100)%float = Some (Backend.risk_score sc)) /\
  (forall (row : gmap string Cell) (pred : bool) (proba : float)
          (res : ApiServer.Result),
      (0 <=? proba)%float = true -> (proba <=? 1)%float = true ->
      ApiServer.ensemble_row row pred proba = Some res ->
      ApiServer.fraud_probability res = Some proba /\
      py_floor (proba * 100)%float = Some (ApiServer.risk_score res)).
Proof.
  split.
  - intros py_hash local_hour r p Hp.
    destruct (score_row_defined py_hash local_hour r p Hp)
      as (sc & Hsc & Hpf & _ & Hfl).
    exists sc. rewrite Hpf. auto.
  - intros row pred proba res H0 H1 Hres.
    destruct (ensemble_row_score row pred proba res Hres) as [Hp Hi].
    split; [exact Hp |].
    destruct (scaled_probability proba 1%float 4503599627370496 (-52)
                ltac:(reflexivity) ltac:(lia) H0 H1) as (k & _ & Hi' & Hf).
    congruence.
Qed.

End ScoreOfProbability.

(** ** Sample inputs *)

Definition sample_row : Backend.Row :=
  {| Backend.TxHash := "0xabc";
     Backend.From := "0x1111aa";
     Backend.To := "0xbb";
     Backend.Value := 2e18;
     Backend.Value_text := "2e+18";
     Backend.TimeStamp := Some 1699000000 |}.

(** A zero-value self-transfer flagged as failed, with every column. *)
Definition self_dust_row : gmap string Cell :=
  <["TxHash" := Str "0xabc"]> (
  <["BlockHeight" := Num 18000000 "18000000"]> (
  <["TimeStamp" := Num 1699000000 "1699000000"]> (
  <["From" := Str "0xa"]> (
  <["To" := Str "0xa"]> (
  <["Value" := Num 0 "0"]> (
  <["isError" := Num 1 "1"]> ∅)))))).

(** No anomaly, no CatBoost. *)
Definition quiet_env : ApiServer.RowEnv :=
  {| ApiServer.iso_prediction := 1;
     ApiServer.anomaly_score := 0;
     ApiServer.catboost_class := None;
     ApiServer.random_from := "0xr1";
     ApiServer.random_to := "0xr2" |}.

Lemma risk_score_is_floor_of_probability_witness :
  (exists sc,
      Backend.score_row (fun _ => 7) (fun _ => 12) sample_row = Some sc /\
      PyFloat.py_floor (Backend.p_fraud sc * 100)%float = Some (Backend.risk_score sc)) /\
  (exists res,
      ApiServer.ensemble_row self_dust_row true 0.35 = Some res /\
      PyFloat.py_floor (0.35 * 100)%float = Some (ApiServer.risk_score res)).
Proof.
  destruct risk_score_is_floor_of_probability as [Hfallback Hensemble].
  split.
  - assert (Hp : exists p, Backend.predict_row (fun _ => 7) (fun _ => 12) sample_row = Some p)
      by (eexists; vm_compute; reflexivity).
    destruct Hp as [p Hp].
    destruct (Hfallback (fun _ => 7) (fun _ => 12) sample_row p Hp)
      as (sc & Hsc & _ & Hfl).
    exists sc. split; assumption.
  - assert (Hr : exists res, ApiServer.ensemble_row self_dust_row true 0.35 = Some res)
      by (eexists; vm_compute; reflexivity).
    destruct Hr as [res Hr]. exists res. split; [exact Hr |].
    apply (Hensemble self_dust_row true 0.35%float res); [reflexivity | reflexivity | exact Hr].
Defined.

(** ** The clamp of the returned probability *)

Section Clamp.






End Clamp.

(** ** The rule-based CSV analyzer *)

Ltac flag_in :=
  apply list_elem_of_In; cbn; repeat (first [left; reflexivity | right]).

Ltac flag_out :=
  rewrite list_elem_of_In; cbn; intros Hin;
  repeat (destruct Hin as [Hin|Hin]; [discriminate Hin |]); exact Hin.

Section CsvFacts.
Local Open Scope Q_scope.

Lemma py_int_lower (k : Z) (q : Q) :
  (0 <= k)%Z -> inject_Z k <= q -> (k <= PyQ.py_int q)%Z.
Proof.
  intros Hk Hq. unfold PyQ.py_int. destruct q as [n d].
  unfold Qle in Hq. simpl in *.
  assert (Hn : (0 <= n)%Z) by nia.
  rewrite Z.quot_div_nonneg by lia.
  apply Z.div_le_lower_bound; lia.
Qed.

Lemma ml_risk_nonneg (a : Q) : 0 <= PyQ.py_min 25 (Qabs a * 15).
Proof.
  unfold PyQ.py_min. destruct (PyQ.ltb _ _).
  - pose proof (Qabs_nonneg a). nra.
  - lra.
Qed.

Variable float_of_str : string -> option float.

Lemma fallback_self_dust (idx : nat) (row : gmap string Cell)
    (env : ApiServer.RowEnv) (res : ApiServer.Result) :
  ApiServer.get_amount float_of_str row = Some 0 ->
  ApiServer.get_str row "From" (ApiServer.random_from env) =
    ApiServer.get_str row "To" (ApiServer.random_to env) ->
  ApiServer.analyze_row float_of_str idx row env = Some res ->
  "Self Transfer" ∈ ApiServer.flags res /\
  "Dust Transaction" ∈ ApiServer.flags res /\
  ("Self Transaction" ∉ ApiServer.flags res) /\
  (45 <= ApiServer.risk_score res)%Z.
Proof.
  intros Hamount Haddr H. unfold ApiServer.analyze_row in H.
  rewrite Hamount, Haddr, String.eqb_refl in H.
  pose proof (ml_risk_nonneg (ApiServer.anomaly_score env)) as Hml.
  set (ml := PyQ.py_min 25 (Qabs (ApiServer.anomaly_score env) * 15)) in *.
  clearbody ml.
  change (mbind ?f (Some ?x)) with (f x) in H. cbv beta in H.
  change (PyQ.ltb 10 0) with false in H.
  change (PyQ.ltb 1 0) with false in H.
  change (PyQ.ltb 0 (1 # 1000)) with true in H.
  change (PyQ.ltb 0 0) with false in H.
  cbv beta iota in H. cbn [andb] in H.
  repeat match type of H with
         | context [if ?c then _ else _] =>
             lazymatch c with
             | context [row] => destruct c
             | context [env] => destruct c
             end; cbv beta iota in H
         | context [match ApiServer.catboost_class env with _ => _ end] =>
             destruct (ApiServer.catboost_class env) as [c|]; cbv beta iota in H
         | context [if ?c then _ else _] =>
             lazymatch c with
             | context [c] => destruct c
             end; cbv beta iota in H
         end.
  all: injection H as <-; cbn [ApiServer.flags ApiServer.risk_score];
    unfold ApiServer.append; cbn [app].
  all: split; [flag_in | split; [flag_in | split; [flag_out |]]].
  all: apply Z.min_glb; [lia |]; apply py_int_lower; [lia |].
  all: repeat match goal with
              | |- context [inject_Z ?z] =>
                  let v := eval vm_compute in (inject_Z z) in
                  change (inject_Z z) with v
              end; lra.
Qed.

Lemma ensemble_self_dust (row : gmap string Cell) (pred : bool) (proba : float)
    (res : ApiServer.Result) (v : float) (text : string) :
  row !! "Value" = Some (Num v text) ->
  PyQ.of_float v = Some 0 ->
  ApiServer.cell_eqb (row !! "From") (row !! "To") = true ->
  ApiServer.ensemble_row row pred proba = Some res ->
  "Self Transaction" ∈ ApiServer.flags res /\
  "Dust Transaction" ∈ ApiServer.flags res.
Proof.
  intros Hvalue Hzero Haddr H. unfold ApiServer.ensemble_row in H.
  rewrite Hvalue, Haddr in H. cbn [mbind option_bind] in H.
  rewrite Hzero in H. cbn [mbind option_bind] in H.
  change (PyQ.ltb 1000 0) with false in H. cbv beta iota in H.
  change (PyQ.ltb 100 0) with false in H.
  change (PyQ.ltb 0 (1 # 1000)) with true in H.
  change (Qeq_bool 0 (PyQ.py_round0 0) && Qle_bool 1 0) with false in H.
  cbv beta iota in H.
  destruct (PyFloat.py_int (proba * 100)%float) as [k|];
    cbn [mbind option_bind] in H; [| discriminate].
  unfold ApiServer.append_if in H.
  repeat match type of H with
         | context [mbind _ (row !! ?key)] =>
             destruct (row !! key); cbn [mbind option_bind] in H;
             [| discriminate]
         | context [if ?c then _ else _] => destruct c; cbv beta iota in H
         | context [match ?c with _ => _ end] =>
             lazymatch c with
             | context [row] => destruct c; cbv beta iota in H
             | context [PyFloat.py_floor] => destruct c; cbv beta iota in H
             | _ => is_var c; destruct c; cbv beta iota in H
             end
         end.
  all: injection H as <-; cbn [ApiServer.flags];
    unfold ApiServer.append; cbn [app].
  all: split; flag_in.
Qed.

End CsvFacts.

(** ** The zero-value self-transfer scenario *)

(** C9, as stated, fails whichever analyzer scores the sample row: the
    rule-based analyzer raises the flag "Self Transfer", not
    "Self Transaction", and the ensemble analyzer's score is the model's
    (35 for a probability of 0.35), below 45. *)
Lemma self_dust_scenario_fails :
  (exists res,
      ApiServer.analyze_row (fun _ => None) 0 self_dust_row quiet_env = Some res /\
      "Self Transaction" ∉ ApiServer.flags res) /\
  (exists res,
      ApiServer.ensemble_row self_dust_row true 0.35 = Some res /\
      ApiServer.risk_score res < 45).
Proof.
  split.
  - eexists. split; [vm_compute; reflexivity |]. cbn [ApiServer.flags]. flag_out.
  - eexists. split; [vm_compute; reflexivity |]. cbn [ApiServer.risk_score]. lia.
Qed.

(** C9, amended. For every transaction with value 0 and equal addresses: the
    rule-based analyzer's flags include "Self Transfer" and
    "Dust Transaction" and its risk score is at least 45, whatever the models
    add; the ensemble analyzer's flags include "Self Transaction" and
    "Dust Transaction". *)
Theorem self_dust_scenario :
  (forall float_of_str (idx : nat) (row : gmap string Cell)
          (env : ApiServer.RowEnv) (res : ApiServer.Result),
      ApiServer.get_amount float_of_str row = Some 0%Q ->
      ApiServer.get_str row "From" (ApiServer.random_from env) =
        ApiServer.get_str row "To" (ApiServer.random_to env) ->
      ApiServer.analyze_row float_of_str idx row env = Some res ->
      "Self Transfer" ∈ ApiServer.flags res /\
      "Dust Transaction" ∈ ApiServer.flags res /\
      45 <= ApiServer.risk_score res) /\
  (forall (row : gmap string Cell) (pred : bool) (proba : float)
          (res : ApiServer.Result) (v : float) (text : string),
      row !! "Value" = Some (Num v text) ->
      PyQ.of_float v = Some 0%Q ->
      ApiServer.cell_eqb (row !! "From") (row !! "To") = true ->
      ApiServer.ensemble_row row pred proba = Some res ->
      "Self Transaction" ∈ ApiServer.flags res /\
      "Dust Transaction" ∈ ApiServer.flags res).
Proof.
  split.
  - intros float_of_str idx row env res Hamount Haddr Hres.
    destruct (fallback_self_dust float_of_str idx row env res Hamount Haddr Hres)
      as (H1 & H2 & _ & H3).
    auto.
  - intros row pred proba res v text. apply ensemble_self_dust.
Qed.

Lemma self_dust_scenario_witness :
  (exists res,
      ApiServer.analyze_row (fun _ => None) 0 self_dust_row quiet_env = Some res /\
      "Self Transfer" ∈ ApiServer.flags res /\
      "Dust Transaction" ∈ ApiServer.flags res /\
      45 <= ApiServer.risk_score res) /\
  (exists res,
      ApiServer.ensemble_row self_dust_row true 0.35 = Some res /\
      "Self Transaction" ∈ ApiServer.flags res /\
      "Dust Transaction" ∈ ApiServer.flags res).
Proof.
  destruct self_dust_scenario as [Hfallback Hensemble].
  split.
  - assert (Hr : exists res,
               ApiServer.analyze_row (fun _ => None) 0 self_dust_row quiet_env = Some res)
      by (eexists; vm_compute; reflexivity).
    destruct Hr as [res Hr]. exists res. split; [exact Hr |].
    apply (Hfallback (fun _ => None) 0%nat self_dust_row quiet_env res);
      [vm_compute; reflexivity | vm_compute; reflexivity | exact Hr].
  - assert (Hr : exists res, ApiServer.ensemble_row self_dust_row true 0.35 = Some res)
      by (eexists; vm_compute; reflexivity).
    destruct Hr as [res Hr]. exists res. split; [exact Hr |].
    apply (Hensemble self_dust_row true 0.35%float res 0%float "0");
      [vm_compute; reflexivity | vm_compute; reflexivity
      | vm_compute; reflexivity | exact Hr].
Defined.

(** ** One classifier for every path *)

Lemma ensemble_row_label (row : gmap string Cell) (pred : bool) (proba : float)
    (res : ApiServer.Result) :
  ApiServer.ensemble_row row pred proba = Some res ->
  ApiServer.label res = level (get_risk_level_and_action (ApiServer.risk_score res)).
Proof.
  unfold ApiServer.ensemble_row. intros H.
  repeat match type of H with
         | context [mbind _ ?x] => destruct x; simpl in H; try discriminate
         | (match ?x with _ => _ end) = Some _ =>
             destruct x; simpl in H; try discriminate
         end.
  all: injection H as <-; reflexivity.
Qed.

(** C2 fails on the code.  The rule-based analyzer classifies the score
    before it adds the address points: the sample row is reported APPROVED
    with a risk score of 85, which the classifier maps to BLOCKED.  The
    streaming path labels with [backend.get_fraud_label], whose second
    threshold is 50: a score of 60 is "Suspicious" there and APPROVED for the
    classifier. *)
Theorem tier_disagrees_with_classifier :
  (exists res,
      ApiServer.analyze_row (fun _ => None) 0 self_dust_row quiet_env = Some res /\
      ApiServer.risk_score res = 85 /\
      ApiServer.label res = APPROVED /\
      level (get_risk_level_and_action (ApiServer.risk_score res)) = BLOCKED) /\
  Backend.get_fraud_label 60 = Backend.Suspicious /\
  level (get_risk_level_and_action 60) = APPROVED.
Proof.
  split; [| split; reflexivity].
  eexists. split; [vm_compute; reflexivity |]. repeat split.
Qed.

(** ** Bounded buffers *)

Section Buffers.
Context {A : Type}.
Implicit Types (x : A) (l xs : list A) (cap : nat).

Lemma insert_front_take cap x l :
  (length l <= cap)%nat -> ApiServer.insert_front cap x l = take cap (x :: l).
Proof.
  intros Hl. unfold ApiServer.insert_front.
  destruct (Nat.ltb_spec cap (length (x :: l))) as [Hlt|Hge].
  - rewrite removelast_firstn_len. f_equal. simpl in *. lia.
  - symmetry. apply take_ge. exact Hge.
Qed.



Lemma append_back_drop cap x l :
  (length l <= cap)%nat ->
  ApiServer.append_back cap x l = drop (length l + 1 - cap) (l ++ [x]).
Proof.
  intros Hl. unfold ApiServer.append_back.
  destruct (Nat.ltb_spec cap (length (l ++ [x])%list)) as [Hlt|Hge];
    rewrite length_app in *; simpl in *.
  - replace (length l + 1 - cap)%nat with 1%nat by lia.
    destruct (l ++ [x])%list; reflexivity.
  - replace (length l + 1 - cap)%nat with 0%nat by lia. reflexivity.
Qed.


End Buffers.

Section DrainQueue.
Import ApiServer.

Definition is_blocked (tx : Scored) : Prop := 80 <= st_risk_score tx.
Definition is_suspicious (tx : Scored) : Prop := 65 <= st_risk_score tx < 80.

#[global] Instance is_blocked_dec tx : Decision (is_blocked tx).
Proof. unfold is_blocked. apply _. Defined.
#[global] Instance is_suspicious_dec tx : Decision (is_suspicious tx).
Proof. unfold is_suspicious. apply _. Defined.








End DrainQueue.

Definition sample_scored (score : Z) : ApiServer.Scored :=
  {| ApiServer.tx_data :=
       {| ApiServer.TxHash := "0xabc";
          ApiServer.BlockHeight := 18000000;
          ApiServer.TimeStamp := 1699000000;
          ApiServer.From := "0xa";
          ApiServer.To := "0xb";
          ApiServer.Value := 2;
          ApiServer.Value_Wei := 2000000000000000000 |};
     ApiServer.st_fraud_probability := (PyFloat.of_Z score / 100)%float;
     ApiServer.st_risk_score := score;
     ApiServer.st_label := Backend.get_fraud_label score;
     ApiServer.st_action := Backend.get_action score |}.

Definition empty_state : ApiServer.State :=
  {| ApiServer.total_processed := 0;
     ApiServer.total_fraud := 0;
     ApiServer.current_block := 0;
     ApiServer.last_processed_block := 0;
     ApiServer.live_transactions := [];
     ApiServer.fraud_history := [];
     ApiServer.high_risk_transactions := [];
     ApiServer.suspicious_alerts := [];
     ApiServer.transaction_queue := [];
     ApiServer.processed_tx_hashes := ∅;
     ApiServer.database :=
       {| ApiServer.transactions := ∅; ApiServer.node_analysis := ∅ |} |}.



(** ** The deduplicator of the streaming loop *)

Section Deduplicator.
Import ApiServer.
Variable py_hash : string -> Z.
Variable local_hour : Z -> Z.
Variable str_of_value : float -> string.
Variable now : Z.

Abbreviation process_transaction_data :=
  (process_transaction_data py_hash local_hour str_of_value).
Abbreviation process_tx := (process_tx py_hash local_hour str_of_value now).

Lemma process_transaction_data_tx (tx : TxData) (r : Scored) :
  process_transaction_data tx = Some r -> tx_data r = tx.
Proof.
  unfold ApiServer.process_transaction_data.
  destruct (Backend.predict_with_risk _ _ _) as [[|sc [|sc' rest]]|];
    intros H; try discriminate.
  injection H as <-. reflexivity.
Qed.

Lemma process_tx_seen (st : State) (tx : TxData) :
  TxHash tx ∈ processed_tx_hashes st -> process_tx st tx = st.
Proof.
  intros Hin. unfold ApiServer.process_tx. rewrite bool_decide_eq_true_2; auto.
Qed.

Lemma process_tx_new (st : State) (tx : TxData) (r : Scored) :
  TxHash tx ∉ processed_tx_hashes st ->
  process_transaction_data tx = Some r ->
  process_tx st tx
  = set_pipeline st (transaction_queue st ++ [r])%list
      ({[TxHash tx]} ∪ processed_tx_hashes st)
      (save_transaction_to_db now r (database st)).
Proof.
  intros Hnew Hr. unfold ApiServer.process_tx.
  rewrite bool_decide_eq_false_2 by exact Hnew. rewrite Hr. reflexivity.
Qed.

Lemma process_tx_idempotent (st : State) (tx : TxData) :
  process_tx (process_tx st tx) tx = process_tx st tx.
Proof.
  destruct (decide (TxHash tx ∈ processed_tx_hashes st)) as [Hin|Hnew].
  - rewrite (process_tx_seen st tx Hin). apply process_tx_seen. exact Hin.
  - destruct (process_transaction_data tx) as [r|] eqn:Hr.
    + rewrite (process_tx_new st tx r Hnew Hr).
      apply process_tx_seen. simpl. set_solver.
    + assert (Hst : process_tx st tx = st).
      { unfold ApiServer.process_tx.
        rewrite bool_decide_eq_false_2 by exact Hnew. rewrite Hr. reflexivity. }
      rewrite !Hst. reflexivity.
Qed.

Lemma record_total_processed (queue : list Scored) (st : State) :
  total_processed (fold_left record_tx queue st)
  = total_processed st + Z.of_nat (length queue).
Proof.
  revert st. induction queue as [|tx queue IH]; intros st; simpl; [lia |].
  rewrite IH. simpl. lia.
Qed.

Definition fraud_increment (tx : Scored) : Z :=
  match st_label tx with Backend.Fraudulent => 1 | _ => 0 end.

Lemma record_tx_total_fraud (st : State) (tx : Scored) :
  total_fraud (record_tx st tx) = total_fraud st + fraud_increment tx.
Proof.
  unfold record_tx, fraud_increment. simpl. destruct (st_label tx); lia.
Qed.

(** Recording does not look at the queue, the processed hashes or the
    database. *)
Lemma fold_record_set_pipeline (queue q : list Scored) (st : State)
    (hashes : gset string) (db : Database) :
  fold_left record_tx queue (set_pipeline st q hashes db)
  = set_pipeline (fold_left record_tx queue st) q hashes db.
Proof.
  revert st. induction queue as [|tx queue IH]; intros st; simpl;
    [reflexivity |].
  rewrite <- IH. reflexivity.
Qed.

(** Draining a queue with one more entry is draining the queue and then
    recording the entry. *)
Lemma drain_queue_snoc (st : State) (r : Scored) (hashes : gset string)
    (db : Database) :
  drain_queue (set_pipeline st (transaction_queue st ++ [r])%list hashes db)
  = record_tx (set_pipeline (drain_queue st) [] hashes db) r.
Proof.
  unfold drain_queue. simpl. rewrite fold_left_app. simpl. f_equal.
  change (set_pipeline (set_pipeline st ?q hashes db) [] hashes db)
    with (set_pipeline st [] hashes db).
  rewrite !fold_record_set_pipeline. reflexivity.
Qed.

Lemma insert_front_head {A} (cap : nat) (x : A) (l : list A) :
  (0 < cap)%nat -> exists l', insert_front cap x l = x :: l'.
Proof.
  intros Hcap. unfold insert_front.
  destruct (Nat.ltb_spec cap (length (x :: l))) as [Hlt|Hge]; [| eauto].
  destruct l as [|y l]; [simpl in Hlt; lia |].
  exists (removelast (y :: l)). reflexivity.
Qed.

(** After a turn of the loop the hash of a transaction just scored is
    still among the processed hashes, cleanup or not. *)
Lemma cleanup_keeps_latest (st : State) (r : Scored) :
  TxHash (tx_data r) ∈ processed_tx_hashes st ->
  TxHash (tx_data r)
    ∈ processed_tx_hashes (cleanup (record_tx st r)).
Proof.
  intros Hin. unfold cleanup.
  destruct (5000 <? size (processed_tx_hashes (record_tx st r)))%nat;
    [| exact Hin].
  cbn [processed_tx_hashes set_pipeline live_transactions record_tx].
  destruct (insert_front_head 1000 r (live_transactions st)) as [l' ->]; [lia |].
  change 2500%nat with (S 2499). rewrite firstn_cons, map_cons, list_to_set_cons.
  set_solver.
Qed.

(** C5. A transaction whose hash is among the processed hashes is skipped:
    the state is unchanged.  A transaction with a new hash that the scorer
    scores is queued, stored, and its hash inserted.  Hence processing a
    transaction twice is processing it once; draining the queue afterwards
    counts it once (total processed, fraud count, live feed and history
    each take exactly one entry for it), and it is still skipped in the
    turn after the cleanup. *)
Theorem deduplicator_counts_once (st : State) (tx : TxData) :
  (TxHash tx ∈ processed_tx_hashes st -> process_tx st tx = st) /\
  process_tx (process_tx st tx) tx = process_tx st tx /\
  (forall r : Scored,
      TxHash tx ∉ processed_tx_hashes st ->
      process_transaction_data tx = Some r ->
      let once := process_tx st tx in
      let twice := process_tx once tx in
      transaction_queue once = (transaction_queue st ++ [r])%list /\
      processed_tx_hashes once = {[TxHash tx]} ∪ processed_tx_hashes st /\
      database once = save_transaction_to_db now r (database st) /\
      drain_queue twice = drain_queue once /\
      total_processed (drain_queue twice) = total_processed (drain_queue st) + 1 /\
      total_fraud (drain_queue twice)
      = total_fraud (drain_queue st) + fraud_increment r /\
      live_transactions (drain_queue twice)
      = insert_front 1000 r (live_transactions (drain_queue st)) /\
      fraud_history (drain_queue twice)
      = append_back 1000 (st_fraud_probability r) (fraud_history (drain_queue st)) /\
      process_tx (cleanup (drain_queue twice)) tx = cleanup (drain_queue twice)).
Proof.
  split; [apply process_tx_seen | split; [apply process_tx_idempotent |]].
  intros r Hnew Hr once twice.
  assert (Htwice : twice = once) by apply process_tx_idempotent.
  rewrite Htwice. subst once. clear twice Htwice.
  rewrite (process_tx_new st tx r Hnew Hr).
  split; [reflexivity | split; [reflexivity | split; [reflexivity |]]].
  split; [reflexivity |].
  rewrite drain_queue_snoc.
  split; [reflexivity |].
  split; [rewrite record_tx_total_fraud; reflexivity |].
  split; [reflexivity | split; [reflexivity |]].
  apply process_tx_seen.
  rewrite <- (process_transaction_data_tx tx r Hr).
  apply cleanup_keeps_latest. simpl.
  rewrite (process_transaction_data_tx tx r Hr). set_solver.
Qed.

End Deduplicator.

Definition sample_tx : ApiServer.TxData :=
  {| ApiServer.TxHash := "0xabc";
     ApiServer.BlockHeight := 18000000;
     ApiServer.TimeStamp := 1699000000;
     ApiServer.From := "0x1111aa";
     ApiServer.To := "0xbb";
     ApiServer.Value := 2;
     ApiServer.Value_Wei := 2000000000000000000 |}.

Lemma deduplicator_counts_once_witness :
  ApiServer.total_processed
    (ApiServer.drain_queue
       (ApiServer.process_tx (fun _ => 7) (fun _ => 12) (fun _ => "2.0") 0
          (ApiServer.process_tx (fun _ => 7) (fun _ => 12) (fun _ => "2.0") 0
             empty_state sample_tx)
          sample_tx))
  = ApiServer.total_processed (ApiServer.drain_queue empty_state) + 1.
Proof.
  assert (Hr : exists r,
             ApiServer.process_transaction_data (fun _ => 7) (fun _ => 12)
               (fun _ => "2.0") sample_tx = Some r)
    by (eexists; vm_compute; reflexivity).
  destruct Hr as [r Hr].
  destruct (deduplicator_counts_once (fun _ => 7) (fun _ => 12) (fun _ => "2.0") 0
              empty_state sample_tx) as (_ & _ & Hnew).
  assert (Hfresh : ApiServer.TxHash sample_tx
                     ∉ ApiServer.processed_tx_hashes empty_state)
    by apply not_elem_of_empty.
  destruct (Hnew r Hfresh Hr) as (_ & _ & _ & _ & Htotal & _).
  exact Htotal.
Defined.

(** ** The address profiles of the node-analysis table *)

Section NodeFacts.
Import ApiServer.
Local Open Scope Q_scope.

(** The aggregate risk score in the words of the specification. *)
Definition spec_aggregate_risk (fraud_count total_count : Z) (total_value : Q) : Q :=
  let fraud_percentage := inject_Z fraud_count / inject_Z total_count * 100 in
  Qmin 100 ((4 # 10) * fraud_percentage
            + (3 # 10) * Qmin 100 (inject_Z fraud_count / 10 * 100)
            + (2 # 10) * Qmin 100 (total_value / 1000 * 100)
            + (1 # 10) * Qmin 100 (inject_Z total_count / 100 * 100)) / 100.

Lemma py_min_Qmin (a b : Q) : PyQ.py_min a b = Qmin a b.
Proof.
  unfold PyQ.py_min, PyQ.ltb, Qmin, GenericMinMax.gmin.
  destruct (Qle_bool a b) eqn:E; simpl.
  - apply Qle_bool_iff in E. unfold Qle in E. unfold Qcompare.
    destruct (Z.compare_spec (Qnum a * QDen b) (Qnum b * QDen a));
      try reflexivity; lia.
  - assert (H : ~ a <= b) by (rewrite <- Qle_bool_iff; congruence).
    unfold Qle in H. unfold Qcompare.
    destruct (Z.compare_spec (Qnum a * QDen b) (Qnum b * QDen a));
      try reflexivity; lia.
Qed.

Lemma Qmin_compat_r (a x y : Q) : x == y -> Qmin a x == Qmin a y.
Proof.
  intros Hxy.
  destruct (Q.min_spec a x) as [[H1 ->]|[H1 ->]];
    destruct (Q.min_spec a y) as [[H2 ->]|[H2 ->]]; try reflexivity; lra.
Qed.

Lemma Qmin_bounds (x : Q) : 0 <= x -> 0 <= Qmin 100 x /\ Qmin 100 x <= 100.
Proof.
  intros Hx. destruct (Q.min_spec 100 x) as [[H ->]|[H ->]]; lra.
Qed.

Lemma updated_risk_score_spec (new_fraud_tx new_total_tx : Z) (new_total_val : Q) :
  updated_risk_score
    (inject_Z new_fraud_tx / inject_Z new_total_tx * 100)
    new_fraud_tx new_total_tx new_total_val
  == spec_aggregate_risk new_fraud_tx new_total_tx new_total_val.
Proof.
  unfold updated_risk_score, spec_aggregate_risk. rewrite !py_min_Qmin.
  apply Qmult_comp; [| reflexivity]. apply Qmin_compat_r. ring.
Qed.

Lemma Qdiv_nonneg (a b : Q) : 0 <= a -> 0 < b -> 0 <= a / b.
Proof.
  intros Ha Hb. unfold Qdiv. apply Qmult_le_0_compat; [exact Ha |].
  apply Qinv_le_0_compat. lra.
Qed.

Lemma spec_aggregate_risk_range (fraud_count total_count : Z) (total_value : Q) :
  (0 <= fraud_count)%Z -> (0 < total_count)%Z -> 0 <= total_value ->
  0 <= spec_aggregate_risk fraud_count total_count total_value <= 1.
Proof.
  intros Hf Ht Hv. unfold spec_aggregate_risk.
  assert (Hf' : 0 <= inject_Z fraud_count).
  { change 0 with (inject_Z 0). rewrite <- Zle_Qle. exact Hf. }
  assert (Ht' : 0 < inject_Z total_count).
  { change 0 with (inject_Z 0). rewrite <- Zlt_Qlt. exact Ht. }
  pose proof (Qdiv_nonneg _ _ Hf' Ht') as H1.
  pose proof (Qdiv_nonneg (inject_Z fraud_count) 10 Hf' ltac:(lra)) as H2.
  pose proof (Qdiv_nonneg total_value 1000 Hv ltac:(lra)) as H3.
  pose proof (Qdiv_nonneg (inject_Z total_count) 100 ltac:(lra) ltac:(lra)) as H4.
  set (q1 := inject_Z fraud_count / inject_Z total_count) in *.
  set (q2 := inject_Z fraud_count / 10) in *.
  set (q3 := total_value / 1000) in *.
  set (q4 := inject_Z total_count / 100) in *.
  destruct (Qmin_bounds (q2 * 100) ltac:(lra)) as [A2 _].
  destruct (Qmin_bounds (q3 * 100) ltac:(lra)) as [A3 _].
  destruct (Qmin_bounds (q4 * 100) ltac:(lra)) as [A4 _].
  set (m2 := Qmin 100 (q2 * 100)) in *.
  set (m3 := Qmin 100 (q3 * 100)) in *.
  set (m4 := Qmin 100 (q4 * 100)) in *.
  destruct (Qmin_bounds ((4 # 10) * (q1 * 100) + (3 # 10) * m2 + (2 # 10) * m3
                         + (1 # 10) * m4) ltac:(lra)) as [B1 B2].
  set (m := Qmin 100 _) in *.
  split.
  - apply Qdiv_nonneg; lra.
  - apply Qle_shift_div_r; lra.
Qed.

Definition fraud_flag (tx : Scored) : bool :=
  match st_label tx with Backend.Fraudulent => true | _ => false end.

(** C7, amended. For an address other than the empty and the null one:
    an existing profile has its counts and sums incremented, the fraud count
    exactly when the transaction is labelled "Fraudulent" (the label of
    [backend.get_fraud_label]: a risk score of at least 80), and its risk
    score becomes the aggregate of the specification, a value in [0,1] for
    non-negative counts and values; a new profile starts with a risk score of
    0.5 when the transaction is fraudulent and of 0.1 otherwise.  The empty
    and the null address are skipped, and the update runs on the sender and
    then on the receiver. *)
Theorem address_profile_update (now : Z) (is_fraud : bool) (tx_value : Q)
    (nodes : gmap string Node) (address : string) :
  (address <> "" -> address <> null_address ->
   forall old : Node,
     nodes !! address = Some old ->
     (total_transactions old + 1 <> 0)%Z ->
     exists new : Node,
       update_address now is_fraud tx_value nodes address
       = Some (<[address := new]> nodes) /\
       total_transactions new = (total_transactions old + 1)%Z /\
       fraud_transactions new
       = (fraud_transactions old + (if is_fraud then 1 else 0))%Z /\
       total_value new = total_value old + tx_value /\
       first_seen new = first_seen old /\
       last_seen new = now /\
       node_risk_score new
       == spec_aggregate_risk (fraud_transactions new) (total_transactions new)
            (total_value new) /\
       ((0 <= fraud_transactions old)%Z -> (0 <= total_transactions old)%Z ->
        0 <= total_value old + tx_value ->
        0 <= node_risk_score new <= 1)) /\
  (address <> "" -> address <> null_address ->
   nodes !! address = None ->
   exists new : Node,
     update_address now is_fraud tx_value nodes address
     = Some (<[address := new]> nodes) /\
     total_transactions new = 1%Z /\
     fraud_transactions new = (if is_fraud then 1 else 0)%Z /\
     total_value new = tx_value /\
     first_seen new = now /\
     node_risk_score new = (if is_fraud then 5 # 10 else 1 # 10)) /\
  update_address now is_fraud tx_value nodes "" = Some nodes /\
  update_address now is_fraud tx_value nodes null_address = Some nodes /\
  (forall (tx : Scored) (value : Q),
      PyQ.of_float (Value (tx_data tx)) = Some value ->
      update_node_analysis now tx nodes
      = default nodes
          (nodes1 ← update_address now (fraud_flag tx)
                      (value / inject_Z (10 ^ 18)) nodes (From (tx_data tx));
           update_address now (fraud_flag tx)
             (value / inject_Z (10 ^ 18)) nodes1 (To (tx_data tx)))) /\
  (forall tx : Scored,
      st_label tx = Backend.get_fraud_label (st_risk_score tx) ->
      fraud_flag tx = true <-> (80 <= st_risk_score tx)%Z).
Proof.
  assert (Hskip : forall a, a <> "" -> a <> null_address ->
            (String.eqb a "" || String.eqb a null_address) = false).
  { intros a H1 H2. apply orb_false_intro; apply String.eqb_neq; assumption. }
  split; [| split; [| split; [| split; [| split]]]].
  - intros H1 H2 old Hold Htotal. unfold update_address.
    rewrite (Hskip address H1 H2), Hold.
    destruct (Z.eqb_spec (total_transactions old + 1) 0) as [|_]; [contradiction |].
    eexists. split; [reflexivity |]. cbn [total_transactions fraud_transactions
      total_value first_seen last_seen node_risk_score].
    repeat (split; [reflexivity |]).
    split; [apply updated_risk_score_spec |].
    intros Hf Ht Hv. rewrite updated_risk_score_spec.
    apply spec_aggregate_risk_range; [destruct is_fraud; lia | lia | exact Hv].
  - intros H1 H2 Hnone. unfold update_address.
    rewrite (Hskip address H1 H2), Hnone.
    eexists. split; [reflexivity |]. cbn. repeat split.
  - reflexivity.
  - reflexivity.
  - intros tx value Hvalue. unfold update_node_analysis. rewrite Hvalue.
    fold (fraud_flag tx).
    destruct (update_address now (fraud_flag tx) _ nodes (From (tx_data tx)))
      as [nodes1|]; [| reflexivity].
    cbn [mbind option_bind].
    destruct (update_address now (fraud_flag tx) _ nodes1 (To (tx_data tx)));
      reflexivity.
  - intros tx Hlabel. unfold fraud_flag. rewrite Hlabel.
    unfold Backend.get_fraud_label.
    destruct (Z.leb_spec 80 (st_risk_score tx)); [intuition |].
    destruct (50 <=? st_risk_score tx)%Z; split; intros; try discriminate; lia.
Qed.

End NodeFacts.

Definition sample_node : ApiServer.Node :=
  {| ApiServer.total_transactions := 3;
     ApiServer.fraud_transactions := 1;
     ApiServer.fraud_percentage := 100 # 3;
     ApiServer.total_value := 5;
     ApiServer.fraud_value := 2;
     ApiServer.node_risk_score := 2 # 10;
     ApiServer.first_seen := 10;
     ApiServer.last_seen := 20 |}.

Lemma address_profile_update_witness :
  exists new : ApiServer.Node,
    ApiServer.update_address 30 true 1 {["0xa" := sample_node]} "0xa"
    = Some (<["0xa" := new]> {["0xa" := sample_node]}) /\
    ApiServer.fraud_transactions new = 2 /\
    (0 <= ApiServer.node_risk_score new <= 1)%Q.
Proof.
  destruct (address_profile_update 30 true 1 {["0xa" := sample_node]} "0xa")
    as (Hold & _).
  destruct (Hold ltac:(discriminate) ltac:(discriminate) sample_node
              ltac:(apply lookup_singleton_eq) ltac:(simpl; lia))
    as (new & Hupd & _ & Hfraud & _ & _ & _ & _ & Hrange).
  exists new. split; [exact Hupd |]. split; [exact Hfraud |].
  apply Hrange; [simpl; lia | simpl; lia | simpl; lra].
Defined.

(** C7, as stated, fails twice.  The first transaction of a fraudulent
    address gives its profile a risk score of 0.5, while the aggregate of the
    specification is 0.431.  A transaction of the SUSPICIOUS tier (score 70)
    is labelled "Suspicious", not "Fraudulent": the fraud count of its sender
    stays as it was. *)
Lemma address_profile_update_fails :
  (exists new : ApiServer.Node,
      ApiServer.update_address 30 true 0 ∅ "0xa" = Some {["0xa" := new]} /\
      ~ (ApiServer.node_risk_score new
         == spec_aggregate_risk (ApiServer.fraud_transactions new)
              (ApiServer.total_transactions new) (ApiServer.total_value new))%Q) /\
  level (get_risk_level_and_action (ApiServer.st_risk_score (sample_scored 70)))
  = SUSPICIOUS /\
  (exists new : ApiServer.Node,
      ApiServer.update_node_analysis 30 (sample_scored 70) {["0xa" := sample_node]}
        !! "0xa" = Some new /\
      ApiServer.total_transactions new = 4 /\
      ApiServer.fraud_transactions new = ApiServer.fraud_transactions sample_node).
Proof.
  split; [| split; [reflexivity |]].
  - eexists. split; [reflexivity |]. vm_compute. discriminate.
  - eexists. split; [vm_compute; reflexivity |]. split; reflexivity.
Qed.

(** ** Validation of an uploaded batch *)

Section BatchValidation.
Variable py_hash : string -> Z.
Variable local_hour : Z -> Z.



End BatchValidation.

(** A frame with the amount alone. *)
Definition value_only_frame : DataFrame :=
  {| columns := ["Value"]; rows := [ {["Value" := Num 5 "5"]} ] |}.

Definition unloaded_system : ApiServer.EnsembleSystem :=
  {| ApiServer.is_loaded := false;
     ApiServer.models := [];
     ApiServer.weights := ∅;
     ApiServer.threshold := 0.5 |}.



(** ** Privacy hashing *)

(** The implementation of SHA-256 agrees with the standard test vectors. *)
Example sha256_empty :
  Sha256.hexdigest ""
  = "e3b0c44298fc1c149afbf4c8996fb92427ae41e4649b934ca495991b7852b855".
Proof. vm_compute. reflexivity. Qed.

Example sha256_abc :
  Sha256.hexdigest "abc"
  = "ba7816bf8f01cfea414140de5dae2223b00361a396177a9cb410ff61f20015ad".
Proof. vm_compute. reflexivity. Qed.

Example sha256_two_blocks :
  Sha256.hexdigest "abcdbcdecdefdefgefghfghighijhijkijkljklmklmnlmnomnopnopq"
  = "248d6a61d20638b8e5c026930c3e6039a33ce45964ff2167f6ecedd419db06c1".
Proof. vm_compute. reflexivity. Qed.

Section PrivacyHashing.
Import Backend.

(** What a hashed column holds in place of a cell. *)
Definition hashed_cell (x : Cell) : Cell := Str (hash_identifier (py_str x)).

Definition hash_row (cols : list string) (row : gmap string Cell) (col : string)
  : gmap string Cell :=
  if bool_decide (col ∈ cols) then alter hashed_cell col row else row.

Lemma hash_column_rows (df : DataFrame) (col : string) :
  hash_column df col
  = {| columns := columns df;
       rows := map (fun row => hash_row (columns df) row col) (rows df) |}.
Proof.
  unfold hash_column, hash_row.
  destruct (bool_decide (col ∈ columns df)); [reflexivity |].
  rewrite map_id. destruct df; reflexivity.
Qed.

Lemma apply_privacy_hashing_rows (columns_to_hash : list string) (df : DataFrame) :
  apply_privacy_hashing df columns_to_hash
  = {| columns := columns df;
       rows := map (fun row => fold_left (hash_row (columns df)) columns_to_hash row)
                   (rows df) |}.
Proof.
  unfold apply_privacy_hashing. revert df.
  induction columns_to_hash as [|col cols IH]; intros df; simpl.
  - rewrite map_id. destruct df; reflexivity.
  - rewrite IH, hash_column_rows. simpl. rewrite map_map. reflexivity.
Qed.

Lemma fold_hash_row_lookup (cols columns_to_hash : list string)
    (row : gmap string Cell) (k : string) :
  NoDup columns_to_hash ->
  fold_left (hash_row cols) columns_to_hash row !! k
  = if bool_decide (k ∈ columns_to_hash /\ k ∈ cols)
    then hashed_cell <$> row !! k else row !! k.
Proof.
  intros Hnodup. revert row.
  induction Hnodup as [|col rest Hnotin Hnodup IH]; intros row; cbn [fold_left].
  - case_bool_decide as H; [| reflexivity]. destruct H as [H _]. inversion H.
  - rewrite IH. unfold hash_row.
    destruct (decide (k = col)) as [->|Hne].
    + repeat case_bool_decide; rewrite ?lookup_alter_eq; try reflexivity;
        exfalso; rewrite ?elem_of_cons in *; intuition congruence.
    + repeat case_bool_decide; rewrite ?lookup_alter_ne by congruence;
        try reflexivity; exfalso; rewrite ?elem_of_cons in *;
        intuition congruence.
Qed.

(** C10, amended. For a list of column names without repetition,
    [apply_privacy_hashing] keeps the column names, the number of rows and
    their order; in each row it replaces the cell of every listed column that
    the frame has by the first 16 hexadecimal digits of the SHA-256 of the
    cell's string followed by the salt, and leaves every other cell as it is;
    equal inputs give equal outputs. *)
Theorem privacy_hashing_frame (df : DataFrame) (columns_to_hash : list string) :
  NoDup columns_to_hash ->
  let df_private := apply_privacy_hashing df columns_to_hash in
  columns df_private = columns df /\
  length (rows df_private) = length (rows df) /\
  (forall (i : nat) (row : gmap string Cell),
      rows df !! i = Some row ->
      exists row' : gmap string Cell,
        rows df_private !! i = Some row' /\
        forall col : string,
          row' !! col
          = if bool_decide (col ∈ columns_to_hash /\ col ∈ columns df)
            then (fun x => Str (PyStr.take 16
                                  (Sha256.hexdigest (py_str x ++ "chainguard_salt"))))
                   <$> row !! col
            else row !! col) /\
  (forall df2 columns2,
      df2 = df -> columns2 = columns_to_hash ->
      apply_privacy_hashing df2 columns2 = df_private).
Proof.
  intros Hnodup df_private. subst df_private.
  rewrite apply_privacy_hashing_rows. cbn [columns rows].
  split; [reflexivity | split; [apply length_map | split]].
  - intros i row Hrow.
    exists (fold_left (hash_row (columns df)) columns_to_hash row). split.
    + rewrite list_lookup_fmap_Some. eauto.
    + intros col. apply fold_hash_row_lookup. exact Hnodup.
  - intros df2 columns2 -> ->. apply apply_privacy_hashing_rows.
Qed.

End PrivacyHashing.

Definition address_frame : DataFrame :=
  {| columns := ["From"; "Value"];
     rows := [ <["From" := Str "0xa"]> {["Value" := Num 5 "5"]} ] |}.

Lemma privacy_hashing_frame_witness :
  exists row' : gmap string Cell,
    rows (Backend.apply_privacy_hashing address_frame ["From"; "To"]) !! 0%nat
    = Some row' /\
    row' !! "From" = Some (Str "5d7a065ad2364736") /\
    row' !! "Value" = Some (Num 5 "5").
Proof.
  destruct (privacy_hashing_frame address_frame ["From"; "To"])
    as (_ & _ & Hrows & _).
  { repeat constructor; rewrite list_elem_of_In; simpl; intuition discriminate. }
  destruct (Hrows 0%nat (<["From" := Str "0xa"]> {["Value" := Num 5 "5"]}) eq_refl)
    as (row' & Hrow' & Hcells).
  exists row'. split; [exact Hrow' |]. rewrite !Hcells. split; vm_compute; reflexivity.
Defined.

(** C10, as stated, fails for a list that names a column twice: the column is
    hashed twice, and its cell is the hash of a hash. *)
Lemma privacy_hashing_twice :
  exists row' : gmap string Cell,
    rows (Backend.apply_privacy_hashing address_frame ["From"; "From"]) !! 0%nat
    = Some row' /\
    row' !! "From"
    <> Some (Str (PyStr.take 16 (Sha256.hexdigest ("0xa" ++ "chainguard_salt")))).
Proof.
  eexists. split; [vm_compute; reflexivity |]. vm_compute. discriminate.
Qed.

(** * Part III: further properties *)
(** ** Binary64 rounding: an upper bound on a rounded product *)

Section RoundingUpper.

Lemma shr_fexp_shiftr (m e : Z) (l : location) :
  0 <= m ->
  let m' := shr_m (fst (shr_fexp prec emax m e l)) in
  let e' := snd (shr_fexp prec emax m e l) in
  e <= e' /\ m' = Z.shiftr m (e' - e).
Proof.
  intros Hm. unfold shr_fexp, shr.
  assert (H0 : shr_m (shr_record_of_loc m l) = m).
  { destruct l as [|[]]; reflexivity. }
  destruct (fexp prec emax (Zdigits2 m + e) - e) as [|p|p] eqn:E; simpl.
  - rewrite H0, Z.sub_diag. split; [lia | reflexivity].
  - rewrite iter_shr_1_shiftr by lia. rewrite H0.
    split; [lia | f_equal; lia].
  - rewrite H0, Z.sub_diag. split; [lia | reflexivity].
Qed.

(** A mantissa strictly below [N * 2^(-e)], that is a value strictly below
    the integer [N], rounds to a number whose integer part is at most
    [N]. *)
Lemma binary_round_aux_upper (m e N : Z) :
  0 <= m -> e <= 0 -> Zdigits2 m + e <= 8 -> m < N * 2 ^ (- e) ->
  binary_round_aux prec emax false m e loc_Exact = S754_zero false \/
  exists m' e',
    binary_round_aux prec emax false m e loc_Exact = S754_finite false m' e' /\
    Z.shiftl (Z.pos m') e' <= N.
Proof.
  intros Hm He Hd Hlt. unfold binary_round_aux.
  pose proof (shr_fexp_spec m e loc_Exact Hm) as (Hm1 & He1 & Hd1).
  pose proof (shr_fexp_shiftr m e loc_Exact Hm) as (Hle1 & Hs1).
  destruct (shr_fexp prec emax m e loc_Exact) as [mrs1 e1].
  simpl in Hm1, He1, Hd1, Hle1, Hs1.
  set (m1 := round_nearest_even (shr_m mrs1) (loc_of_shr_record mrs1)).
  pose proof (round_nearest_even_bounds (shr_m mrs1) (loc_of_shr_record mrs1)) as Hr.
  fold m1 in Hr.
  assert (Hm1' : 0 <= m1) by lia.
  pose proof (shr_fexp_spec m1 e1 loc_Exact Hm1') as (Hm2 & He2 & Hd2).
  pose proof (shr_fexp_shiftr m1 e1 loc_Exact Hm1') as (Hle2 & Hs2).
  destruct (shr_fexp prec emax m1 e1 loc_Exact) as [mrs2 e2].
  simpl in Hm2, He2, Hd2, Hle2, Hs2.
  pose proof (Zdigits2_nonneg m Hm) as Hdm.
  assert (He1' : e1 <= 0).
  { subst e1. unfold fexp, SpecFloat.emin, emax, prec in *. lia. }
  assert (Hdm1 : Zdigits2 m1 + e1 <= 9).
  { pose proof (Zdigits2_le m1 (shr_m mrs1 + 1) ltac:(lia)).
    pose proof (Zdigits2_succ (shr_m mrs1) Hm1).
    destruct Hd1 as [Hz|Heq]; [| lia].
    rewrite Hz in *. simpl in *. lia. }
  pose proof (Zdigits2_nonneg m1 Hm1') as Hdm1'.
  assert (He2' : e2 <= 0).
  { subst e2. unfold fexp, SpecFloat.emin, emax, prec in *. lia. }
  (* the first rounding stays at or below [N * 2^(-e1)] *)
  assert (Hb1 : m1 <= N * 2 ^ (- e1)).
  { assert (Hpow : 2 ^ (- e) = 2 ^ (- e1) * 2 ^ (e1 - e)).
    { rewrite <- Z.pow_add_r by lia. f_equal. lia. }
    assert (shr_m mrs1 < N * 2 ^ (- e1)).
    { rewrite Hs1, Z.shiftr_div_pow2 by lia.
      apply Z.div_lt_upper_bound; [apply Z.pow_pos_nonneg; lia |].
      rewrite Hpow in Hlt. lia. }
    lia. }
  destruct (shr_m mrs2) as [|p|p] eqn:E; [left; reflexivity | right | lia].
  assert (He2'' : e2 <= emax - prec).
  { unfold emax, prec. lia. }
  apply Z.leb_le in He2''. rewrite He2''. eexists _, _. split; [reflexivity |].
  rewrite Hs2. rewrite <- Z.shiftr_opp_r.
  rewrite Z.shiftr_shiftr by lia.
  replace (e2 - e1 + - e2) with (- e1) by lia.
  rewrite Z.shiftr_div_pow2 by lia.
  apply Z.div_le_upper_bound; [apply Z.pow_pos_nonneg; lia | lia].
Qed.

(** A probability between 0 and a normal bound [u] with [u * 100 <= N]
    has a risk score of at most [N]. *)
Lemma scaled_probability_upper (p u : float) (mu : positive) (eu N ku : Z) :
  Prim2SF u = S754_finite false mu eu -> eu <= -52 -> 2 ^ 52 <= Z.pos mu ->
  Z.pos mu * 7036874417766400 <= N * 2 ^ (46 - eu) ->
  PyFloat.py_int (u * 100)%float = Some ku -> ku <= N -> 0 <= N ->
  (0 <=? p)%float = true -> (p <=? u)%float = true ->
  exists k, PyFloat.py_int (p * 100)%float = Some k /\ 0 <= k <= N.
Proof.
  intros Hu Heu Hnorm HN Hku HkuN HN0 H0 H1.
  destruct (scaled_probability p u mu eu Hu Heu H0 H1) as (k & Hk & Hi & _).
  exists k. split; [exact Hi |]. split; [lia |].
  revert Hi Hku. unfold PyFloat.py_int.
  rewrite FloatAxioms.leb_spec in H0, H1. rewrite Hu in H1.
  rewrite !mul_spec. rewrite Hu.
  change (Prim2SF 0) with (S754_zero false) in H0.
  change (Prim2SF 100) with (S754_finite false 7036874417766400 (-46)).
  pose proof (Prim2SF_valid p) as Hv.
  destruct (Prim2SF p) as [s|s| |s m e]; simpl in H0, H1.
  - simpl. intros [= <-] _. lia.
  - destruct s; discriminate.
  - discriminate.
  - destruct s; [discriminate |].
    assert (Hdm : Zdigits2 (Z.pos m) <= 53).
    { unfold bounded, canonical_mantissa in Hv.
      apply andb_prop in Hv as [Hc _]. apply Z.eqb_eq in Hc.
      unfold fexp, SpecFloat.emin, emax, prec in Hc. simpl. lia. }
    pose proof (Zdigits2_bound (Z.pos m) ltac:(lia)) as Hmb.
    assert (Hm53 : Z.pos m < 2 ^ 53).
    { apply Z.lt_le_trans with (2 ^ Zdigits2 (Z.pos m)); [exact Hmb |].
      apply Z.pow_le_mono_r; lia. }
    unfold SFleb, SFcompare in H1.
    change (IntDef.Z.compare e eu) with (Z.compare e eu) in H1.
    change (PosDef.Pos.compare_cont Eq m mu) with (Pos.compare m mu) in H1.
    assert (Hdec : (e = eu /\ m = mu) \/ (e <= eu /\ Z.pos m < Z.pos mu * 2 ^ (eu - e))).
    { destruct (Z.compare_spec e eu) as [->|Hlt|Hgt]; [| | discriminate].
      - destruct (Pos.compare_spec m mu) as [->|Hlt|Hgt]; [| | discriminate].
        + left. auto.
        + right. rewrite Z.sub_diag. simpl. lia.
      - right. split; [lia |].
        assert (2 ^ 1 <= 2 ^ (eu - e)) by (apply Z.pow_le_mono_r; lia).
        nia. }
    destruct Hdec as [[-> ->]|[Hle Hlt]].
    + intros Hi Hku'. rewrite Hi in Hku'. injection Hku' as ->. exact HkuN.
    + intros Hi _. simpl in Hi. change (xorb false false) with false in Hi.
      pose proof (Zdigits2_mul m 7036874417766400) as Hmul.
      change (Zdigits2 (Z.pos 7036874417766400)) with 53 in Hmul.
      destruct (binary_round_aux_upper
                  (Z.pos (m * 7036874417766400)) (e + -46) N)
        as [Hz|(m' & e' & Hf & Hb)]; [lia | lia | lia | | |].
      * rewrite Pos2Z.inj_mul.
        replace (- (e + -46)) with ((46 - eu) + (eu - e)) by lia.
        rewrite Z.pow_add_r by lia.
        assert (0 < 2 ^ (eu - e)) by (apply Z.pow_pos_nonneg; lia).
        nia.
      * rewrite Hz in Hi. injection Hi as <-. lia.
      * rewrite Hf in Hi. injection Hi as <-. exact Hb.
Qed.

End RoundingUpper.

Section ScoreRange.
Import PyFloat.

Lemma backend_score_upper (p : float) :
  (0 <=? p)%float = true -> (p <=? 0.95)%float = true ->
  exists k, py_int (p * 100)%float = Some k /\ 0 <= k <= 95.
Proof.
  intros H0 H1.
  apply (scaled_probability_upper p 0.95%float 8556839292003942 (-53) 95 95);
    try assumption; try reflexivity; lia.
Qed.

Lemma ensemble_score_upper (p : float) :
  (0 <=? p)%float = true -> (p <=? 1)%float = true ->
  exists k, py_int (p * 100)%float = Some k /\ 0 <= k <= 100.
Proof.
  intros H0 H1.
  apply (scaled_probability_upper p 1%float 4503599627370496 (-52) 100 100);
    try assumption; try reflexivity; lia.
Qed.

End ScoreRange.

(** ** The rule-based analyzer on every row *)

(** The tiers by severity. *)
Definition severity (l : RiskLevel) : Z :=
  match l with APPROVED => 0 | SUSPICIOUS => 1 | BLOCKED => 2 end.

(** The flags of the rule-based analyzer, in the order of the code. *)
Definition fallback_flags : list string :=
  ["Large Amount"; "Medium Amount"; "Dust Transaction"; "Transaction Error";
   "Recent Block"; "Old Block"; "Round Amount"; "Isolation Anomaly";
   "CatBoost High Risk"; "CatBoost Medium Risk"; "Self Transfer";
   "Contract-like From"; "Contract-like To"].

(** The flags of the ensemble analyzer, in the order of the code. *)
Definition ensemble_flags : list string :=
  ["Transaction Error"; "Large Amount"; "Dust Transaction"; "Round Amount";
   "Suspicious Hour"; "Weekend Transaction"; "Self Transaction";
   "Ensemble High Risk"; "High Confidence Fraud"].

Section FlagOrder.

Lemma sublist_stage (f V seg : list string) (w : string) :
  f `sublist_of` V -> w ∈ seg -> ApiServer.append f w `sublist_of` (V ++ seg)%list.
Proof.
  intros Hf Hw. unfold ApiServer.append. apply sublist_app; [exact Hf |].
  induction Hw as [w seg|w v seg Hw IH].
  - apply sublist_skip || apply sublist_cons. apply sublist_nil_l.
  - apply sublist_cons_r. left. exact IH.
Qed.

Lemma sublist_stage_skip (f V seg : list string) :
  f `sublist_of` V -> f `sublist_of` (V ++ seg)%list.
Proof. intros Hf. apply sublist_inserts_r. exact Hf. Qed.

End FlagOrder.

Ltac stage_flags Hf :=
  first [ apply sublist_stage; [exact Hf | flag_in]
        | apply sublist_stage_skip; exact Hf ].

Section AnalyzerShape.
Local Open Scope Q_scope.
Variable float_of_str : string -> option float.

(** The shape of every result of the rule-based analyzer: the tier is the
    classifier's on the score [pre] reached before the address rules, the
    reported score is the final score [post], capped, and the flags come in
    the order of the code. *)
Lemma analyze_row_shape (idx : nat) (row : gmap string Cell)
    (env : ApiServer.RowEnv) (res : ApiServer.Result) :
  ApiServer.analyze_row float_of_str idx row env = Some res ->
  exists pre post : Q,
    0 <= pre /\ pre <= post /\ post <= pre + 45 /\
    ApiServer.label res = level (get_risk_level_and_action pre) /\
    ApiServer.res_action res = action (get_risk_level_and_action pre) /\
    ApiServer.risk_score res = Z.min 100 (PyQ.py_int post) /\
    ApiServer.flags res `sublist_of` fallback_flags /\
    ApiServer.res_Value res = ApiServer.get_amount float_of_str row.
Proof.
  intros H. unfold ApiServer.analyze_row in H.
  destruct (ApiServer.get_amount float_of_str row) as [amount|];
    [| discriminate].
  change (mbind ?f (Some ?x)) with (f x) in H. cbv beta zeta in H.
  pose proof (ml_risk_nonneg (ApiServer.anomaly_score env)) as Hml.
  set (ml := PyQ.py_min 25 (Qabs (ApiServer.anomaly_score env) * 15)) in *.
  clearbody ml.
  (* amount *)
  match type of H with
  | (let '(_, _) := ?p in _) = _ => destruct p as [r1 f1] eqn:E1
  end.
  assert (H1 : 0 <= r1 /\ f1 `sublist_of` ["Large Amount"; "Medium Amount"]).
  { pose proof (sublist_nil_l (@nil string)) as Hf.
    repeat match type of E1 with
           | context [if ?c then _ else _] => destruct c
           end; injection E1 as <- <-; (split; [lra |]);
      first [ apply (sublist_stage [] [] _ _ Hf); flag_in
            | apply sublist_nil_l ]. }
  destruct H1 as [Hr1 Hf1]. clear E1.
  (* dust *)
  match type of H with
  | (let '(_, _) := ?p in _) = _ => destruct p as [r2 f2] eqn:E2
  end.
  assert (H2 : r1 <= r2 /\
               f2 `sublist_of` (["Large Amount"; "Medium Amount"] ++ ["Dust Transaction"])%list).
  { destruct (PyQ.ltb _ _); injection E2 as <- <-;
      (split; [lra | stage_flags Hf1]). }
  destruct H2 as [Hr2 Hf2]. clear E2 Hf1. cbn [app] in Hf2.
  (* error *)
  match type of H with
  | (let '(_, _) := ?p in _) = _ => destruct p as [r3 f3] eqn:E3
  end.
  assert (H3 : r2 <= r3 /\
               f3 `sublist_of` (["Large Amount"; "Medium Amount"; "Dust Transaction"]
                                  ++ ["Transaction Error"])%list).
  { destruct (_ =? _)%Z; injection E3 as <- <-;
      (split; [lra | stage_flags Hf2]). }
  destruct H3 as [Hr3 Hf3]. clear E3 Hf2. cbn [app] in Hf3.
  (* block age *)
  match type of H with
  | (let '(_, _) := ?p in _) = _ => destruct p as [r4 f4] eqn:E4
  end.
  assert (H4 : r3 <= r4 /\
               f4 `sublist_of` (["Large Amount"; "Medium Amount"; "Dust Transaction";
                                 "Transaction Error"]
                                  ++ ["Recent Block"; "Old Block"])%list).
  { repeat match type of E4 with
           | context [if ?c then _ else _] => destruct c
           end; injection E4 as <- <-; (split; [lra | stage_flags Hf3]). }
  destruct H4 as [Hr4 Hf4]. clear E4 Hf3. cbn [app] in Hf4.
  (* round amount *)
  match type of H with
  | (let '(_, _) := ?p in _) = _ => destruct p as [r5 f5] eqn:E5
  end.
  assert (H5 : r4 <= r5 /\
               f5 `sublist_of` (["Large Amount"; "Medium Amount"; "Dust Transaction";
                                 "Transaction Error"; "Recent Block"; "Old Block"]
                                  ++ ["Round Amount"])%list).
  { destruct (_ && _); injection E5 as <- <-;
      (split; [lra | stage_flags Hf4]). }
  destruct H5 as [Hr5 Hf5]. clear E5 Hf4. cbn [app] in Hf5.
  (* isolation forest *)
  match type of H with
  | (let '(_, _) := ?p in _) = _ => destruct p as [[r6 f6] b6] eqn:E6
  end.
  assert (H6 : r5 <= r6 /\ (0 <= b6)%Z /\
               f6 `sublist_of` (["Large Amount"; "Medium Amount"; "Dust Transaction";
                                 "Transaction Error"; "Recent Block"; "Old Block";
                                 "Round Amount"]
                                  ++ ["Isolation Anomaly"])%list).
  { destruct (_ =? _)%Z; injection E6 as <- <- <-;
      (split; [lra | split; [lia | stage_flags Hf5]]). }
  destruct H6 as (Hr6 & Hb6 & Hf6). clear E6 Hf5. cbn [app] in Hf6.
  (* CatBoost *)
  match type of H with
  | (let '(_, _) := ?p in _) = _ => destruct p as [[r7 f7] b7] eqn:E7
  end.
  assert (H7 : r6 <= r7 /\
               f7 `sublist_of` (["Large Amount"; "Medium Amount"; "Dust Transaction";
                                 "Transaction Error"; "Recent Block"; "Old Block";
                                 "Round Amount"; "Isolation Anomaly"]
                                  ++ ["CatBoost High Risk"; "CatBoost Medium Risk"])%list).
  { destruct (ApiServer.catboost_class env) as [c|];
      repeat match type of E7 with
             | context [if ?c then _ else _] => destruct c
             end; injection E7 as <- <- <-; (split; [lra | stage_flags Hf6]). }
  destruct H7 as [Hr7 Hf7]. clear E7 Hf6. cbn [app] in Hf7.
  (* the score the classifier sees *)
  set (pre := if (0 <? b7)%Z then r7 + inject_Z (Z.min 15 b7) else r7) in H.
  assert (Hpre : r7 <= pre).
  { subst pre. destruct (0 <? b7)%Z eqn:Eb; [| lra].
    apply Z.ltb_lt in Eb.
    assert (0 <= inject_Z (Z.min 15 b7)).
    { change 0 with (inject_Z 0). rewrite <- Zle_Qle. lia. }
    lra. }
  clearbody pre.
  (* addresses *)
  match type of H with
  | (let '(_, _) := ?p in _) = _ => destruct p as [r8 f8] eqn:E8
  end.
  assert (H8 : pre <= r8 /\ r8 <= pre + 25 /\
               f8 `sublist_of` (["Large Amount"; "Medium Amount"; "Dust Transaction";
                                 "Transaction Error"; "Recent Block"; "Old Block";
                                 "Round Amount"; "Isolation Anomaly";
                                 "CatBoost High Risk"; "CatBoost Medium Risk"]
                                  ++ ["Self Transfer"])%list).
  { destruct (String.eqb _ _); injection E8 as <- <-;
      (split; [lra | split; [lra | stage_flags Hf7]]). }
  destruct H8 as (Hr8 & Hr8' & Hf8). clear E8 Hf7. cbn [app] in Hf8.
  match type of H with
  | (let '(_, _) := ?p in _) = _ => destruct p as [r9 f9] eqn:E9
  end.
  assert (H9 : r8 <= r9 /\ r9 <= r8 + 10 /\
               f9 `sublist_of` (["Large Amount"; "Medium Amount"; "Dust Transaction";
                                 "Transaction Error"; "Recent Block"; "Old Block";
                                 "Round Amount"; "Isolation Anomaly";
                                 "CatBoost High Risk"; "CatBoost Medium Risk";
                                 "Self Transfer"]
                                  ++ ["Contract-like From"])%list).
  { destruct (_ <? _)%Z; injection E9 as <- <-;
      (split; [lra | split; [lra | stage_flags Hf8]]). }
  destruct H9 as (Hr9 & Hr9' & Hf9). clear E9 Hf8. cbn [app] in Hf9.
  match type of H with
  | (let '(_, _) := ?p in _) = _ => destruct p as [r10 f10] eqn:E10
  end.
  assert (H10 : r9 <= r10 /\ r10 <= r9 + 10 /\
               f10 `sublist_of` (["Large Amount"; "Medium Amount"; "Dust Transaction";
                                 "Transaction Error"; "Recent Block"; "Old Block";
                                 "Round Amount"; "Isolation Anomaly";
                                 "CatBoost High Risk"; "CatBoost Medium Risk";
                                 "Self Transfer"; "Contract-like From"]
                                  ++ ["Contract-like To"])%list).
  { destruct (_ <? _)%Z; injection E10 as <- <-;
      (split; [lra | split; [lra | stage_flags Hf9]]). }
  destruct H10 as (Hr10 & Hr10' & Hf10). clear E10 Hf9. cbn [app] in Hf10.
  injection H as <-. exists pre, r10. cbn.
  repeat split; try reflexivity; try lra. exact Hf10.
Qed.

End AnalyzerShape.

(** ** Thresholds across the modules *)

Section Tiers.

Lemma classify_Z (s : Z) :
  level (get_risk_level_and_action s)
  = if 80 <=? s then BLOCKED else if 65 <=? s then SUSPICIOUS else APPROVED.
Proof.
  unfold get_risk_level_and_action, score_ge, PyScore_Z.
  destruct (80 <=? s); [reflexivity |]. destruct (65 <=? s); reflexivity.
Qed.

Lemma classify_Z_alert (s : Z) :
  triggers_alert (get_risk_level_and_action s) = (65 <=? s) && negb (80 <=? s).
Proof.
  unfold get_risk_level_and_action, score_ge, PyScore_Z.
  destruct (80 <=? s); [destruct (65 <=? s); reflexivity |].
  destruct (65 <=? s); reflexivity.
Qed.

Lemma classify_Q (q : Q) :
  level (get_risk_level_and_action q)
  = if Qle_bool 80 q then BLOCKED else if Qle_bool 65 q then SUSPICIOUS else APPROVED.
Proof.
  unfold get_risk_level_and_action, score_ge, PyScore_Q.
  change (inject_Z 80) with 80%Q. change (inject_Z 65) with 65%Q.
  destruct (Qle_bool 80 q); [reflexivity |]. destruct (Qle_bool 65 q); reflexivity.
Qed.

(** X1. A higher score never gets a milder tier: the classifier is monotone
    in the score. *)
Theorem classifier_monotone (s s' : Z) :
  s <= s' ->
  severity (level (get_risk_level_and_action s))
  <= severity (level (get_risk_level_and_action s')).
Proof.
  intros Hs. rewrite !classify_Z.
  destruct (Z.leb_spec 80 s), (Z.leb_spec 80 s'), (Z.leb_spec 65 s),
    (Z.leb_spec 65 s'); simpl; lia.
Qed.

(** X2. The action and the label that [backend.predict_with_risk] derives
    from a risk score agree with the tiers of the classifier of
    [api_server.py], but for one band: the action is "CRITICAL" exactly on
    the BLOCKED tier and "HIGH RISK" exactly on the SUSPICIOUS tier, the
    label is "Fraudulent" exactly on the BLOCKED tier, and the label is
    "Suspicious" on an APPROVED score exactly when the score lies in
    50..64. *)
Theorem backend_tiers_match_classifier (risk_score : Z) :
  let tier := level (get_risk_level_and_action risk_score) in
  (Backend.get_action risk_score = Backend.CRITICAL_Block_Transaction_Immediately
   <-> tier = BLOCKED) /\
  (Backend.get_action risk_score = Backend.HIGH_RISK_Flag_for_Investigation
   <-> tier = SUSPICIOUS) /\
  (Backend.get_fraud_label risk_score = Backend.Fraudulent <-> tier = BLOCKED) /\
  (Backend.get_fraud_label risk_score = Backend.Normal -> tier = APPROVED) /\
  (Backend.get_fraud_label risk_score = Backend.Suspicious /\ tier = APPROVED
   <-> 50 <= risk_score < 65).
Proof.
  intros tier. subst tier. rewrite classify_Z.
  unfold Backend.get_action, Backend.get_fraud_label.
  destruct (Z.leb_spec 80 risk_score), (Z.leb_spec 65 risk_score),
    (Z.leb_spec 50 risk_score), (Z.leb_spec 30 risk_score);
    try lia; repeat split; intros; try discriminate; try reflexivity;
    try lia; intuition (try discriminate; try lia).
Qed.

(** X3. The labels on which CatBoost is trained follow the tiers of the
    classifier: both labellers give 3 exactly on the BLOCKED tier and 2
    exactly on the SUSPICIOUS tier; they differ exactly on the scores in
    30..64, which the rule-based analyzer labels 1 and the enhanced one 0. *)
Theorem training_labels_match_classifier (risk_score : Z) :
  let tier := level (get_risk_level_and_action risk_score) in
  (Training.synthetic_label risk_score = 3 <-> tier = BLOCKED) /\
  (Training.synthetic_label risk_score = 2 <-> tier = SUSPICIOUS) /\
  (Training.enhanced_synthetic_label risk_score = 3 <-> tier = BLOCKED) /\
  (Training.enhanced_synthetic_label risk_score = 2 <-> tier = SUSPICIOUS) /\
  (Training.synthetic_label risk_score <> Training.enhanced_synthetic_label risk_score
   <-> 30 <= risk_score < 65).
Proof.
  intros tier. subst tier. rewrite classify_Z.
  unfold Training.synthetic_label, Training.enhanced_synthetic_label.
  destruct (Z.leb_spec 80 risk_score), (Z.leb_spec 65 risk_score),
    (Z.leb_spec 30 risk_score);
    try lia; repeat split; intros; try discriminate; try reflexivity;
    try lia; try congruence.
Qed.

End Tiers.

Lemma classifier_monotone_witness :
  severity (level (get_risk_level_and_action 64))
  <= severity (level (get_risk_level_and_action 65)).
Proof. apply classifier_monotone. lia. Defined.

(** ** Every result of an analysis *)

Section FlagsUpTo.

(** The flags [f] come, in order, from the first [n] entries of [L]. *)
Definition flags_upto (L : list string) (n : nat) (f : list string) : Prop :=
  f `sublist_of` take n L.

Fixpoint index_of (w : string) (L : list string) : option nat :=
  match L with
  | [] => None
  | v :: L' => if String.eqb v w then Some 0%nat else S <$> index_of w L'
  end.

Lemma index_of_lookup (w : string) (L : list string) (i : nat) :
  index_of w L = Some i -> L !! i = Some w.
Proof.
  revert i. induction L as [|v L IH]; intros i; simpl; [discriminate |].
  destruct (String.eqb_spec v w) as [->|_].
  - intros [= <-]. reflexivity.
  - destruct (index_of w L) as [j|]; simpl; [| discriminate].
    intros [= <-]. simpl. apply IH. reflexivity.
Qed.

Lemma upto_nil (L : list string) : flags_upto L 0 [].
Proof. apply sublist_nil_l. Qed.

Lemma upto_weaken (L : list string) (n m : nat) (f : list string) :
  flags_upto L n f -> (n <= m)%nat -> flags_upto L m f.
Proof.
  unfold flags_upto. intros Hf Hnm. etransitivity; [exact Hf |].
  replace n with (n `min` m)%nat by lia. rewrite <- take_take.
  apply sublist_take.
Qed.

Lemma upto_append (L : list string) (n i : nat) (w : string) (f : list string) :
  flags_upto L n f -> index_of w L = Some i -> (n <= i)%nat ->
  flags_upto L (S i) (ApiServer.append f w).
Proof.
  intros Hf Hi Hn. apply index_of_lookup in Hi.
  unfold flags_upto, ApiServer.append.
  rewrite (take_S_r L i w Hi). apply sublist_app; [| reflexivity].
  exact (upto_weaken L n i f Hf Hn).
Qed.

Lemma upto_append_if (L : list string) (n i : nat) (b : bool) (w : string)
    (f : list string) :
  flags_upto L n f -> index_of w L = Some i -> (n <= i)%nat ->
  flags_upto L (S i) (ApiServer.append_if b w f).
Proof.
  intros Hf Hi Hn. destruct b; simpl.
  - apply (upto_append L n i w f Hf Hi Hn).
  - apply (upto_weaken L n (S i) f Hf). lia.
Qed.

Lemma upto_sublist (L : list string) (n : nat) (f : list string) :
  flags_upto L n f -> f `sublist_of` L.
Proof. unfold flags_upto. intros Hf. etransitivity; [exact Hf | apply sublist_take]. Qed.

End FlagsUpTo.

Ltac flags_in_order :=
  repeat first
    [ apply upto_nil
    | eapply upto_append_if; [| vm_compute; reflexivity | ]
    | eapply upto_append; [| vm_compute; reflexivity | ] ];
  cbv; repeat constructor.

Section EveryResult.
Import PyFloat.

(** The shape of every result of the ensemble analyzer: the tier, action
    and threat level are the classifier's for the reported score, and the
    flags are those of the rules on the row, in the order of the code,
    followed by the two flags of the model. *)
Lemma ensemble_row_shape (row : gmap string Cell) (pred : bool) (proba : float)
    (res : ApiServer.Result) :
  ApiServer.ensemble_row row pred proba = Some res ->
  exists base : list string,
    let info := get_risk_level_and_action (ApiServer.risk_score res) in
    ApiServer.flags res
    = ApiServer.append_if (0.8 <? proba)%float "High Confidence Fraud"
        (ApiServer.append_if pred "Ensemble High Risk" base) /\
    flags_upto ensemble_flags 7 base /\
    ApiServer.label res = level info /\
    ApiServer.res_action res = action info /\
    ApiServer.res_threat_level res = threat_level info /\
    ApiServer.is_fraud res = Some pred /\
    ApiServer.fraud_probability res = Some proba /\
    ApiServer.model_type res = Some "Advanced Ensemble".
Proof.
  unfold ApiServer.ensemble_row. intros H.
  repeat match type of H with
         | context [mbind _ ?x] => destruct x; simpl in H; try discriminate
         | (match ?x with _ => _ end) = Some _ =>
             destruct x; simpl in H; try discriminate
         end.
  all: injection H as <-; eexists; cbv zeta;
    cbn [ApiServer.flags ApiServer.label ApiServer.res_action
         ApiServer.res_threat_level ApiServer.is_fraud
         ApiServer.fraud_probability ApiServer.model_type ApiServer.risk_score].
  all: split; [reflexivity |]; split; [| repeat split].
  all: repeat match goal with
              | |- context [ApiServer.append_if ?b _ _] =>
                  assert_fails (is_var b); generalize b; intro
              end.
  all: repeat match goal with
              | |- context [match ?x with _ => _ end] => destruct x
              end.
  all: eapply upto_weaken; [flags_in_order | cbv; repeat constructor].
Qed.

Lemma ensemble_row_flags (row : gmap string Cell) (pred : bool) (proba : float)
    (res : ApiServer.Result) :
  ApiServer.ensemble_row row pred proba = Some res ->
  ApiServer.flags res `sublist_of` ensemble_flags.
Proof.
  intros H. destruct (ensemble_row_shape row pred proba res H) as (base & Hflags & Hbase & _).
  rewrite Hflags. eapply upto_sublist.
  eapply (upto_append_if ensemble_flags 8 8); [| reflexivity | lia].
  eapply (upto_append_if ensemble_flags 7 7); [exact Hbase | reflexivity | lia].
Qed.

End EveryResult.

Lemma Forall2_right {A B} (P : A -> B -> Prop) (Q : B -> Prop)
    (l : list A) (k : list B) :
  Forall2 P l k -> (forall x y, P x y -> Q y) -> Forall Q k.
Proof. intros H HPQ. induction H; constructor; eauto. Qed.

Section Results.
Import PyFloat.
Variable float_of_str : string -> option float.

Lemma analyze_rows_Forall2 (idx : nat) (rs : list (gmap string Cell))
    (env : nat -> ApiServer.RowEnv) (results : list ApiServer.Result) :
  ApiServer.analyze_rows float_of_str idx rs env = Some results ->
  Forall2 (fun row res =>
             exists i, ApiServer.analyze_row float_of_str i row (env i) = Some res)
          rs results.
Proof.
  revert idx results. induction rs as [|row rs IH]; intros idx results; simpl.
  - intros [= <-]. constructor.
  - destruct (ApiServer.analyze_row float_of_str idx row (env idx)) as [r|] eqn:Hr;
      simpl; [| discriminate].
    destruct (ApiServer.analyze_rows float_of_str (S idx) rs env) as [rest|] eqn:Hrest;
      simpl; [| discriminate].
    intros [= <-]. constructor; [eauto | eapply IH; exact Hrest].
Qed.

Lemma ensemble_rows_Forall2 (rs : list (gmap string Cell)) (pred : list bool)
    (proba : list float) (results : list ApiServer.Result) :
  ApiServer.ensemble_rows rs pred proba = Some results ->
  Forall2 (fun row res =>
             exists b p, p ∈ proba /\ ApiServer.ensemble_row row b p = Some res)
          rs results.
Proof.
  revert pred proba results.
  induction rs as [|row rs IH]; intros pred proba results; simpl.
  - intros [= <-]. constructor.
  - destruct pred as [|b pred]; [discriminate |].
    destruct proba as [|p proba]; [discriminate |].
    destruct (ApiServer.ensemble_row row b p) as [r|] eqn:Hr; simpl; [| discriminate].
    destruct (ApiServer.ensemble_rows rs pred proba) as [rest|] eqn:Hrest;
      simpl; [| discriminate].
    intros [= <-]. constructor.
    + exists b, p. split; [apply list_elem_of_here | exact Hr].
    + eapply Forall2_impl; [eapply IH; exact Hrest |].
      intros row' res' (b' & p' & Hin & Hres). exists b', p'.
      split; [apply list_elem_of_further; exact Hin | exact Hres].
Qed.

(** Every result of the analysis behind [/api/csv/analyze] is the result of
    one of the two row analyzers on the row at the same position. *)
Lemma run_analysis_results (sys : ApiServer.EnsembleSystem)
    (env : nat -> ApiServer.RowEnv) (df : DataFrame)
    (results : list ApiServer.Result) :
  ApiServer.run_analysis float_of_str sys env df = Some results ->
  Forall2 (fun row res =>
             (exists i, ApiServer.analyze_row float_of_str i row (env i) = Some res) \/
             (exists b p, ApiServer.ensemble_row row b p = Some res))
          (rows df) results.
Proof.
  assert (Hfallback : forall results,
            ApiServer.analyze_transactions float_of_str df env = Some results ->
            Forall2 (fun row res =>
               (exists i, ApiServer.analyze_row float_of_str i row (env i) = Some res) \/
               (exists b p, ApiServer.ensemble_row row b p = Some res))
              (rows df) results).
  { intros rs Hrs. eapply Forall2_impl; [eapply analyze_rows_Forall2; exact Hrs |].
    intros row res Hres. left. exact Hres. }
  assert (Hensemble : forall pred proba results,
            ApiServer.ensemble_rows (rows df) pred proba = Some results ->
            Forall2 (fun row res =>
               (exists i, ApiServer.analyze_row float_of_str i row (env i) = Some res) \/
               (exists b p, ApiServer.ensemble_row row b p = Some res))
              (rows df) results).
  { intros pred proba rs Hrs.
    eapply Forall2_impl; [eapply ensemble_rows_Forall2; exact Hrs |].
    intros row res (b & p & _ & Hres). right. eauto. }
  unfold ApiServer.run_analysis, ApiServer.analyze_with_ensemble_system.
  destruct (ApiServer.is_loaded sys).
  - destruct (ApiServer.predict_with_ensemble sys df) as [[pred proba]|].
    + destruct (ApiServer.ensemble_rows (rows df) pred proba) as [rs|] eqn:Hrs.
      * intros [= <-]. eapply Hensemble; exact Hrs.
      * destruct (ApiServer.analyze_transactions float_of_str df env) as [rs|] eqn:Hfb;
          intros H; [| apply Hfallback; exact H].
        injection H as <-. apply Hfallback. reflexivity.
    + destruct (ApiServer.analyze_transactions float_of_str df env) as [rs|] eqn:Hfb;
        intros H; [| apply Hfallback; exact H].
      injection H as <-. apply Hfallback. reflexivity.
  - destruct (ApiServer.analyze_transactions float_of_str df env) as [rs|] eqn:Hfb;
      intros H; [| apply Hfallback; exact H].
    injection H as <-. apply Hfallback. reflexivity.
Qed.

Lemma fallback_flags_vocabulary (idx : nat) (row : gmap string Cell)
    (env : ApiServer.RowEnv) (res : ApiServer.Result) :
  ApiServer.analyze_row float_of_str idx row env = Some res ->
  ApiServer.flags res `sublist_of` fallback_flags.
Proof.
  intros H. destruct (analyze_row_shape float_of_str idx row env res H)
    as (pre & post & _ & _ & _ & _ & _ & _ & Hflags & _).
  exact Hflags.
Qed.

(** X4. Whatever the row and whatever the fitted models say, the risk score
    that the rule-based analyzer reports lies between 0 and 100, and the
    reported amount is the parsed one. *)
Theorem fallback_scores_in_range (df : DataFrame) (env : nat -> ApiServer.RowEnv)
    (results : list ApiServer.Result) :
  ApiServer.analyze_transactions float_of_str df env = Some results ->
  Forall2 (fun row res =>
             0 <= ApiServer.risk_score res <= 100 /\
             ApiServer.res_Value res = ApiServer.get_amount float_of_str row)
          (rows df) results.
Proof.
  intros H. eapply Forall2_impl; [eapply analyze_rows_Forall2; exact H |].
  intros row res [i Hres].
  destruct (analyze_row_shape float_of_str i row (env i) res Hres)
    as (pre & post & Hpre & Hle & _ & _ & _ & Hscore & _ & Hvalue).
  split; [| exact Hvalue]. rewrite Hscore. split; [| lia].
  apply Z.min_glb; [lia |]. apply py_int_lower; [lia |].
  change (inject_Z 0) with 0%Q. lra.
Qed.

(** X5. The tier that the rule-based analyzer reports is never stricter
    than the classifier's tier for the risk score it reports: the tier is
    fixed before the address rules add their points, and points are only
    ever added. *)
Theorem fallback_tier_never_stricter (df : DataFrame)
    (env : nat -> ApiServer.RowEnv) (results : list ApiServer.Result) :
  ApiServer.analyze_transactions float_of_str df env = Some results ->
  Forall (fun res =>
            severity (ApiServer.label res)
            <= severity (level (get_risk_level_and_action (ApiServer.risk_score res))))
         results.
Proof.
  intros H. apply analyze_rows_Forall2 in H.
  apply (Forall2_right _ _ _ _ H). intros row res [i Hres].
  destruct (analyze_row_shape float_of_str i row (env i) res Hres)
    as (pre & post & Hpre & Hle & _ & Hlabel & _ & Hscore & _).
  rewrite Hlabel, Hscore, classify_Q, classify_Z.
  destruct (Qle_bool 80 pre) eqn:E80.
  - apply Qle_bool_iff in E80.
    assert (80 <= PyQ.py_int post).
    { apply py_int_lower; [lia |]. change (inject_Z 80) with 80%Q. lra. }
    destruct (Z.leb_spec 80 (Z.min 100 (PyQ.py_int post))); [simpl; lia | lia].
  - destruct (Qle_bool 65 pre) eqn:E65.
    + apply Qle_bool_iff in E65.
      assert (65 <= PyQ.py_int post).
      { apply py_int_lower; [lia |]. change (inject_Z 65) with 65%Q. lra. }
      destruct (Z.leb_spec 80 (Z.min 100 (PyQ.py_int post))); [simpl; lia |].
      destruct (Z.leb_spec 65 (Z.min 100 (PyQ.py_int post))); [simpl; lia | lia].
    + destruct (80 <=? _); [simpl; lia |]. destruct (65 <=? _); simpl; lia.
Qed.

(** X6. Each analyzer raises its flags in one fixed order and each at most
    once: the flags of a result are a sub-sequence of the thirteen flags of
    the rule-based analyzer or of the nine flags of the ensemble analyzer. *)
Theorem flags_in_code_order (sys : ApiServer.EnsembleSystem)
    (env : nat -> ApiServer.RowEnv) (df : DataFrame)
    (results : list ApiServer.Result) :
  ApiServer.run_analysis float_of_str sys env df = Some results ->
  Forall (fun res =>
            NoDup (ApiServer.flags res) /\
            (ApiServer.flags res `sublist_of` fallback_flags \/
             ApiServer.flags res `sublist_of` ensemble_flags))
         results.
Proof.
  intros H. apply run_analysis_results in H.
  apply (Forall2_right _ _ _ _ H). intros row res Hres.
  assert (Hnd1 : NoDup fallback_flags).
  { apply (bool_decide_unpack (NoDup fallback_flags)). vm_compute. exact I. }
  assert (Hnd2 : NoDup ensemble_flags).
  { apply (bool_decide_unpack (NoDup ensemble_flags)). vm_compute. exact I. }
  destruct Hres as [[i Hres]|(b & p & Hres)].
  - pose proof (fallback_flags_vocabulary i row (env i) res Hres) as Hs.
    split; [exact (sublist_NoDup _ _ Hnd1 Hs) | left; exact Hs].
  - pose proof (ensemble_row_flags row b p res Hres) as Hs.
    split; [exact (sublist_NoDup _ _ Hnd2 Hs) | right; exact Hs].
Qed.

(** X7. The report counts as "ml_anomalies" the results flagged
    "Pattern Anomaly", a flag that neither analyzer raises (the Isolation
    Forest's flag is "Isolation Anomaly"): for the results of every analysis
    the count is 0. *)
Theorem ml_anomalies_always_zero (sys : ApiServer.EnsembleSystem)
    (env : nat -> ApiServer.RowEnv) (df : DataFrame)
    (results : list ApiServer.Result) :
  ApiServer.run_analysis float_of_str sys env df = Some results ->
  Reports.ml_anomalies (Reports.common_patterns results) = 0%nat.
Proof.
  intros H. apply run_analysis_results in H.
  cbn [Reports.ml_anomalies Reports.common_patterns]. unfold Reports.count_flag.
  induction H as [|row res rs results Hres _ IH]; [reflexivity |].
  rewrite filter_cons. destruct (decide _) as [Hin|_]; [exfalso | exact IH].
  destruct Hres as [[i Hres]|(b & p & Hres)].
  - pose proof (fallback_flags_vocabulary i row (env i) res Hres) as Hs.
    pose proof (elem_of_sublist _ _ _ Hin Hs) as Hin'. clear - Hin'. revert Hin'.
    unfold fallback_flags. flag_out.
  - pose proof (ensemble_row_flags row b p res Hres) as Hs.
    pose proof (elem_of_sublist _ _ _ Hin Hs) as Hin'. clear - Hin'. revert Hin'.
    unfold ensemble_flags. flag_out.
Qed.

End Results.

Lemma fallback_scores_in_range_witness :
  Forall2 (fun row res =>
             0 <= ApiServer.risk_score res <= 100 /\
             ApiServer.res_Value res = ApiServer.get_amount (fun _ => None) row)
    (rows value_only_frame)
    (default [] (ApiServer.analyze_transactions (fun _ => None) value_only_frame
                   (fun _ => quiet_env))).
Proof.
  apply (fallback_scores_in_range (fun _ => None) value_only_frame (fun _ => quiet_env)).
  vm_compute. reflexivity.
Defined.

(** A frame with one zero-value self-transfer. *)
Definition self_dust_frame : DataFrame :=
  {| columns := ["TxHash"; "From"; "To"; "Value"]; rows := [self_dust_row] |}.

Lemma fallback_tier_never_stricter_witness :
  Forall (fun res =>
            severity (ApiServer.label res)
            <= severity (level (get_risk_level_and_action (ApiServer.risk_score res))))
    (default [] (ApiServer.analyze_transactions (fun _ => None) self_dust_frame
                   (fun _ => quiet_env))).
Proof.
  apply (fallback_tier_never_stricter (fun _ => None) self_dust_frame
           (fun _ => quiet_env)).
  vm_compute. reflexivity.
Defined.

Lemma flags_in_code_order_witness :
  Forall (fun res =>
            NoDup (ApiServer.flags res) /\
            (ApiServer.flags res `sublist_of` fallback_flags \/
             ApiServer.flags res `sublist_of` ensemble_flags))
    (default [] (ApiServer.run_analysis (fun _ => None) unloaded_system
                   (fun _ => quiet_env) self_dust_frame)).
Proof.
  apply (flags_in_code_order (fun _ => None) unloaded_system (fun _ => quiet_env)
           self_dust_frame).
  vm_compute. reflexivity.
Defined.

Lemma ml_anomalies_always_zero_witness :
  Reports.ml_anomalies
    (Reports.common_patterns
       (default [] (ApiServer.run_analysis (fun _ => None) unloaded_system
                      (fun _ => quiet_env) self_dust_frame))) = 0%nat.
Proof.
  apply (ml_anomalies_always_zero (fun _ => None) unloaded_system (fun _ => quiet_env)
           self_dust_frame).
  vm_compute. reflexivity.
Defined.

(** ** The range of the risk score *)

Section ScoreRanges.
Import PyFloat.

(** X8. [predict_with_risk] returns one scored row for each input row, in
    order, with a probability in [0, 0.95], a risk score in 0..95, and the
    label and action of that score. *)
Theorem predict_with_risk_range (py_hash : string -> Z) (local_hour : Z -> Z)
    (df_raw : list Backend.Row) (scored : list Backend.Scored) :
  Backend.predict_with_risk py_hash local_hour df_raw = Some scored ->
  Forall2 (fun r sc =>
             Backend.row sc = r /\
             (0 <=? Backend.p_fraud sc)%float = true /\
             (Backend.p_fraud sc <=? 0.95)%float = true /\
             0 <= Backend.risk_score sc <= 95 /\
             Backend.label sc = Backend.get_fraud_label (Backend.risk_score sc) /\
             Backend.action sc = Backend.get_action (Backend.risk_score sc))
          df_raw scored.
Proof.
  unfold Backend.predict_with_risk. intros H. apply mapM_Some_1 in H.
  eapply Forall2_impl; [exact H |]. clear H. intros r sc Hsc.
  unfold Backend.score_row in Hsc.
  destruct (Backend.predict_row py_hash local_hour r) as [p|] eqn:Hp;
    simpl in Hsc; [| discriminate].
  destruct (predict_row_range py_hash local_hour r p Hp) as (H0 & H1 & _).
  destruct (backend_score_upper p H0 H1) as (k & Hk & Hrange).
  unfold Backend.astype_int in Hsc. rewrite Hk in Hsc. simpl in Hsc.
  destruct ((- 2 ^ 63 <=? k) && (k <? 2 ^ 63))%bool; simpl in Hsc; [| discriminate].
  injection Hsc as <-. simpl. repeat split; auto; lia.
Qed.

(** X9. A result of the ensemble analyzer whose probability lies in [0, 1]
    has a risk score in 0..100. *)
Theorem ensemble_score_in_range (row : gmap string Cell) (pred : bool)
    (proba : float) (res : ApiServer.Result) :
  (0 <=? proba)%float = true -> (proba <=? 1)%float = true ->
  ApiServer.ensemble_row row pred proba = Some res ->
  0 <= ApiServer.risk_score res <= 100.
Proof.
  intros H0 H1 Hres.
  destruct (ensemble_row_score row pred proba res Hres) as [_ Hi].
  destruct (ensemble_score_upper proba H0 H1) as (k & Hk & Hrange).
  congruence.
Qed.

End ScoreRanges.

Lemma predict_with_risk_range_witness :
  Forall2 (fun r sc =>
             Backend.row sc = r /\
             (0 <=? Backend.p_fraud sc)%float = true /\
             (Backend.p_fraud sc <=? 0.95)%float = true /\
             0 <= Backend.risk_score sc <= 95 /\
             Backend.label sc = Backend.get_fraud_label (Backend.risk_score sc) /\
             Backend.action sc = Backend.get_action (Backend.risk_score sc))
    [sample_row]
    (default [] (Backend.predict_with_risk (fun _ => 7) (fun _ => 12) [sample_row])).
Proof.
  apply (predict_with_risk_range (fun _ => 7) (fun _ => 12) [sample_row]).
  vm_compute. reflexivity.
Defined.

Lemma ensemble_score_in_range_witness :
  0 <= ApiServer.risk_score
         (default (ApiServer.Build_Result NaN NaN NaN None 0 0 None APPROVED Approve
                     LOW [] None None)
            (ApiServer.ensemble_row self_dust_row true 1)) <= 100.
Proof.
  apply (ensemble_score_in_range self_dust_row true 1);
    [reflexivity | reflexivity | vm_compute; reflexivity].
Defined.

(** ** The report of a CSV analysis *)

Section ReportTallies.
Import ApiServer.

Lemma report_tallies_partition_aux (results : list Result) :
  (blocked (generate_report results) + flagged (generate_report results)
   + approved (generate_report results) = length results)%nat.
Proof.
  cbn [generate_report blocked flagged approved].
  induction results as [|r results IH]; [reflexivity |].
  rewrite !filter_cons.
  repeat match goal with
         | |- context [decide ?P] => destruct (decide P)
         end; cbn [length]; lia.
Qed.

(** X10. The tallies of the report partition the results: blocked, flagged
    and approved add up to the number of results, so the mismatch warning of
    [generate_report] never fires; low, medium and high of the risk
    distribution add up to it as well.  The two scales differ: "high" starts
    at 70, so it holds every blocked result and only blocked or flagged
    ones, and every "low" result is approved. *)
Theorem report_tallies_partition (results : list Result) :
  let report := generate_report results in
  let dist := Reports.risk_distribution results in
  (blocked report + flagged report + approved report = length results)%nat /\
  total_transactions_analyzed report = length results /\
  (Reports.low dist + Reports.medium dist + Reports.high dist = length results)%nat /\
  (blocked report <= Reports.high dist <= blocked report + flagged report)%nat /\
  (Reports.low dist <= approved report)%nat.
Proof.
  cbn [generate_report Reports.risk_distribution blocked flagged approved
       total_transactions_analyzed Reports.low Reports.medium Reports.high].
  induction results as [|r results IH]; [simpl; lia |].
  rewrite !filter_cons.
  repeat match goal with
         | |- context [decide ?P] => destruct (decide P)
         end; cbn [length]; lia.
Qed.

End ReportTallies.

Section Rates.
Local Open Scope Q_scope.

Lemma round_half_even_bounds (x : Q) :
  (Qfloor x <= PyQ.round_half_even x <= Qfloor x + 1)%Z.
Proof.
  unfold PyQ.round_half_even. destruct (Qcompare _ _); [| lia | lia].
  destruct (Z.even _); lia.
Qed.

Lemma round_half_even_inject_Z (k : Z) : PyQ.round_half_even (inject_Z k) = k.
Proof.
  unfold PyQ.round_half_even. rewrite Qfloor_Z.
  assert (H : inject_Z k - inject_Z k < 1 # 2) by lra.
  rewrite (proj1 (Qlt_alt _ _) H). reflexivity.
Qed.

Lemma round_half_even_mono (x y : Q) :
  x <= y -> (PyQ.round_half_even x <= PyQ.round_half_even y)%Z.
Proof.
  intros Hxy. pose proof (Qfloor_resp_le x y Hxy) as Hfl.
  pose proof (round_half_even_bounds x) as Hx.
  pose proof (round_half_even_bounds y) as Hy.
  destruct (Z.eq_dec (Qfloor x) (Qfloor y)) as [Heq|Hne]; [| lia].
  unfold PyQ.round_half_even. rewrite Heq.
  destruct (Qcompare (x - inject_Z (Qfloor y)) (1 # 2)) eqn:Ex;
    destruct (Qcompare (y - inject_Z (Qfloor y)) (1 # 2)) eqn:Ey;
    try (destruct (Z.even (Qfloor y))); try lia; exfalso.
  all: repeat match goal with
              | H : (_ ?= _) = Eq |- _ => apply Qeq_alt in H
              | H : (_ ?= _) = Lt |- _ => apply Qlt_alt in H
              | H : (_ ?= _) = Gt |- _ => apply Qgt_alt in H
              end; lra.
Qed.

Lemma py_round2_mono (x y : Q) : x <= y -> PyQ.py_round2 x <= PyQ.py_round2 y.
Proof.
  intros Hxy. unfold PyQ.py_round2.
  assert (H : (PyQ.round_half_even (x * 100) <= PyQ.round_half_even (y * 100))%Z)
    by (apply round_half_even_mono; lra).
  rewrite Zle_Qle in H. unfold Qdiv.
  apply Qmult_le_compat_r; [exact H |]. apply Qinv_le_0_compat. lra.
Qed.

(** Rounding to two decimals keeps a value between integer bounds. *)
Lemma py_round2_bounds (a b : Z) (x : Q) :
  inject_Z a <= x <= inject_Z b ->
  inject_Z a <= PyQ.py_round2 x <= inject_Z b.
Proof.
  intros [Ha Hb]. unfold PyQ.py_round2.
  assert (H1 : (a * 100 <= PyQ.round_half_even (x * 100))%Z).
  { rewrite <- (round_half_even_inject_Z (a * 100)).
    apply round_half_even_mono. rewrite inject_Z_mult.
    change (inject_Z 100) with 100. lra. }
  assert (H2 : (PyQ.round_half_even (x * 100) <= b * 100)%Z).
  { rewrite <- (round_half_even_inject_Z (b * 100)).
    apply round_half_even_mono. rewrite inject_Z_mult.
    change (inject_Z 100) with 100. lra. }
  rewrite Zle_Qle, inject_Z_mult in H1, H2. change (inject_Z 100) with 100 in *.
  split; [apply Qle_shift_div_l | apply Qle_shift_div_r]; lra.
Qed.

Lemma ratio_bounds (count total : nat) :
  (count <= total)%nat -> (0 < total)%nat ->
  inject_Z 0 <= inject_Z (Z.of_nat count) / inject_Z (Z.of_nat total) * 100
  <= inject_Z 100.
Proof.
  intros Hle Hpos.
  assert (Hc : 0 <= inject_Z (Z.of_nat count)).
  { change 0 with (inject_Z 0). rewrite <- Zle_Qle. lia. }
  assert (Ht : 0 < inject_Z (Z.of_nat total)).
  { change 0 with (inject_Z 0). rewrite <- Zlt_Qlt. lia. }
  assert (Hct : inject_Z (Z.of_nat count) <= inject_Z (Z.of_nat total)).
  { rewrite <- Zle_Qle. lia. }
  change (inject_Z 0) with 0. change (inject_Z 100) with 100.
  pose proof (Qdiv_nonneg _ _ Hc Ht) as H0.
  assert (H1 : inject_Z (Z.of_nat count) / inject_Z (Z.of_nat total) <= 1).
  { apply Qle_shift_div_r; lra. }
  lra.
Qed.

(** X11. The block rate and the flag rate of the report are percentages,
    the block rate is at most the flag rate, and both are 0, not a division
    by zero, for an empty list of results. *)
Theorem report_rates (results : list ApiServer.Result) :
  0 <= Reports.block_rate results /\
  Reports.block_rate results <= Reports.flag_rate results /\
  Reports.flag_rate results <= 100 /\
  Reports.block_rate [] = 0 /\ Reports.flag_rate [] = 0.
Proof.
  pose proof (report_tallies_partition_aux results) as Hsum.
  unfold Reports.block_rate, Reports.flag_rate, Reports.rate. cbv zeta.
  set (b := ApiServer.blocked (ApiServer.generate_report results)) in *.
  set (f := ApiServer.flagged (ApiServer.generate_report results)) in *.
  set (a := ApiServer.approved (ApiServer.generate_report results)) in *.
  split; [| split; [| split; [| split; reflexivity]]].
  - destruct (Nat.ltb_spec 0 (length results)) as [Hpos|]; [| lra].
    apply (py_round2_bounds 0 100). apply ratio_bounds; lia.
  - destruct (Nat.ltb_spec 0 (length results)) as [Hpos|]; [| lra].
    apply py_round2_mono.
    assert (Ht : 0 < inject_Z (Z.of_nat (length results))).
    { change 0 with (inject_Z 0). rewrite <- Zlt_Qlt. lia. }
    assert (Hbf : inject_Z (Z.of_nat b) <= inject_Z (Z.of_nat (b + f))).
    { rewrite <- Zle_Qle. lia. }
    apply Qmult_le_compat_r; [| lra].
    apply Qmult_le_compat_r; [exact Hbf |].
    apply Qinv_le_0_compat. lra.
  - destruct (Nat.ltb_spec 0 (length results)) as [Hpos|]; [| lra].
    apply (py_round2_bounds 0 100). apply ratio_bounds; lia.
Qed.

End Rates.

(** ** The ten riskiest results *)

Section TopFraudulent.
Import ApiServer.

Definition riskier_first (a b : Result) : Prop := risk_score b <= risk_score a.

Lemma insert_desc_perm (x : Result) (l : list Result) :
  Reports.insert_desc x l ≡ₚ x :: l.
Proof.
  induction l as [|y l IH]; simpl; [reflexivity |].
  destruct (risk_score y <=? risk_score x); [reflexivity |].
  rewrite IH. apply Permutation_swap.
Qed.

Lemma sorted_desc_perm (l : list Result) : Reports.sorted_desc l ≡ₚ l.
Proof.
  induction l as [|x l IH]; simpl; [reflexivity |].
  rewrite insert_desc_perm, IH. reflexivity.
Qed.

Lemma insert_desc_sorted (x : Result) (l : list Result) :
  StronglySorted riskier_first l ->
  StronglySorted riskier_first (Reports.insert_desc x l).
Proof.
  induction 1 as [|y l Hsorted IH Hall]; simpl.
  - repeat constructor.
  - destruct (Z.leb_spec (risk_score y) (risk_score x)) as [Hle|Hlt].
    + constructor; [constructor; assumption |].
      constructor; [exact Hle |].
      eapply Forall_impl; [exact Hall |]. unfold riskier_first. intros z Hz. lia.
    + constructor; [exact IH |].
      rewrite insert_desc_perm. constructor; [| exact Hall].
      unfold riskier_first. lia.
Qed.

Lemma sorted_desc_sorted (l : list Result) :
  StronglySorted riskier_first (Reports.sorted_desc l).
Proof.
  induction l as [|x l IH]; simpl; [constructor |].
  apply insert_desc_sorted. exact IH.
Qed.

Lemma insert_desc_ties (k : Z) (x : Result) (l : list Result) :
  filter (fun r => risk_score r = k) (Reports.insert_desc x l)
  = filter (fun r => risk_score r = k) (x :: l).
Proof.
  induction l as [|y l IH]; simpl; [reflexivity |].
  destruct (Z.leb_spec (risk_score y) (risk_score x)) as [Hle|Hlt]; [reflexivity |].
  rewrite (filter_cons _ y), IH, !filter_cons.
  destruct (decide (risk_score y = k)), (decide (risk_score x = k));
    try reflexivity; lia.
Qed.

Lemma sorted_prefix_dominates (l1 l2 : list Result) :
  StronglySorted riskier_first (l1 ++ l2) ->
  StronglySorted riskier_first l1 /\
  forall t r, t ∈ l1 -> r ∈ l2 -> riskier_first t r.
Proof.
  induction l1 as [|x l1 IH]; simpl; intros H.
  - split; [constructor |]. intros t r Ht. inversion Ht.
  - apply StronglySorted_inv in H as [Hs Hall].
    destruct (IH Hs) as [Hs1 Hdom]. apply Forall_app in Hall as [Hall1 Hall2].
    split; [constructor; assumption |].
    intros t r Ht Hr. apply elem_of_cons in Ht as [->|Ht]; [| auto].
    rewrite Forall_forall in Hall2. auto.
Qed.

(** X12. The list stored as [top_fraudulent] holds ten results, or all of
    them when there are fewer, ordered by decreasing risk score; the results
    left out are no riskier than any result in it; and sorting keeps results
    of equal score in the order of the upload. *)
Theorem top_fraudulent_spec (results : list Result) :
  let top := Reports.top_fraudulent results in
  length top = (10 `min` length results)%nat /\
  StronglySorted riskier_first top /\
  (exists rest, results ≡ₚ (top ++ rest)%list /\
                forall t r, t ∈ top -> r ∈ rest ->
                            risk_score r <= risk_score t) /\
  (forall k, filter (fun r => risk_score r = k) (Reports.sorted_desc results)
             = filter (fun r => risk_score r = k) results).
Proof.
  intros top. subst top. unfold Reports.top_fraudulent.
  pose proof (sorted_desc_sorted results) as Hsorted.
  rewrite <- (take_drop 10 (Reports.sorted_desc results)) in Hsorted.
  destruct (sorted_prefix_dominates _ _ Hsorted) as [Hs Hdom].
  split; [| split; [exact Hs | split]].
  - rewrite length_take. rewrite (Permutation_length (sorted_desc_perm results)).
    reflexivity.
  - exists (drop 10 (Reports.sorted_desc results)).
    split; [| exact Hdom]. rewrite take_drop. symmetry. apply sorted_desc_perm.
  - intros k. clear Hsorted Hs Hdom.
    induction results as [|x results IH]; [reflexivity |].
    simpl. rewrite insert_desc_ties, !filter_cons, IH. reflexivity.
Qed.

End TopFraudulent.

(** ** The flag counts of the two reports *)

Section FlagCounts.
Import ApiServer.

Lemma flag_counts_fold (all_flags : list string) (counts : gmap string nat)
    (flag : string) :
  default 0%nat
    (fold_left
       (fun flag_counts flag =>
          <[flag := (default 0 (flag_counts !! flag) + 1)%nat]> flag_counts)
       all_flags counts !! flag)
  = (default 0 (counts !! flag) + length (filter (fun f => f = flag) all_flags))%nat.
Proof.
  revert counts. induction all_flags as [|f fs IH]; intros counts; simpl; [lia |].
  rewrite IH, filter_cons. destruct (decide (f = flag)) as [->|Hne]; cbn [length].
  - rewrite lookup_insert_eq. simpl. lia.
  - rewrite lookup_insert_ne by exact Hne. reflexivity.
Qed.

Lemma NoDup_occurrences (flag : string) (fl : list string) :
  NoDup fl ->
  length (filter (fun f => f = flag) fl)
  = if bool_decide (flag ∈ fl) then 1%nat else 0%nat.
Proof.
  induction 1 as [|f fl Hnotin Hnodup IH]; [reflexivity |].
  rewrite filter_cons. destruct (decide (f = flag)) as [->|Hne]; cbn [length];
    rewrite IH.
  - rewrite (bool_decide_eq_false_2 _ Hnotin).
    rewrite bool_decide_eq_true_2 by apply list_elem_of_here. reflexivity.
  - repeat case_bool_decide; try reflexivity; exfalso;
      rewrite elem_of_cons in *; intuition congruence.
Qed.

Lemma flag_counts_count_flag (results : list Result) (flag : string) :
  Forall (fun res => NoDup (flags res)) results ->
  default 0%nat (Reports.flag_counts results !! flag)
  = Reports.count_flag flag results.
Proof.
  intros Hnodup. unfold Reports.flag_counts. cbv zeta.
  rewrite flag_counts_fold, lookup_empty. simpl. unfold Reports.count_flag.
  induction Hnodup as [|res results Hres _ IH]; [reflexivity |].
  simpl. rewrite filter_app, length_app, IH, (NoDup_occurrences flag _ Hres).
  rewrite filter_cons. destruct (decide (flag ∈ flags res)) as [Hin|Hout].
  - rewrite bool_decide_eq_true_2 by exact Hin. reflexivity.
  - rewrite bool_decide_eq_false_2 by exact Hout. reflexivity.
Qed.

End FlagCounts.

Section ReportsAgree.
Variable float_of_str : string -> option float.

Lemma analysis_flags_nodup (sys : ApiServer.EnsembleSystem)
    (env : nat -> ApiServer.RowEnv) (df : DataFrame)
    (results : list ApiServer.Result) :
  ApiServer.run_analysis float_of_str sys env df = Some results ->
  Forall (fun res => NoDup (ApiServer.flags res)) results.
Proof.
  intros H. apply run_analysis_results in H.
  apply (Forall2_right _ _ _ _ H). intros row res Hres.
  destruct Hres as [[i Hres]|(b & p & Hres)].
  - apply (sublist_NoDup _ fallback_flags).
    + apply (bool_decide_unpack (NoDup fallback_flags)). vm_compute. exact I.
    + exact (fallback_flags_vocabulary float_of_str i row (env i) res Hres).
  - apply (sublist_NoDup _ ensemble_flags).
    + apply (bool_decide_unpack (NoDup ensemble_flags)). vm_compute. exact I.
    + exact (ensemble_row_flags row b p res Hres).
Qed.

(** X13. The two reports count flags in two ways, [common_flags] by
    occurrence and [common_patterns] by result; on the results of an
    analysis they agree, because no result carries a flag twice: the dust,
    round-amount and error counts of the detailed report are the entries of
    [common_flags], and so is the number of results carrying any flag. *)
Theorem common_flags_agree_with_patterns (sys : ApiServer.EnsembleSystem)
    (env : nat -> ApiServer.RowEnv) (df : DataFrame)
    (results : list ApiServer.Result) :
  ApiServer.run_analysis float_of_str sys env df = Some results ->
  let counts := Reports.flag_counts results in
  let patterns := Reports.common_patterns results in
  default 0%nat (counts !! "Dust Transaction") = Reports.dust_transactions patterns /\
  default 0%nat (counts !! "Round Amount") = Reports.round_amounts patterns /\
  default 0%nat (counts !! "Transaction Error") = Reports.error_transactions patterns /\
  forall flag, default 0%nat (counts !! flag) = Reports.count_flag flag results.
Proof.
  intros H counts patterns. subst counts patterns.
  pose proof (analysis_flags_nodup sys env df results H) as Hnodup.
  cbn [Reports.common_patterns Reports.dust_transactions Reports.round_amounts
       Reports.error_transactions].
  repeat split; try intros flag; apply flag_counts_count_flag; exact Hnodup.
Qed.

End ReportsAgree.

Lemma common_flags_agree_with_patterns_witness :
  default 0%nat
    (Reports.flag_counts
       (default [] (ApiServer.run_analysis (fun _ => None) unloaded_system
                      (fun _ => quiet_env) self_dust_frame))
     !! "Dust Transaction")
  = Reports.dust_transactions
      (Reports.common_patterns
         (default [] (ApiServer.run_analysis (fun _ => None) unloaded_system
                        (fun _ => quiet_env) self_dust_frame))).
Proof.
  destruct (common_flags_agree_with_patterns (fun _ => None) unloaded_system
              (fun _ => quiet_env) self_dust_frame
              (default [] (ApiServer.run_analysis (fun _ => None) unloaded_system
                             (fun _ => quiet_env) self_dust_frame)))
    as (Hdust & _).
  - vm_compute. reflexivity.
  - exact Hdust.
Defined.

Section EnsembleConsistent.
Import ApiServer.

Lemma elem_of_append_if (w : string) (b : bool) (w' : string) (f : list string) :
  w ∈ append_if b w' f <-> w ∈ f \/ (b = true /\ w = w').
Proof.
  unfold append_if, append. destruct b.
  - rewrite elem_of_app, list_elem_of_singleton. intuition.
  - intuition discriminate.
Qed.

Lemma upto_not_reached (L : list string) (n i : nat) (w : string)
    (f : list string) :
  NoDup L -> flags_upto L n f -> index_of w L = Some i -> (n <= i)%nat -> w ∉ f.
Proof.
  intros Hnodup Hf Hi Hn Hin. apply index_of_lookup in Hi.
  pose proof (elem_of_sublist _ _ _ Hin Hf) as Hin'.
  apply list_elem_of_lookup in Hin' as [j Hj].
  apply lookup_take_Some in Hj as [Hj Hlt].
  pose proof (NoDup_lookup _ _ _ _ Hnodup Hi Hj). lia.
Qed.

(** X14. A result of the ensemble analyzer is consistent with itself: its
    tier, action and threat level are the classifier's for its risk score;
    it is flagged "Ensemble High Risk" exactly when the ensemble's verdict
    is fraud, and "High Confidence Fraud" exactly when the probability
    exceeds 0.8. *)
Theorem ensemble_result_consistent (rs : list (gmap string Cell))
    (pred : list bool) (proba : list float) (results : list Result) :
  ensemble_rows rs pred proba = Some results ->
  length results = length rs /\
  Forall (fun res =>
            let info := get_risk_level_and_action (risk_score res) in
            label res = level info /\
            res_action res = action info /\
            res_threat_level res = threat_level info /\
            ("Ensemble High Risk" ∈ flags res <-> is_fraud res = Some true) /\
            ("High Confidence Fraud" ∈ flags res
             <-> exists p, fraud_probability res = Some p /\ (0.8 <? p)%float = true))
         results.
Proof.
  intros H. apply ensemble_rows_Forall2 in H.
  split; [symmetry; apply (Forall2_length _ _ _ H) |].
  apply (Forall2_right _ _ _ _ H). intros row res (b & p & _ & Hres).
  destruct (ensemble_row_shape row b p res Hres)
    as (base & Hflags & Hbase & Hl & Ha & Ht & Hf & Hp & _).
  assert (Hnodup : NoDup ensemble_flags).
  { apply (bool_decide_unpack (NoDup ensemble_flags)). vm_compute. exact I. }
  pose proof (upto_not_reached ensemble_flags 7 7 "Ensemble High Risk" base
                Hnodup Hbase eq_refl ltac:(lia)) as H7.
  pose proof (upto_not_reached ensemble_flags 7 8 "High Confidence Fraud" base
                Hnodup Hbase eq_refl ltac:(lia)) as H8.
  cbv zeta. rewrite Hflags, Hf, Hp, !elem_of_append_if.
  repeat (split; [assumption |]). split; split.
  - intros [[Hin|[-> _]]|[_ Hne]]; [contradiction | reflexivity | discriminate Hne].
  - intros [= ->]. left. right. auto.
  - intros [[Hin|[_ Hne]]|[Hc _]]; [contradiction | discriminate Hne | eauto].
  - intros (q & [= <-] & Hq). right. auto.
Qed.

End EnsembleConsistent.

Lemma ensemble_result_consistent_witness :
  Forall (fun res =>
            let info := get_risk_level_and_action (ApiServer.risk_score res) in
            ApiServer.label res = level info /\
            ApiServer.res_action res = action info /\
            ApiServer.res_threat_level res = threat_level info /\
            ("Ensemble High Risk" ∈ ApiServer.flags res
             <-> ApiServer.is_fraud res = Some true) /\
            ("High Confidence Fraud" ∈ ApiServer.flags res
             <-> exists p, ApiServer.fraud_probability res = Some p /\
                           (0.8 <? p)%float = true))
    (default [] (ApiServer.ensemble_rows [self_dust_row] [true] [0.85%float])).
Proof.
  destruct (ensemble_result_consistent [self_dust_row] [true] [0.85%float]
              (default [] (ApiServer.ensemble_rows [self_dust_row] [true] [0.85%float])))
    as [_ H].
  - vm_compute. reflexivity.
  - exact H.
Defined.

(** ** Invariants of the monitoring loop *)

(** The bounds that the server keeps on its buffers and counters. *)
Record bounded (st : ApiServer.State) : Prop := {
  live_bounded : (length (ApiServer.live_transactions st) <= 1000)%nat;
  history_bounded : (length (ApiServer.fraud_history st) <= 1000)%nat;
  high_risk_bounded : (length (ApiServer.high_risk_transactions st) <= 100)%nat;
  alerts_bounded : (length (ApiServer.suspicious_alerts st) <= 200)%nat;
  counters_ordered : 0 <= ApiServer.total_fraud st <= ApiServer.total_processed st
}.

(** Two states with the same buffers and counters. *)
Definition same_records (st st' : ApiServer.State) : Prop :=
  ApiServer.total_processed st' = ApiServer.total_processed st /\
  ApiServer.total_fraud st' = ApiServer.total_fraud st /\
  ApiServer.live_transactions st' = ApiServer.live_transactions st /\
  ApiServer.fraud_history st' = ApiServer.fraud_history st /\
  ApiServer.high_risk_transactions st' = ApiServer.high_risk_transactions st /\
  ApiServer.suspicious_alerts st' = ApiServer.suspicious_alerts st.

Section BufferLengths.
Context {A : Type}.

Lemma insert_front_length (cap : nat) (x : A) (l : list A) :
  (length l <= cap)%nat -> (length (ApiServer.insert_front cap x l) <= cap)%nat.
Proof.
  intros Hl. rewrite insert_front_take by exact Hl. rewrite length_take. lia.
Qed.

Lemma append_back_length (cap : nat) (x : A) (l : list A) :
  (length l <= cap)%nat -> (length (ApiServer.append_back cap x l) <= cap)%nat.
Proof.
  intros Hl. rewrite append_back_drop by exact Hl.
  rewrite length_drop, length_app. simpl. lia.
Qed.

End BufferLengths.

Section LoopInvariant.
Import ApiServer.
Variable py_hash : string -> Z.
Variable local_hour : Z -> Z.
Variable str_of_value : float -> string.
Variable now : Z.

Abbreviation process_tx := (process_tx py_hash local_hour str_of_value now).
Abbreviation process_block := (process_block py_hash local_hour str_of_value now).
Abbreviation monitoring_step :=
  (monitoring_step py_hash local_hour str_of_value now).

Lemma same_records_refl (st : State) : same_records st st.
Proof. repeat split. Qed.

Lemma same_records_trans (st1 st2 st3 : State) :
  same_records st1 st2 -> same_records st2 st3 -> same_records st1 st3.
Proof. unfold same_records. intuition congruence. Qed.

Lemma same_records_bounded (st st' : State) :
  same_records st st' -> bounded st -> bounded st'.
Proof.
  intros (H1 & H2 & H3 & H4 & H5 & H6) [B1 B2 B3 B4 B5].
  split; congruence.
Qed.

Lemma record_tx_bounded (st : State) (tx : Scored) :
  bounded st -> bounded (record_tx st tx).
Proof.
  intros [B1 B2 B3 B4 B5]. split; cbn [record_tx live_transactions fraud_history
    high_risk_transactions suspicious_alerts total_fraud total_processed].
  - apply insert_front_length. exact B1.
  - apply append_back_length. exact B2.
  - destruct (80 <=? st_risk_score tx); [apply insert_front_length |]; exact B3.
  - destruct (80 <=? st_risk_score tx); [exact B4 |].
    destruct (65 <=? st_risk_score tx); [apply insert_front_length |]; exact B4.
  - destruct (st_label tx); lia.
Qed.

Lemma fold_record_tx_bounded (queue : list Scored) (st : State) :
  bounded st -> bounded (fold_left record_tx queue st).
Proof.
  revert st. induction queue as [|tx queue IH]; intros st Hst; simpl;
    [exact Hst |].
  apply IH, record_tx_bounded, Hst.
Qed.

Lemma fold_record_tx_queue (queue : list Scored) (st : State) :
  transaction_queue (fold_left record_tx queue st) = transaction_queue st /\
  processed_tx_hashes (fold_left record_tx queue st) = processed_tx_hashes st /\
  current_block (fold_left record_tx queue st) = current_block st /\
  last_processed_block (fold_left record_tx queue st) = last_processed_block st.
Proof.
  revert st. induction queue as [|tx queue IH]; intros st; simpl; [auto |].
  destruct (IH (record_tx st tx)) as (H1 & H2 & H3 & H4).
  rewrite H1, H2, H3, H4. auto.
Qed.

Lemma process_tx_records (st : State) (tx : TxData) :
  same_records st (process_tx st tx) /\
  current_block (process_tx st tx) = current_block st /\
  last_processed_block (process_tx st tx) = last_processed_block st /\
  (length (transaction_queue st) <= length (transaction_queue (process_tx st tx))
   <= length (transaction_queue st) + 1)%nat.
Proof.
  unfold ApiServer.process_tx. case_bool_decide.
  - split; [apply same_records_refl | repeat split; lia].
  - destruct (process_transaction_data _ _ _ tx) as [r|].
    + split; [repeat split |]. cbn. rewrite length_app. simpl.
      repeat split; lia.
    + split; [apply same_records_refl | repeat split; lia].
Qed.

Lemma process_block_records (st : State) (block_num : Z) (block : Block) :
  same_records st (process_block st block_num block) /\
  current_block (process_block st block_num block) = current_block st /\
  last_processed_block (process_block st block_num block) = last_processed_block st /\
  (length (transaction_queue st)
   <= length (transaction_queue (process_block st block_num block))
   <= length (transaction_queue st) + 5)%nat.
Proof.
  unfold ApiServer.process_block.
  set (txs := map _ _).
  assert (Hlen : (length txs <= 5)%nat).
  { subst txs. rewrite length_map, length_firstn. lia. }
  clearbody txs. revert st Hlen.
  induction txs as [|tx txs IH]; intros st Hlen; simpl.
  - split; [apply same_records_refl | repeat split; lia].
  - destruct (process_tx_records st tx) as (S1 & C1 & L1 & Q1).
    simpl in Hlen.
    assert (Hgen : forall k st,
               (length txs <= k)%nat ->
               same_records st (fold_left process_tx txs st) /\
               current_block (fold_left process_tx txs st) = current_block st /\
               last_processed_block (fold_left process_tx txs st)
               = last_processed_block st /\
               (length (transaction_queue st)
                <= length (transaction_queue (fold_left process_tx txs st))
                <= length (transaction_queue st) + k)%nat).
    { clear. induction txs as [|tx txs IH]; intros k st Hk; simpl.
      - split; [apply same_records_refl | repeat split; lia].
      - simpl in Hk. destruct k as [|k]; [lia |].
        destruct (process_tx_records st tx) as (S1 & C1 & L1 & Q1).
        destruct (IH k (process_tx st tx) ltac:(lia)) as (S2 & C2 & L2 & Q2).
        split; [eapply same_records_trans; eassumption |].
        repeat split; try congruence; lia. }
    destruct (Hgen 4%nat (process_tx st tx) ltac:(lia)) as (S2 & C2 & L2 & Q2).
    split; [eapply same_records_trans; eassumption |].
    repeat split; try congruence; lia.
Qed.

(** Processing the blocks of a list of block numbers. *)
Definition process_blocks (get_block : Z -> option Block) (nums : list Z)
    (st : State) : State :=
  fold_left
    (fun st block_num =>
       match get_block block_num with
       | Some block => process_block st block_num block
       | None => st
       end)
    nums st.

Lemma process_blocks_records (get_block : Z -> option Block) (nums : list Z)
    (st : State) :
  same_records st (process_blocks get_block nums st) /\
  current_block (process_blocks get_block nums st) = current_block st /\
  last_processed_block (process_blocks get_block nums st) = last_processed_block st /\
  (length (transaction_queue st)
   <= length (transaction_queue (process_blocks get_block nums st))
   <= length (transaction_queue st) + 5 * length nums)%nat.
Proof.
  unfold process_blocks. revert st.
  induction nums as [|n nums IH]; intros st; simpl.
  - split; [apply same_records_refl | repeat split; lia].
  - destruct (get_block n) as [block|].
    + destruct (process_block_records st n block) as (S1 & C1 & L1 & Q1).
      destruct (IH (process_block st n block)) as (S2 & C2 & L2 & Q2).
      split; [eapply same_records_trans; eassumption |].
      repeat split; try congruence; lia.
    + destruct (IH st) as (S2 & C2 & L2 & Q2).
      split; [exact S2 |]. repeat split; try congruence; lia.
Qed.

Lemma size_list_to_set_le (l : list string) :
  (size (list_to_set l : gset string) <= length l)%nat.
Proof.
  induction l as [|x l IH].
  - rewrite list_to_set_nil, size_empty. simpl. lia.
  - rewrite list_to_set_cons, size_union_alt, size_singleton. cbn [length].
    assert (size (list_to_set l ∖ {[x]} : gset string)
            <= size (list_to_set l : gset string))%nat
      by (apply subseteq_size, subseteq_difference_l; reflexivity).
    lia.
Qed.

Lemma cleanup_records (st : State) :
  same_records st (cleanup st) /\
  transaction_queue (cleanup st) = transaction_queue st /\
  current_block (cleanup st) = current_block st /\
  last_processed_block (cleanup st) = last_processed_block st /\
  (size (processed_tx_hashes (cleanup st)) <= 5000)%nat.
Proof.
  unfold cleanup.
  destruct (5000 <? size (processed_tx_hashes st))%nat eqn:Hsize.
  - split; [repeat split |].
    cbn [set_pipeline transaction_queue current_block last_processed_block
         processed_tx_hashes].
    repeat split.
    etransitivity; [apply size_list_to_set_le |].
    rewrite length_map, length_firstn. lia.
  - apply Nat.ltb_ge in Hsize.
    split; [apply same_records_refl | auto].
Qed.

(** The turn of the loop in three phases: fetch and score, drain, clean
    up. *)
Lemma monitoring_step_phases (chain_head : Z) (get_block : Z -> option Block)
    (st : State) :
  monitoring_step chain_head get_block st
  = cleanup
      (drain_queue
         (if last_processed_block st <? chain_head then
            set_blocks
              (process_blocks get_block
                 (seqZ (Z.max (last_processed_block st + 1) (chain_head - 2))
                       (chain_head + 1
                        - Z.max (last_processed_block st + 1) (chain_head - 2)))
                 (set_blocks st chain_head (last_processed_block st)))
              chain_head chain_head
          else set_blocks st chain_head (last_processed_block st))).
Proof. reflexivity. Qed.

Lemma drain_queue_records (st : State) :
  (bounded st -> bounded (drain_queue st)) /\
  transaction_queue (drain_queue st) = [] /\
  processed_tx_hashes (drain_queue st) = processed_tx_hashes st /\
  current_block (drain_queue st) = current_block st /\
  last_processed_block (drain_queue st) = last_processed_block st /\
  total_processed (drain_queue st)
  = total_processed st + Z.of_nat (length (transaction_queue st)).
Proof.
  unfold drain_queue.
  destruct (fold_record_tx_queue (transaction_queue st)
              (set_pipeline st [] (processed_tx_hashes st) (database st)))
    as (H1 & H2 & H3 & H4).
  split; [| rewrite H1, H2, H3, H4, record_total_processed; auto].
  intros Hst. apply fold_record_tx_bounded.
  destruct Hst. split; assumption.
Qed.

End LoopInvariant.

Section LoopTheorems.
Import ApiServer.
Variable py_hash : string -> Z.
Variable local_hour : Z -> Z.
Variable str_of_value : float -> string.
Variable now : Z.

Abbreviation step := (monitoring_step py_hash local_hour str_of_value now).
Abbreviation blocks_of :=
  (process_blocks py_hash local_hour str_of_value now).

Lemma fetched_records (chain_head : Z) (get_block : Z -> option Block)
    (st : State) :
  let fetched :=
    if last_processed_block st <? chain_head then
      set_blocks
        (blocks_of get_block
           (seqZ (Z.max (last_processed_block st + 1) (chain_head - 2))
                 (chain_head + 1
                  - Z.max (last_processed_block st + 1) (chain_head - 2)))
           (set_blocks st chain_head (last_processed_block st)))
        chain_head chain_head
    else set_blocks st chain_head (last_processed_block st) in
  same_records st fetched /\
  current_block fetched = chain_head /\
  last_processed_block fetched = Z.max (last_processed_block st) chain_head /\
  (length (transaction_queue st) <= length (transaction_queue fetched)
   <= length (transaction_queue st) + 15)%nat.
Proof.
  cbv zeta. destruct (Z.ltb_spec (last_processed_block st) chain_head) as [Hlt|Hge].
  - destruct (process_blocks_records py_hash local_hour str_of_value now get_block
                (seqZ (Z.max (last_processed_block st + 1) (chain_head - 2))
                      (chain_head + 1
                       - Z.max (last_processed_block st + 1) (chain_head - 2)))
                (set_blocks st chain_head (last_processed_block st)))
      as (S1 & _ & _ & Q1).
    rewrite length_seqZ in Q1.
    split; [exact S1 |]. cbn [set_blocks current_block last_processed_block
                              transaction_queue] in *.
    repeat split; lia.
  - split; [repeat split |]. cbn. repeat split; lia.
Qed.

(** X15. Every turn of the monitoring loop keeps the server's buffers
    within their capacities (1000 live transactions, 1000 history points,
    100 high-risk entries, 200 alerts) and the fraud counter between 0 and
    the number of processed transactions; it leaves the queue empty and at
    most 5000 processed hashes, and records the chain head as the current
    and, unless the head went backwards, as the last processed block. *)
Theorem monitoring_step_invariant (chain_head : Z)
    (get_block : Z -> option Block) (st : State) :
  bounded st ->
  let st' := step chain_head get_block st in
  bounded st' /\
  transaction_queue st' = [] /\
  (size (processed_tx_hashes st') <= 5000)%nat /\
  current_block st' = chain_head /\
  last_processed_block st' = Z.max (last_processed_block st) chain_head.
Proof.
  intros Hst st'. subst st'. rewrite monitoring_step_phases.
  destruct (fetched_records chain_head get_block st) as (S1 & C1 & L1 & _).
  set (fetched := if last_processed_block st <? chain_head then _ else _) in *.
  destruct (drain_queue_records fetched) as (B2 & Q2 & _ & C2 & L2 & _).
  destruct (cleanup_records (drain_queue fetched)) as (S3 & Q3 & C3 & L3 & Hsize).
  split; [| split; [| split; [| split]]].
  - apply (same_records_bounded _ _ S3), B2, (same_records_bounded _ _ S1), Hst.
  - congruence.
  - exact Hsize.
  - congruence.
  - congruence.
Qed.

(** X16. A turn of the loop that starts with an empty queue records at most
    15 transactions: five of each of at most three blocks. *)
Theorem monitoring_step_records_at_most_15 (chain_head : Z)
    (get_block : Z -> option Block) (st : State) :
  transaction_queue st = [] ->
  total_processed st
  <= total_processed (step chain_head get_block st)
  <= total_processed st + 15.
Proof.
  intros Hq. rewrite monitoring_step_phases.
  destruct (fetched_records chain_head get_block st) as (S1 & _ & _ & Q1).
  set (fetched := if last_processed_block st <? chain_head then _ else _) in *.
  destruct (drain_queue_records fetched) as (_ & _ & _ & _ & _ & T2).
  destruct (cleanup_records (drain_queue fetched)) as (S3 & _).
  destruct S1 as (T1 & _). destruct S3 as (T3 & _).
  rewrite Hq in Q1. simpl in Q1. lia.
Qed.

Lemma process_blocks_ext (get_block get_block' : Z -> option Block)
    (nums : list Z) (st : State) :
  (forall n, n ∈ nums -> get_block n = get_block' n) ->
  blocks_of get_block nums st = blocks_of get_block' nums st.
Proof.
  unfold process_blocks. revert st.
  induction nums as [|n nums IH]; intros st Hext; simpl; [reflexivity |].
  rewrite (Hext n) by apply list_elem_of_here.
  apply IH. intros m Hm. apply Hext, list_elem_of_further, Hm.
Qed.

(** X17. A turn of the loop looks at the chain head and the two blocks
    before it and at nothing else: two chains that agree on these three
    blocks leave the server in the same state, so the blocks that a slower
    loop has fallen behind by are never scored. *)
Theorem monitoring_step_reads_three_blocks (chain_head : Z)
    (get_block get_block' : Z -> option Block) (st : State) :
  (forall n, chain_head - 2 <= n <= chain_head -> get_block n = get_block' n) ->
  step chain_head get_block st = step chain_head get_block' st.
Proof.
  intros Hext. rewrite !monitoring_step_phases.
  destruct (last_processed_block st <? chain_head); [| reflexivity].
  rewrite (process_blocks_ext get_block get_block'); [reflexivity |].
  intros n Hn. apply elem_of_seqZ in Hn. apply Hext. lia.
Qed.

(** X18. The deduplicator remembers a bounded window: once more than 5000
    hashes are held, the cleanup keeps the hashes of the live feed only, and
    a transaction that was processed before but has left the feed is scored
    and queued again. *)
Theorem cleanup_forgets_old_hashes (st : State) (tx : TxData) (r : Scored) :
  (5000 < size (processed_tx_hashes st))%nat ->
  TxHash tx ∉ map (fun tx => TxHash (tx_data tx)) (firstn 2500 (live_transactions st)) ->
  process_transaction_data py_hash local_hour str_of_value tx = Some r ->
  let st' := process_tx py_hash local_hour str_of_value now (cleanup st) tx in
  transaction_queue st' = (transaction_queue st ++ [r])%list /\
  forall h, h ∈ processed_tx_hashes (cleanup st) <->
            h ∈ map (fun tx => TxHash (tx_data tx)) (firstn 2500 (live_transactions st)).
Proof.
  intros Hsize Hout Hr st'. subst st'.
  assert (Hclean : processed_tx_hashes (cleanup st)
                   = list_to_set (map (fun tx => TxHash (tx_data tx))
                                      (firstn 2500 (live_transactions st))) /\
                   transaction_queue (cleanup st) = transaction_queue st).
  { unfold cleanup. apply Nat.ltb_lt in Hsize. rewrite Hsize. split; reflexivity. }
  destruct Hclean as [Hhashes Hqueue].
  split.
  - rewrite (process_tx_new py_hash local_hour str_of_value now (cleanup st) tx r).
    + cbn [set_pipeline transaction_queue]. rewrite Hqueue. reflexivity.
    + rewrite Hhashes, elem_of_list_to_set. exact Hout.
    + exact Hr.
  - intros h. rewrite Hhashes, elem_of_list_to_set. reflexivity.
Qed.

End LoopTheorems.

(** A chain whose block 1 holds one transaction. *)
Definition sample_block : ApiServer.Block :=
  {| ApiServer.block_timestamp := 1699000000;
     ApiServer.block_transactions :=
       [ {| ApiServer.chain_hash := "abc";
            ApiServer.chain_value := 2000000000000000000;
            ApiServer.chain_from := "0x1111aa";
            ApiServer.chain_to := Some "0xbb" |} ] |}.

Definition sample_chain (block_num : Z) : option ApiServer.Block :=
  if block_num =? 1 then Some sample_block else None.

(** The same chain with one more block far behind the head. *)
Definition longer_chain (block_num : Z) : option ApiServer.Block :=
  if block_num =? -5 then Some sample_block else sample_chain block_num.

Lemma empty_state_bounded : bounded empty_state.
Proof. split; simpl; lia. Qed.

Lemma monitoring_step_invariant_witness :
  let st' := ApiServer.monitoring_step (fun _ => 7) (fun _ => 12) (fun _ => "2.0") 0
               1 sample_chain empty_state in
  bounded st' /\
  ApiServer.transaction_queue st' = [] /\
  (size (ApiServer.processed_tx_hashes st') <= 5000)%nat /\
  ApiServer.current_block st' = 1 /\
  ApiServer.last_processed_block st' = 1.
Proof.
  apply (monitoring_step_invariant (fun _ => 7) (fun _ => 12) (fun _ => "2.0") 0
           1 sample_chain empty_state).
  split; simpl; lia.
Defined.

Lemma monitoring_step_records_at_most_15_witness :
  ApiServer.total_processed empty_state
  <= ApiServer.total_processed
       (ApiServer.monitoring_step (fun _ => 7) (fun _ => 12) (fun _ => "2.0") 0
          1 sample_chain empty_state)
  <= ApiServer.total_processed empty_state + 15.
Proof.
  apply (monitoring_step_records_at_most_15 (fun _ => 7) (fun _ => 12)
           (fun _ => "2.0") 0 1 sample_chain empty_state).
  reflexivity.
Defined.

Lemma monitoring_step_reads_three_blocks_witness :
  ApiServer.monitoring_step (fun _ => 7) (fun _ => 12) (fun _ => "2.0") 0
    1 sample_chain empty_state
  = ApiServer.monitoring_step (fun _ => 7) (fun _ => 12) (fun _ => "2.0") 0
      1 longer_chain empty_state.
Proof.
  apply (monitoring_step_reads_three_blocks (fun _ => 7) (fun _ => 12)
           (fun _ => "2.0") 0 1 sample_chain longer_chain empty_state).
  intros n Hn. unfold longer_chain.
  destruct (Z.eqb_spec n (-5)) as [->|_]; [lia | reflexivity].
Defined.

(** A server that holds 5001 processed hashes and an empty live feed. *)
Definition crowded_state : ApiServer.State :=
  ApiServer.set_pipeline empty_state []
    (list_to_set (map (fun n : nat => pretty n) (seq 0 (S 5000))))
    (ApiServer.database empty_state).

(** A transaction whose hash is among them. *)
Definition old_tx : ApiServer.TxData :=
  {| ApiServer.TxHash := "0";
     ApiServer.BlockHeight := 18000000;
     ApiServer.TimeStamp := 1699000000;
     ApiServer.From := "0x1111aa";
     ApiServer.To := "0xbb";
     ApiServer.Value := 2;
     ApiServer.Value_Wei := 2000000000000000000 |}.

Lemma old_tx_processed :
  ApiServer.TxHash old_tx ∈ ApiServer.processed_tx_hashes crowded_state.
Proof.
  cbn [crowded_state ApiServer.set_pipeline ApiServer.processed_tx_hashes].
  apply elem_of_list_to_set, list_elem_of_fmap. exists 0%nat.
  split; [reflexivity | apply elem_of_seq; lia].
Qed.

Lemma crowded_state_size :
  (5000 < size (ApiServer.processed_tx_hashes crowded_state))%nat.
Proof.
  cbn [crowded_state ApiServer.set_pipeline ApiServer.processed_tx_hashes].
  rewrite size_list_to_set.
  - rewrite length_map, length_seq. apply Nat.lt_succ_diag_r.
  - apply NoDup_fmap_2; [apply _ | apply NoDup_seq].
Qed.

Lemma cleanup_forgets_old_hashes_witness :
  exists r,
    ApiServer.TxHash old_tx ∈ ApiServer.processed_tx_hashes crowded_state /\
    ApiServer.transaction_queue
      (ApiServer.process_tx (fun _ => 7) (fun _ => 12) (fun _ => "2.0") 0
         (ApiServer.cleanup crowded_state) old_tx)
    = [r].
Proof.
  assert (Hr : exists r,
             ApiServer.process_transaction_data (fun _ => 7) (fun _ => 12)
               (fun _ => "2.0") old_tx = Some r)
    by (eexists; vm_compute; reflexivity).
  destruct Hr as [r Hr]. exists r.
  split; [exact old_tx_processed |].
  destruct (cleanup_forgets_old_hashes (fun _ => 7) (fun _ => 12) (fun _ => "2.0") 0
              crowded_state old_tx r crowded_state_size
              ltac:(apply not_elem_of_nil) Hr) as [Hqueue _].
  exact Hqueue.
Defined.

(** ** Alerts and counters against the classifier *)

(** The alert that [analyze_csv] raises for a result. *)
Definition csv_alert (tx : ApiServer.Result) : ApiServer.Alert :=
  {| ApiServer.alert_tx := ApiServer.Uploaded tx;
     ApiServer.alert_type := "SUSPICIOUS_CSV";
     ApiServer.alert_reason :=
       "CSV Analysis: Risk score " ++ pretty (ApiServer.risk_score tx)
         ++ "% in suspicious range (65-80%)";
     ApiServer.alert_source := Some "CSV_ANALYSIS" |}.

Section Routing.
Import ApiServer.

Lemma record_result_spec (bufs : list Entry * list Alert) (tx : Result) :
  record_result bufs tx
  = (if 80 <=? risk_score tx
     then insert_front 100 (Uploaded tx) (fst bufs) else fst bufs,
     if (65 <=? risk_score tx) && negb (80 <=? risk_score tx)
     then insert_front 200 (csv_alert tx) (snd bufs) else snd bufs).
Proof.
  destruct bufs as [high alerts]. unfold record_result. simpl.
  destruct (80 <=? risk_score tx); [destruct (65 <=? risk_score tx); reflexivity |].
  destruct (65 <=? risk_score tx); reflexivity.
Qed.

(** X19. The loops that file results re-state the thresholds of the
    classifier and agree with it: a streamed transaction and an uploaded
    result enter the high-risk list exactly when the classifier's tier for
    their risk score is BLOCKED, and raise a suspicious alert exactly when
    the classifier says that the score triggers one. *)
Theorem alert_routing_follows_classifier :
  (forall (st : State) (tx : Scored),
      let info := get_risk_level_and_action (st_risk_score tx) in
      high_risk_transactions (record_tx st tx)
      = (if bool_decide (level info = BLOCKED)
         then insert_front 100 (Streamed tx) (high_risk_transactions st)
         else high_risk_transactions st) /\
      suspicious_alerts (record_tx st tx)
      = (if triggers_alert info
         then insert_front 200 (suspicious_alert tx) (suspicious_alerts st)
         else suspicious_alerts st)) /\
  (forall (bufs : list Entry * list Alert) (tx : Result),
      let info := get_risk_level_and_action (risk_score tx) in
      fst (record_result bufs tx)
      = (if bool_decide (level info = BLOCKED)
         then insert_front 100 (Uploaded tx) (fst bufs) else fst bufs) /\
      snd (record_result bufs tx)
      = (if triggers_alert info
         then insert_front 200 (csv_alert tx) (snd bufs) else snd bufs)).
Proof.
  split.
  - intros st tx info. subst info. rewrite classify_Z, classify_Z_alert.
    cbn [record_tx high_risk_transactions suspicious_alerts].
    destruct (80 <=? st_risk_score tx); [split; [reflexivity |] |].
    + destruct (65 <=? st_risk_score tx); reflexivity.
    + destruct (65 <=? st_risk_score tx); split; reflexivity.
  - intros bufs tx info. subst info. rewrite classify_Z, classify_Z_alert.
    rewrite record_result_spec. cbn [fst snd].
    destruct (80 <=? risk_score tx); [split; reflexivity |].
    destruct (65 <=? risk_score tx); split; reflexivity.
Qed.

Variable py_hash : string -> Z.
Variable local_hour : Z -> Z.
Variable str_of_value : float -> string.

Lemma process_transaction_data_scored (tx : TxData) (r : Scored) :
  process_transaction_data py_hash local_hour str_of_value tx = Some r ->
  tx_data r = tx /\
  0 <= st_risk_score r <= 95 /\
  st_label r = Backend.get_fraud_label (st_risk_score r) /\
  st_action r = Backend.get_action (st_risk_score r).
Proof.
  unfold process_transaction_data. intros H.
  destruct (Backend.predict_with_risk _ _ _) as [scored|] eqn:Hscored;
    [| discriminate].
  unfold Backend.predict_with_risk in Hscored. apply mapM_Some_1 in Hscored.
  destruct scored as [|sc [|sc' rest]]; try discriminate.
  injection H as <-. cbn [tx_data st_risk_score st_label st_action].
  apply Forall2_cons_1 in Hscored as [Hsc _].
  unfold Backend.score_row in Hsc.
  destruct (Backend.predict_row py_hash local_hour _) as [p|] eqn:Hp;
    simpl in Hsc; [| discriminate].
  destruct (predict_row_range py_hash local_hour _ p Hp) as (H0 & H1 & _).
  destruct (backend_score_upper p H0 H1) as (k & Hk & Hrange).
  unfold Backend.astype_int in Hsc. rewrite Hk in Hsc. simpl in Hsc.
  destruct ((- 2 ^ 63 <=? k) && (k <? 2 ^ 63))%bool; simpl in Hsc; [| discriminate].
  injection Hsc as <-. simpl. auto.
Qed.

(** X20. For a transaction scored by the streaming path the fraud counter
    goes up by one exactly when the classifier's tier for its risk score is
    BLOCKED, that is exactly when it enters the high-risk list; the score
    lies in 0..95. *)
Theorem fraud_counter_counts_blocked (st : State) (tx : TxData) (r : Scored) :
  process_transaction_data py_hash local_hour str_of_value tx = Some r ->
  0 <= st_risk_score r <= 95 /\
  total_fraud (record_tx st r)
  = total_fraud st
    + (if bool_decide (level (get_risk_level_and_action (st_risk_score r)) = BLOCKED)
       then 1 else 0) /\
  total_processed (record_tx st r) = total_processed st + 1.
Proof.
  intros Hr. destruct (process_transaction_data_scored tx r Hr)
    as (_ & Hrange & Hlabel & _).
  split; [exact Hrange |]. split; [| reflexivity].
  rewrite classify_Z. cbn [record_tx total_fraud]. rewrite Hlabel.
  unfold Backend.get_fraud_label.
  destruct (80 <=? st_risk_score r); [reflexivity |].
  destruct (65 <=? st_risk_score r), (50 <=? st_risk_score r); simpl; lia.
Qed.

End Routing.

Lemma fraud_counter_counts_blocked_witness :
  exists r,
    ApiServer.process_transaction_data (fun _ => 7) (fun _ => 12) (fun _ => "2.0")
      sample_tx = Some r /\
    0 <= ApiServer.st_risk_score r <= 95 /\
    ApiServer.total_processed (ApiServer.record_tx empty_state r) = 1.
Proof.
  assert (Hr : exists r,
             ApiServer.process_transaction_data (fun _ => 7) (fun _ => 12)
               (fun _ => "2.0") sample_tx = Some r)
    by (eexists; vm_compute; reflexivity).
  destruct Hr as [r Hr]. exists r. split; [exact Hr |].
  destruct (fraud_counter_counts_blocked (fun _ => 7) (fun _ => 12) (fun _ => "2.0")
              empty_state sample_tx r Hr) as (Hrange & _ & Htotal).
  split; [exact Hrange | exact Htotal].
Defined.

(** ** The endpoint [/api/csv/analyze] *)

Section CsvEndpoint.
Import ApiServer.
Variable float_of_str : string -> option float.
Variable ensemble_system : EnsembleSystem.
Variable env : nat -> RowEnv.



End CsvEndpoint.


(** ** The node-analysis table over a history of transactions *)

Section NodeHistory.
Import ApiServer.

(** How often an address occurs in a transaction: once as sender, once as
    receiver. *)
Definition appearances (a : string) (tx : Scored) : Z :=
  (if String.eqb (From (tx_data tx)) a then 1 else 0)
  + (if String.eqb (To (tx_data tx)) a then 1 else 0).

Definition total_appearances (a : string) (txs : list Scored) : Z :=
  foldr (fun tx n => appearances a tx + n) 0 txs.

Definition fraud_appearances (a : string) (txs : list Scored) : Z :=
  foldr (fun tx n => (if fraud_flag tx then appearances a tx else 0) + n) 0 txs.

(** The table after the transactions of a list, each saved at its time. *)
Definition replay (txs : list (Z * Scored)) (nodes : gmap string Node)
  : gmap string Node :=
  fold_left (fun nodes p => update_node_analysis (fst p) (snd p) nodes) txs nodes.

(** The table [nodes] holds, for every address that is neither empty nor
    null, the counts [T] and [F], and no record where [T] is 0. *)
Definition holds_counts (nodes : gmap string Node) (T F : string -> Z) : Prop :=
  forall a, a <> "" -> a <> null_address ->
    match nodes !! a with
    | Some node =>
        total_transactions node = T a /\ fraud_transactions node = F a /\ 0 < T a
    | None => T a = 0 /\ F a = 0
    end.

Lemma update_address_counts (now : Z) (is_fraud : bool) (tx_value : Q)
    (nodes : gmap string Node) (address : string) (T F : string -> Z) :
  holds_counts nodes T F ->
  exists nodes',
    update_address now is_fraud tx_value nodes address = Some nodes' /\
    holds_counts nodes'
      (fun a => T a + (if String.eqb address a then 1 else 0))
      (fun a => F a + (if is_fraud then if String.eqb address a then 1 else 0
                       else 0)).
Proof.
  intros Hinv. unfold update_address.
  destruct (String.eqb address "" || String.eqb address null_address) eqn:Hskip.
  - exists nodes. split; [reflexivity |]. intros a H1 H2.
    assert (Hne : String.eqb address a = false).
    { apply String.eqb_neq. intros ->.
      apply orb_true_iff in Hskip as [H|H]; apply String.eqb_eq in H; congruence. }
    rewrite Hne. specialize (Hinv a H1 H2).
    destruct (nodes !! a); destruct is_fraud; rewrite ?Z.add_0_r; exact Hinv.
  - apply orb_false_elim in Hskip as [Hs1 Hs2].
    apply String.eqb_neq in Hs1, Hs2.
    pose proof (Hinv address Hs1 Hs2) as Haddr.
    destruct (nodes !! address) as [old|] eqn:Hold.
    + destruct Haddr as (Ht & Hf & Hpos).
      destruct (Z.eqb_spec (total_transactions old + 1) 0) as [Hz|_]; [lia |].
      eexists. split; [reflexivity |]. intros a H1 H2.
      destruct (String.eqb_spec address a) as [<-|Hne].
      * rewrite lookup_insert_eq.
        cbn [total_transactions fraud_transactions].
        destruct is_fraud; repeat split; lia.
      * rewrite lookup_insert_ne by exact Hne. specialize (Hinv a H1 H2).
        destruct (nodes !! a); destruct is_fraud; rewrite ?Z.add_0_r; exact Hinv.
    + destruct Haddr as [Ht Hf].
      eexists. split; [reflexivity |]. intros a H1 H2.
      destruct (String.eqb_spec address a) as [<-|Hne].
      * rewrite lookup_insert_eq.
        cbn [total_transactions fraud_transactions].
        destruct is_fraud; repeat split; lia.
      * rewrite lookup_insert_ne by exact Hne. specialize (Hinv a H1 H2).
        destruct (nodes !! a); destruct is_fraud; rewrite ?Z.add_0_r; exact Hinv.
Qed.

Lemma holds_counts_ext (nodes : gmap string Node) (T F T' F' : string -> Z) :
  holds_counts nodes T F ->
  (forall a, T' a = T a) -> (forall a, F' a = F a) ->
  holds_counts nodes T' F'.
Proof.
  intros Hinv HT HF a H1 H2. specialize (Hinv a H1 H2).
  rewrite HT, HF. exact Hinv.
Qed.

Lemma update_node_analysis_counts (now : Z) (tx : Scored)
    (nodes : gmap string Node) (T F : string -> Z) :
  is_Some (PyQ.of_float (Value (tx_data tx))) ->
  holds_counts nodes T F ->
  holds_counts (update_node_analysis now tx nodes)
    (fun a => T a + appearances a tx)
    (fun a => F a + (if fraud_flag tx then appearances a tx else 0)).
Proof.
  intros [value Hvalue] Hinv. unfold update_node_analysis. rewrite Hvalue.
  fold (fraud_flag tx).
  destruct (update_address_counts now (fraud_flag tx)
              (value / inject_Z (10 ^ 18))%Q nodes (From (tx_data tx)) T F Hinv)
    as (nodes1 & Hu1 & Hinv1).
  destruct (update_address_counts now (fraud_flag tx)
              (value / inject_Z (10 ^ 18))%Q nodes1 (To (tx_data tx)) _ _ Hinv1)
    as (nodes2 & Hu2 & Hinv2).
  rewrite Hu1. cbn [mbind option_bind]. rewrite Hu2.
  eapply holds_counts_ext; [exact Hinv2 | |]; intros a; unfold appearances;
    destruct (fraud_flag tx); lia.
Qed.

Lemma replay_counts (txs : list (Z * Scored)) (nodes : gmap string Node)
    (T F : string -> Z) :
  Forall (fun p => is_Some (PyQ.of_float (Value (tx_data (snd p))))) txs ->
  holds_counts nodes T F ->
  holds_counts (replay txs nodes)
    (fun a => T a + total_appearances a (map snd txs))
    (fun a => F a + fraud_appearances a (map snd txs)).
Proof.
  intros Hfinite. revert nodes T F.
  induction Hfinite as [|p txs Hp _ IH]; intros nodes T F Hinv; simpl.
  - eapply holds_counts_ext; [exact Hinv | |]; intros a; lia.
  - eapply holds_counts_ext;
      [apply IH, (update_node_analysis_counts _ _ _ _ _ Hp Hinv) | |];
      intros a; simpl; lia.
Qed.

(** X22. Starting from an empty table, after any history of transactions
    with finite values no update was rolled back: an address other than the
    empty and the null one has a profile exactly when it occurred, and its
    profile counts every occurrence, as sender and as receiver (a
    self-transfer counts twice), and every occurrence in a transaction
    labelled "Fraudulent". *)
Theorem profile_counts_every_occurrence (txs : list (Z * Scored)) (a : string) :
  Forall (fun p => is_Some (PyQ.of_float (Value (tx_data (snd p))))) txs ->
  a <> "" -> a <> null_address ->
  match replay txs ∅ !! a with
  | Some node =>
      total_transactions node = total_appearances a (map snd txs) /\
      fraud_transactions node = fraud_appearances a (map snd txs) /\
      0 < total_transactions node
  | None => total_appearances a (map snd txs) = 0
  end.
Proof.
  intros Hfinite H1 H2.
  assert (Hempty : holds_counts ∅ (fun _ => 0) (fun _ => 0)).
  { intros b _ _. rewrite lookup_empty. auto. }
  pose proof (replay_counts txs ∅ _ _ Hfinite Hempty a H1 H2) as H.
  destruct (replay txs ∅ !! a); simpl in H; [lia | tauto].
Qed.

Lemma update_address_frame (now : Z) (is_fraud : bool) (tx_value : Q)
    (nodes nodes' : gmap string Node) (address b : string) :
  update_address now is_fraud tx_value nodes address = Some nodes' ->
  b <> address \/ b = "" \/ b = null_address ->
  nodes' !! b = nodes !! b.
Proof.
  unfold update_address.
  destruct (String.eqb address "" || String.eqb address null_address) eqn:Hskip;
    [intros [= <-]; reflexivity |].
  apply orb_false_elim in Hskip as [Hs1 Hs2].
  apply String.eqb_neq in Hs1, Hs2.
  intros Hupd Hb.
  assert (Hne : address <> b) by (destruct Hb as [Hb|[Hb|Hb]]; congruence).
  destruct (nodes !! address).
  - destruct (_ =? _); [discriminate |]. injection Hupd as <-.
    apply lookup_insert_ne. exact Hne.
  - injection Hupd as <-. apply lookup_insert_ne. exact Hne.
Qed.

(** X23. Saving a transaction touches the profiles of its sender and its
    receiver and no other: every other address, and the empty and the null
    address in any case, keep the profile they had, or none. *)
Theorem update_node_analysis_frame (now : Z) (tx : Scored)
    (nodes : gmap string Node) (b : string) :
  (b <> From (tx_data tx) /\ b <> To (tx_data tx)) \/ b = "" \/ b = null_address ->
  update_node_analysis now tx nodes !! b = nodes !! b.
Proof.
  intros Hb. unfold update_node_analysis.
  destruct (PyQ.of_float _) as [value|]; [| reflexivity].
  destruct (update_address now _ _ nodes (From (tx_data tx))) as [nodes1|] eqn:Hu1;
    [| reflexivity].
  cbn [mbind option_bind].
  destruct (update_address now _ _ nodes1 (To (tx_data tx))) as [nodes2|] eqn:Hu2;
    [| reflexivity].
  rewrite (update_address_frame _ _ _ _ _ _ b Hu2) by tauto.
  apply (update_address_frame _ _ _ _ _ _ b Hu1). tauto.
Qed.

End NodeHistory.

(** A transfer of an address to itself. *)
Definition self_transfer : ApiServer.Scored :=
  {| ApiServer.tx_data :=
       {| ApiServer.TxHash := "0xabc";
          ApiServer.BlockHeight := 18000000;
          ApiServer.TimeStamp := 1699000000;
          ApiServer.From := "0xa";
          ApiServer.To := "0xa";
          ApiServer.Value := 2;
          ApiServer.Value_Wei := 2000000000000000000 |};
     ApiServer.st_fraud_probability := 0.85;
     ApiServer.st_risk_score := 85;
     ApiServer.st_label := Backend.Fraudulent;
     ApiServer.st_action := Backend.CRITICAL_Block_Transaction_Immediately |}.

Lemma profile_counts_every_occurrence_witness :
  exists node,
    replay [(10, self_transfer); (20, sample_scored 70)] ∅ !! "0xa" = Some node /\
    ApiServer.total_transactions node = 3 /\
    ApiServer.fraud_transactions node = 2.
Proof.
  pose proof (profile_counts_every_occurrence
                [(10, self_transfer); (20, sample_scored 70)] "0xa") as H.
  destruct (replay [(10, self_transfer); (20, sample_scored 70)] ∅ !! "0xa")
    as [node|].
  - exists node. split; [reflexivity |].
    destruct H as (Ht & Hf & _);
      [repeat constructor; vm_compute; eauto | discriminate | discriminate |].
    split; [exact Ht | exact Hf].
  - exfalso.
    assert (Hz : total_appearances "0xa"
                   (map snd [(10, self_transfer); (20, sample_scored 70)]) = 0).
    { apply H; [repeat constructor; vm_compute; eauto | discriminate | discriminate]. }
    vm_compute in Hz. discriminate Hz.
Defined.

Lemma update_node_analysis_frame_witness :
  ApiServer.update_node_analysis 30 (sample_scored 70) {["0xc" := sample_node]} !! "0xc"
  = Some sample_node.
Proof.
  rewrite (update_node_analysis_frame 30 (sample_scored 70) {["0xc" := sample_node]}
             "0xc").
  - apply lookup_singleton_eq.
  - left. split; discriminate.
Defined.

(** ** The shape of a hashed identifier *)

Section DigestShape.
Import Sha256.

Definition hex_chars : list ascii := list_ascii_of_string "0123456789abcdef".

Lemma round_length (st : list Z) (kw : Z * Z) :
  length st = 8%nat -> length (round st kw) = 8%nat.
Proof.
  intros Hlen. do 9 (destruct st as [|? st]; try discriminate Hlen).
  reflexivity.
Qed.

Lemma fold_round_length (kws : list (Z * Z)) (st : list Z) :
  length st = 8%nat -> length (fold_left round kws st) = 8%nat.
Proof.
  revert st. induction kws as [|kw kws IH]; intros st Hlen; simpl;
    [exact Hlen | apply IH, round_length, Hlen].
Qed.

Lemma compress_length (h block : list Z) :
  length h = 8%nat -> length (compress h block) = 8%nat.
Proof.
  intros Hlen. unfold compress.
  rewrite length_map, length_combine, fold_round_length by exact Hlen. lia.
Qed.

Lemma blocks_length (fuel : nat) (ws h : list Z) :
  length h = 8%nat -> length (blocks fuel ws h) = 8%nat.
Proof.
  revert ws h. induction fuel as [|fuel IH]; intros ws h Hlen; simpl.
  - destruct ws; exact Hlen.
  - destruct ws; [exact Hlen |]. apply IH, compress_length, Hlen.
Qed.

Lemma hex_digit_hex (d : Z) : 0 <= d < 16 -> hex_digit d ∈ hex_chars.
Proof.
  intros Hd.
  assert (H : d ∈ seqZ 0 16) by (apply elem_of_seqZ; lia).
  apply list_elem_of_In in H. apply list_elem_of_In.
  cbn in H. cbn.
  repeat (destruct H as [<-|H]; [tauto |]). destruct H.
Qed.

Lemma hex_word_chars (w : Z) :
  length (list_ascii_of_string (hex_word w)) = 8%nat /\
  Forall (fun c => c ∈ hex_chars) (list_ascii_of_string (hex_word w)).
Proof.
  unfold hex_word. rewrite list_ascii_of_string_of_list_ascii.
  split; [reflexivity |]. apply Forall_forall. intros c Hc.
  apply list_elem_of_In, in_map_iff in Hc as (i & <- & _).
  apply hex_digit_hex. change 15 with (Z.ones 4).
  rewrite Z.land_ones by lia. apply Z.mod_pos_bound. lia.
Qed.

Lemma list_ascii_of_string_app (s t : string) :
  list_ascii_of_string (s ++ t) = (list_ascii_of_string s ++ list_ascii_of_string t)%list.
Proof. induction s as [|c s IH]; simpl; [reflexivity | rewrite IH; reflexivity]. Qed.

Lemma concat_chars (l : list string) :
  list_ascii_of_string (String.concat "" l) = flat_map list_ascii_of_string l.
Proof.
  induction l as [|s l IH]; [reflexivity |].
  destruct l as [|t l].
  - simpl. rewrite app_nil_r. reflexivity.
  - change (String.concat "" (s :: t :: l)) with (s ++ "" ++ String.concat "" (t :: l)).
    rewrite !list_ascii_of_string_app, IH. reflexivity.
Qed.

Lemma hexdigest_chars (s : string) :
  length (list_ascii_of_string (hexdigest s)) = 64%nat /\
  Forall (fun c => c ∈ hex_chars) (list_ascii_of_string (hexdigest s)).
Proof.
  unfold hexdigest. cbv zeta. rewrite concat_chars.
  set (ws := words _ _).
  pose proof (blocks_length (length ws) ws H0 eq_refl) as Hlen.
  set (h := blocks _ _ _) in *. clearbody h.
  do 9 (destruct h as [|? h]; try discriminate Hlen).
  cbn [map flat_map]. rewrite app_nil_r, !length_app, !Forall_app.
  repeat match goal with
         | |- context [hex_word ?w] =>
             let Hl := fresh "Hl" in
             let Hf := fresh "Hf" in
             destruct (hex_word_chars w) as [Hl Hf];
             generalize dependent (list_ascii_of_string (hex_word w)); intros
         end.
  split; [lia | tauto].
Qed.

Lemma take_chars (n : nat) (s : string) :
  list_ascii_of_string (PyStr.take n s) = firstn n (list_ascii_of_string s).
Proof.
  revert s. induction n as [|n IH]; intros [|c s]; simpl; try reflexivity.
  rewrite IH. reflexivity.
Qed.

Lemma string_length_chars (s : string) :
  String.length s = length (list_ascii_of_string s).
Proof. induction s as [|c s IH]; simpl; [reflexivity | rewrite IH; reflexivity]. Qed.

(** X24. A hashed identifier is always 16 characters long and made of the
    digits 0-9 and the letters a-f; in particular it never starts with "0x",
    so it can be told from an address. *)
Theorem hash_identifier_shape (x : string) :
  String.length (Backend.hash_identifier x) = 16%nat /\
  Forall (fun c => c ∈ hex_chars)
         (list_ascii_of_string (Backend.hash_identifier x)) /\
  String.prefix "0x" (Backend.hash_identifier x) = false.
Proof.
  unfold Backend.hash_identifier.
  destruct (hexdigest_chars (x ++ "chainguard_salt")) as [Hlen Hhex].
  assert (H16 : length (list_ascii_of_string
                          (PyStr.take 16 (hexdigest (x ++ "chainguard_salt"))))
                = 16%nat).
  { rewrite take_chars, length_firstn, Hlen. reflexivity. }
  assert (Hall : Forall (fun c => c ∈ hex_chars)
                   (list_ascii_of_string
                      (PyStr.take 16 (hexdigest (x ++ "chainguard_salt"))))).
  { rewrite take_chars. apply Forall_take. exact Hhex. }
  split; [rewrite string_length_chars; exact H16 | split; [exact Hall |]].
  destruct (PyStr.take 16 _) as [|c0 [|c1 rest]]; try discriminate H16.
  simpl in Hall. apply Forall_cons in Hall as [_ Hall].
  apply Forall_cons in Hall as [Hc1 _].
  cbn [String.prefix]. destruct (ascii_dec "0" c0); [| reflexivity].
  destruct (ascii_dec "x" c1) as [<-|]; [| reflexivity].
  exfalso. apply list_elem_of_In in Hc1. cbn in Hc1.
  repeat (destruct Hc1 as [Hc1|Hc1]; [discriminate Hc1 |]). exact Hc1.
Qed.

End DigestShape.

Section HashingOrder.
Import Backend.

Lemma fold_left_permutation {A B} (f : A -> B -> A) (l l' : list B) :
  (forall x a b, f (f x a) b = f (f x b) a) ->
  l ≡ₚ l' -> forall x, fold_left f l x = fold_left f l' x.
Proof.
  intros Hcomm Hperm. induction Hperm as [|b l l' _ IH|a b l|l l' l'' _ IH1 _ IH2];
    intros x; simpl.
  - reflexivity.
  - apply IH.
  - rewrite Hcomm. reflexivity.
  - rewrite IH1. apply IH2.
Qed.

Lemma hash_row_commute (cols : list string) (row : gmap string Cell) (a b : string) :
  hash_row cols (hash_row cols row a) b = hash_row cols (hash_row cols row b) a.
Proof.
  unfold hash_row. destruct (decide (a = b)) as [->|Hne]; [reflexivity |].
  repeat case_bool_decide; try reflexivity. apply alter_alter_ne. congruence.
Qed.

Lemma hash_column_commute (df : DataFrame) (a b : string) :
  hash_column (hash_column df a) b = hash_column (hash_column df b) a.
Proof.
  rewrite !hash_column_rows. cbn [columns rows]. rewrite !map_map. f_equal.
  apply map_ext. intros row. apply hash_row_commute.
Qed.

(** X25. The order in which the columns to hash are listed does not
    matter: two lists that are permutations of each other, repetitions
    included, give the same frame. *)
Theorem privacy_hashing_order (df : DataFrame) (cols cols' : list string) :
  cols ≡ₚ cols' ->
  apply_privacy_hashing df cols = apply_privacy_hashing df cols'.
Proof.
  intros Hperm. unfold apply_privacy_hashing.
  apply fold_left_permutation; [| exact Hperm].
  intros x a b. apply hash_column_commute.
Qed.

End HashingOrder.

Lemma privacy_hashing_order_witness :
  Backend.apply_privacy_hashing address_frame ["From"; "Value"]
  = Backend.apply_privacy_hashing address_frame ["Value"; "From"].
Proof.
  apply (privacy_hashing_order address_frame ["From"; "Value"] ["Value"; "From"]).
  apply Permutation_swap.
Defined.

(** ** Batches of the dashboard's batch page *)

Section Batching.
Context {A : Type}.

Lemma batches_spec (fuel batch_size : nat) (l : list A) :
  (0 < batch_size)%nat -> (length l <= fuel)%nat ->
  concat (App.batches fuel batch_size l) = l /\
  length (App.batches fuel batch_size l)
  = AppProgress.total_batches (length l) batch_size /\
  Forall (fun batch => (0 < length batch <= batch_size)%nat)
         (App.batches fuel batch_size l).
Proof.
  intros Hn. unfold AppProgress.total_batches. revert l.
  induction fuel as [|fuel IH]; intros l Hlen.
  - destruct l; [| simpl in Hlen; lia]. simpl.
    split; [reflexivity | split; [| constructor]].
    symmetry. apply Nat.div_small. lia.
  - destruct l as [|x l].
    + simpl. split; [reflexivity | split; [| constructor]].
      symmetry. apply Nat.div_small. lia.
    + set (l0 := x :: l) in *.
      assert (Hl0 : (0 < length l0)%nat) by (subst l0; simpl; lia).
      change (App.batches (S fuel) batch_size l0)
        with (firstn batch_size l0 :: App.batches fuel batch_size (skipn batch_size l0)).
      assert (Hdrop : (length (skipn batch_size l0) <= fuel)%nat).
      { rewrite length_skipn. lia. }
      destruct (IH (skipn batch_size l0) Hdrop) as (Hc & Hcount & Hall).
      split; [| split].
      * cbn [concat]. rewrite Hc. apply firstn_skipn.
      * cbn [length]. rewrite Hcount, length_skipn.
        destruct (Nat.le_gt_cases (length l0) batch_size) as [Hle|Hgt].
        -- replace (length l0 - batch_size)%nat with 0%nat by lia.
           rewrite (Nat.div_small (0 + batch_size - 1)) by lia.
           replace (length l0 + batch_size - 1)%nat
             with ((length l0 - 1) + 1 * batch_size)%nat by lia.
           rewrite Nat.div_add by lia. rewrite Nat.div_small by lia. reflexivity.
        -- replace (length l0 + batch_size - 1)%nat
             with ((length l0 - batch_size + batch_size - 1) + 1 * batch_size)%nat
             by lia.
           rewrite Nat.div_add by lia. lia.
      * constructor; [| exact Hall]. rewrite length_firstn. lia.
Qed.

End Batching.

Section BatchScoring.
Variable py_hash : string -> Z.
Variable local_hour : Z -> Z.

(** Scoring one row of a frame. *)
Definition score_series (series : gmap string Cell) : option Backend.Scored :=
  Backend.row_of_series series ≫= Backend.score_row py_hash local_hour.

Lemma predict_frame_rows (cols : list string) (rs : list (gmap string Cell)) :
  Backend.predict_frame py_hash local_hour {| columns := cols; rows := rs |}
  = mapM score_series rs.
Proof.
  unfold Backend.predict_frame, Backend.predict_with_risk. cbn [rows].
  induction rs as [|series rs IH]; [reflexivity |].
  cbn [mapM]. rewrite <- IH. unfold score_series.
  destruct (Backend.row_of_series series) as [r|]; [| reflexivity].
  destruct (mapM Backend.row_of_series rs) as [rs'|]; cbn.
  - destruct (Backend.score_row py_hash local_hour r); reflexivity.
  - destruct (Backend.score_row py_hash local_hour r); reflexivity.
Qed.

Lemma mapM_app_Some {X Y} (f : X -> option Y) (l1 l2 : list X) (k : list Y) :
  mapM f (l1 ++ l2) = Some k ->
  exists k1 k2, mapM f l1 = Some k1 /\ mapM f l2 = Some k2 /\ k = (k1 ++ k2)%list.
Proof.
  intros H. apply mapM_Some_1 in H.
  apply Forall2_app_inv_l in H as (k1 & k2 & H1 & H2 & ->).
  exists k1, k2. split; [apply mapM_Some_2, H1 | split; [apply mapM_Some_2, H2 |]].
  reflexivity.
Qed.

Lemma batches_scored (cols : list string) (fuel batch_size : nat)
    (rs : list (gmap string Cell)) (scored : list Backend.Scored) :
  (0 < batch_size)%nat -> (length rs <= fuel)%nat ->
  mapM score_series rs = Some scored ->
  concat (omap (fun batch_df =>
                  Backend.predict_frame py_hash local_hour
                    {| columns := cols; rows := batch_df |})
               (App.batches fuel batch_size rs))
  = scored.
Proof.
  intros Hn. revert rs scored.
  induction fuel as [|fuel IH]; intros rs scored Hlen Hscored.
  - destruct rs; [| simpl in Hlen; lia]. injection Hscored as <-. reflexivity.
  - destruct rs as [|series rs]; [injection Hscored as <-; reflexivity |].
    set (l0 := series :: rs) in *.
    change (App.batches (S fuel) batch_size l0)
      with (firstn batch_size l0 :: App.batches fuel batch_size (skipn batch_size l0)).
    rewrite <- (firstn_skipn batch_size l0) in Hscored.
    apply mapM_app_Some in Hscored as (k1 & k2 & H1 & H2 & ->).
    cbn [omap list_omap]. rewrite predict_frame_rows, H1. cbn [concat].
    f_equal. apply IH; [| exact H2].
    rewrite length_skipn. subst l0. simpl in *. lia.
Qed.

(** X26. When every row of a complete frame can be scored, the batch page
    scores the whole frame, row by row and in order, whatever the batch
    size: batching is invisible.  (A row that raises takes its whole batch
    with it, so then the batch size does matter.) *)
Theorem batch_size_is_invisible (df_raw : DataFrame) (batch_size : nat)
    (scored : list Backend.Scored) :
  (0 < batch_size)%nat ->
  Forall (fun col => col ∈ columns df_raw) App.required_cols ->
  Backend.predict_frame py_hash local_hour df_raw = Some scored ->
  App.show_csv_scoring py_hash local_hour df_raw batch_size = App.Processed scored.
Proof.
  intros Hn Hcols Hscored. unfold App.show_csv_scoring.
  assert (Hnone : filter (fun col => col ∉ columns df_raw) App.required_cols = []).
  { induction Hcols as [|col cols Hcol _ IH]; [reflexivity |].
    rewrite filter_cons. destruct (decide (col ∉ columns df_raw)); [contradiction |].
    exact IH. }
  rewrite Hnone. rewrite bool_decide_eq_true_2 by reflexivity.
  f_equal. apply batches_scored; [exact Hn | lia |].
  rewrite <- (predict_frame_rows (columns df_raw)). destruct df_raw; exact Hscored.
Qed.

End BatchScoring.

(** X27. The batches of the batch page split the rows without loss: put
    together again they are the rows, in order; there are as many as the
    progress bar announces; and none is empty or larger than the batch
    size. *)
Theorem batches_lose_nothing {A} (batch_size : nat) (l : list A) :
  (0 < batch_size)%nat ->
  concat (App.batches (length l) batch_size l) = l /\
  length (App.batches (length l) batch_size l)
  = AppProgress.total_batches (length l) batch_size /\
  Forall (fun batch => (0 < length batch <= batch_size)%nat)
         (App.batches (length l) batch_size l).
Proof. intros Hn. apply batches_spec; [exact Hn | lia]. Qed.

Lemma batches_lose_nothing_witness :
  concat (App.batches 5 2 [1; 2; 3; 4; 5]) = [1; 2; 3; 4; 5] /\
  length (App.batches 5 2 [1; 2; 3; 4; 5]) = AppProgress.total_batches 5 2 /\
  Forall (fun batch => (0 < length batch <= 2)%nat) (App.batches 5 2 [1; 2; 3; 4; 5]).
Proof. apply (batches_lose_nothing 2 [1; 2; 3; 4; 5]). lia. Defined.

(** A complete frame with two rows. *)
Definition complete_frame : DataFrame :=
  {| columns := ["TxHash"; "BlockHeight"; "TimeStamp"; "From"; "To"; "Value"];
     rows :=
       [ <["TxHash" := Str "0xabc"]> (<["BlockHeight" := Num 18000000 "18000000"]>
           (<["TimeStamp" := Num 1699000000 "1699000000"]>
           (<["From" := Str "0x1111aa"]>
           (<["To" := Str "0xbb"]> {["Value" := Num 2e18 "2e+18"]}))));
         <["TxHash" := Str "0xdef"]> (<["BlockHeight" := Num 18000001 "18000001"]>
           (<["TimeStamp" := Num 1699000012 "1699000012"]>
           (<["From" := Str "0xcc"]>
           (<["To" := Str "0xcc"]> {["Value" := Num 0 "0"]})))) ] |}.

Lemma batch_size_is_invisible_witness :
  App.show_csv_scoring (fun _ => 7) (fun _ => 12) complete_frame 1
  = App.show_csv_scoring (fun _ => 7) (fun _ => 12) complete_frame 500.
Proof.
  assert (Hscored : exists scored,
             Backend.predict_frame (fun _ => 7) (fun _ => 12) complete_frame
             = Some scored)
    by (eexists; vm_compute; reflexivity).
  destruct Hscored as [scored Hscored].
  assert (Hcols : Forall (fun col => col ∈ columns complete_frame) App.required_cols).
  { apply Forall_forall. intros col Hcol. exact Hcol. }
  rewrite (batch_size_is_invisible (fun _ => 7) (fun _ => 12) complete_frame 1 scored
             ltac:(lia) Hcols Hscored).
  rewrite (batch_size_is_invisible (fun _ => 7) (fun _ => 12) complete_frame 500 scored
             ltac:(lia) Hcols Hscored).
  reflexivity.
Defined.

(** ** The ensemble prediction *)

Section EnsembleShape.
Import ApiServer.

Lemma ensemble_sum_shape (sys : EnsembleSystem) (df : DataFrame)
    (ms : list (string * (DataFrame -> list float))) (acc out : list float) :
  ensemble_sum sys df ms acc = Some out ->
  length out = length acc /\
  Forall (fun m => is_Some (weights sys !! fst m)) ms.
Proof.
  revert acc. induction ms as [|[name model] ms IH]; intros acc; simpl.
  - intros [= <-]. split; [reflexivity | constructor].
  - destruct (weights sys !! name) as [w|] eqn:Hw; simpl; [| discriminate].
    unfold add_weighted. destruct (decide (length (model df) = length acc)) as [Hlen|];
      simpl; [| discriminate].
    intros H. apply IH in H as [Hout Hall].
    rewrite length_zip_with in Hout.
    split; [lia |]. constructor; [eauto | exact Hall].
Qed.

(** X28. When the ensemble predicts, the system is loaded, the frame has
    the six columns that feature engineering reads, every sub-model has a
    weight, and the result holds one probability and one verdict for each
    row, the verdict being the comparison of the probability with the
    threshold.  So a sub-model without a weight, or a missing column, makes
    the prediction fail. *)
Theorem predict_with_ensemble_shape (sys : EnsembleSystem) (df : DataFrame)
    (pred : list bool) (proba : list float) :
  predict_with_ensemble sys df = Some (pred, proba) ->
  is_loaded sys = true /\
  Forall (fun c => c ∈ columns df) ensemble_columns /\
  Forall (fun m => is_Some (weights sys !! fst m)) (models sys) /\
  length proba = length (rows df) /\
  pred = map (fun p => (threshold sys <=? p)%float) proba.
Proof.
  unfold predict_with_ensemble. destruct (is_loaded sys); [| discriminate].
  cbn [negb].
  destruct (forallb _ ensemble_columns) eqn:Hcols; [| discriminate]. cbn [negb].
  destruct (ensemble_sum sys df (models sys) _) as [out|] eqn:Hsum;
    simpl; [| discriminate].
  intros [= <- <-]. apply ensemble_sum_shape in Hsum as [Hlen Hall].
  rewrite repeat_length in Hlen.
  split; [reflexivity | split; [| auto]].
  apply Forall_forall. intros c Hc.
  rewrite forallb_forall in Hcols. apply list_elem_of_In in Hc.
  apply Hcols, bool_decide_eq_true in Hc. exact Hc.
Qed.

End EnsembleShape.

(** An ensemble of two sub-models with their weights. *)
Definition two_model_system : ApiServer.EnsembleSystem :=
  {| ApiServer.is_loaded := true;
     ApiServer.models :=
       [("rf", fun df => map (fun _ => 0.9%float) (rows df));
        ("xgb", fun df => map (fun _ => 0.5%float) (rows df))];
     ApiServer.weights := <["rf" := 0.5%float]> {["xgb" := 0.5%float]};
     ApiServer.threshold := 0.5 |}.

Definition ensemble_frame : DataFrame :=
  {| columns := ["TxHash"; "BlockHeight"; "TimeStamp"; "From"; "To"; "Value";
                 "isError"];
     rows := rows complete_frame |}.

Lemma predict_with_ensemble_shape_witness :
  exists pred proba,
    ApiServer.predict_with_ensemble two_model_system ensemble_frame
    = Some (pred, proba) /\
    length proba = 2%nat /\ pred = [true; true].
Proof.
  assert (H : exists pred proba,
             ApiServer.predict_with_ensemble two_model_system ensemble_frame
             = Some (pred, proba))
    by (eexists _, _; vm_compute; reflexivity).
  destruct H as (pred & proba & H). exists pred, proba.
  destruct (predict_with_ensemble_shape two_model_system ensemble_frame pred proba H)
    as (_ & _ & _ & Hlen & Hpred).
  split; [exact H | split; [exact Hlen |]].
  vm_compute in H. injection H as <- _. reflexivity.
Defined.

(** ** The read endpoints *)

Section ReadEndpoints.
Import ApiServer.

(** X29. On a server within its bounds the fraud rate of the metrics is a
    percentage between 0 and 100; before anything is processed it is 0 and
    not a division by zero; the high-risk count never exceeds the 1000
    entries of the live feed, nor the alert count 200. *)
Theorem metrics_fraud_rate (st : State) :
  bounded st ->
  (0 <= Endpoints.fraudRate (Endpoints.get_metrics st) <= 100)%Q /\
  (total_processed st = 0 ->
   (Endpoints.fraudRate (Endpoints.get_metrics st) == 0)%Q) /\
  (Endpoints.highRiskCount (Endpoints.get_metrics st) <= 1000)%nat /\
  (Endpoints.suspiciousAlertsCount (Endpoints.get_metrics st) <= 200)%nat.
Proof.
  intros [B1 _ _ B4 B5]. cbn [Endpoints.get_metrics Endpoints.fraudRate
                             Endpoints.highRiskCount Endpoints.suspiciousAlertsCount].
  split; [| split; [| split; [| exact B4]]].
  - apply (py_round2_bounds 0 100).
    assert (Hm : 1 <= Z.max (total_processed st) 1) by lia.
    assert (Hf : (0 <= inject_Z (total_fraud st))%Q).
    { change 0%Q with (inject_Z 0). rewrite <- Zle_Qle. lia. }
    assert (Hd : (0 < inject_Z (Z.max (total_processed st) 1))%Q).
    { change 0%Q with (inject_Z 0). rewrite <- Zlt_Qlt. lia. }
    assert (Hle : (inject_Z (total_fraud st)
                   <= inject_Z (Z.max (total_processed st) 1))%Q).
    { rewrite <- Zle_Qle. lia. }
    change (inject_Z 0) with 0%Q. change (inject_Z 100) with 100%Q.
    pose proof (Qdiv_nonneg _ _ Hf Hd) as H0.
    assert (H1 : (inject_Z (total_fraud st)
                  / inject_Z (Z.max (total_processed st) 1) <= 1)%Q).
    { apply Qle_shift_div_r; lra. }
    lra.
  - intros Hzero. assert (Hfraud : total_fraud st = 0) by lia.
    rewrite Hzero, Hfraud. reflexivity.
  - etransitivity; [apply length_filter | exact B1].
Qed.


End ReadEndpoints.

Lemma metrics_fraud_rate_witness :
  (0 <= Endpoints.fraudRate (Endpoints.get_metrics empty_state) <= 100)%Q.
Proof.
  destruct (metrics_fraud_rate empty_state) as (H & _).
  - split; simpl; lia.
  - exact H.
Defined.


